(** * deploy_vm.py: a shallow embedding of the Windows Server VM deployer

    The program reads a YAML configuration, renders two text artifacts
    (Autounattend.xml and setup.ps1), stages them on a floppy image and an
    ISO image through external tools, and writes the QEMU launch scripts.

    The embedding follows [src/deploy/deploy_vm.py] method by method.
    Python values are the [yaml] trees that [yaml.safe_load] builds, the
    methods of [WindowsVMDeployer] are computations in a state-and-exception
    monad over a [world] (the deployer object, the file system as far as the
    program looks at it, the standard output and the sequence of external
    actions), and what the host decides (tool exit statuses, the search
    path, directory listings) is a parameter of the development. *)

From Stdlib Require Import ZArith String Ascii List Bool Lia DecimalString.
From stdpp Require Import base gmap strings list.

Open Scope string_scope.
Open Scope list_scope.
Open Scope Z_scope.

Set Warnings "-register-all".

(** ** Python values *)

Module Py.

(** What [yaml.safe_load] returns for a document of scalars, sequences and
    mappings with string keys. Strings are UTF-8 byte strings, as the
    program writes them to its files. Floats and timestamps are not part
    of the model. *)
Inductive yaml : Type :=
| YNull
| YBool (b : bool)
| YInt (z : Z)
| YStr (s : string)
| YList (xs : list yaml)
| YMap (kvs : list (string * yaml)).

Inductive exc : Type :=
| KeyError (key : string)
| TypeError
| AttributeError
| CalledProcessError (returncode : Z) (cmd : list string)
| FileNotFoundError (path : string)
| OSError (path : string)
| SystemExit (code : Z).

Inductive outcome (A : Type) : Type :=
| Ret (a : A)
| Raise (e : exc).
Arguments Ret {A} a.
Arguments Raise {A} e.

(** First binding of a key; a loaded mapping has each key once. *)
Fixpoint assoc (k : string) (kvs : list (string * yaml)) : option yaml :=
  match kvs with
  | [] => None
  | (k', v) :: rest => if String.eqb k k' then Some v else assoc k rest
  end.

(** [d[k]] *)
Definition getitem (d : yaml) (k : string) : outcome yaml :=
  match d with
  | YMap kvs => match assoc k kvs with
                | Some v => Ret v
                | None => Raise (KeyError k)
                end
  | _ => Raise TypeError
  end.

(** [d.get(k, default)] *)
Definition get (d : yaml) (k : string) (dflt : yaml) : outcome yaml :=
  match d with
  | YMap kvs => match assoc k kvs with
                | Some v => Ret v
                | None => Ret dflt
                end
  | _ => Raise AttributeError
  end.

(** Truth value of an object in a condition. *)
Definition truthy (v : yaml) : bool :=
  match v with
  | YNull => false
  | YBool b => b
  | YInt z => negb (z =? 0)
  | YStr s => negb (String.eqb s "")
  | YList xs => match xs with [] => false | _ => true end
  | YMap kvs => match kvs with [] => false | _ => true end
  end.

(** [v == 'literal'] *)
Definition eq_str (v : yaml) (s : string) : bool :=
  match v with
  | YStr t => String.eqb t s
  | _ => false
  end.

(** The items a [for] loop visits. A string is visited character by
    character (here byte by byte). *)
Definition iter (v : yaml) : outcome (list yaml) :=
  match v with
  | YList xs => Ret xs
  | YMap kvs => Ret (map (fun kv => YStr (fst kv)) kvs)
  | YStr s => Ret (map (fun c => YStr (String c EmptyString)) (list_ascii_of_string s))
  | _ => Raise TypeError
  end.

Definition str_of_Z (z : Z) : string := NilZero.string_of_int (Z.to_int z).

Section Str.
(** [repr] of a list or a dict: its quoting rules are not modelled. *)
Variable repr_container : yaml -> string.

(** [str(v)], which is what an f-string hole without a format
    specification inserts. *)
Definition str (v : yaml) : string :=
  match v with
  | YNull => "None"
  | YBool true => "True"
  | YBool false => "False"
  | YInt z => str_of_Z z
  | YStr s => s
  | YList _ | YMap _ => repr_container v
  end.
End Str.

(** [sep.join(parts)] *)
Fixpoint join (sep : string) (parts : list string) : string :=
  match parts with
  | [] => ""
  | [p] => p
  | p :: rest => p +:+ sep +:+ join sep rest
  end.

(** A dict with string-literal keys looked up with an arbitrary object:
    [mapping.get(key, default)]. Lists and dicts are unhashable. *)
Fixpoint assoc_str (k : string) (m : list (string * string)) : option string :=
  match m with
  | [] => None
  | (k', v) :: rest => if String.eqb k k' then Some v else assoc_str k rest
  end.

Definition mapping_get (m : list (string * string)) (key : yaml) (dflt : string)
  : outcome string :=
  match key with
  | YStr s => Ret (match assoc_str s m with Some v => v | None => dflt end)
  | YNull | YBool _ | YInt _ => Ret dflt
  | YList _ | YMap _ => Raise TypeError
  end.

End Py.

(** ** The deployer's world *)

Module Deployer.
Import Py.

(** How an external command ended: with an exit status, or without being
    started because the executable was not found. *)
Inductive launch : Type :=
| Exited (returncode : Z)
| NotStarted.

(** What a directory entry is, as [is_file] and [is_dir] see it. *)
Inductive entry_kind : Type := IsFile | IsDir | IsOther.

(** The actions of the program on its host, in the order they happen. *)
Inductive event : Type :=
| EvRun (argv : list string) (res : launch)
| EvPopen (argv : list string) (log : string)
| EvMkdtemp (path : string)
| EvMkdir (path : string)
| EvOpen (path : string)
| EvWrite (path content : string)
| EvChmod (path : string) (mode : Z)
| EvCopy2 (src dst : string)
| EvCopytree (src dst : string)
| EvRmtree (path : string).

Record world : Type := World {
  config : yaml;            (* self.config *)
  vm_name : yaml;           (* self.vm_name *)
  work_dir : string;        (* str(self.work_dir) *)
  files : gset string;      (* the paths that exist *)
  stdout : list string;     (* one item per print call, oldest first *)
  events : list event;      (* oldest first *)
  temps : nat               (* temporary directories made so far *)
}.

Definition set_config (c : yaml) (w : world) : world :=
  World c (vm_name w) (work_dir w) (files w) (stdout w) (events w) (temps w).
Definition set_vm_name (n : yaml) (w : world) : world :=
  World (config w) n (work_dir w) (files w) (stdout w) (events w) (temps w).
Definition set_work_dir (d : string) (w : world) : world :=
  World (config w) (vm_name w) d (files w) (stdout w) (events w) (temps w).
Definition set_files (f : gset string) (w : world) : world :=
  World (config w) (vm_name w) (work_dir w) f (stdout w) (events w) (temps w).
Definition add_stdout (s : string) (w : world) : world :=
  World (config w) (vm_name w) (work_dir w) (files w) (stdout w ++ [s]) (events w) (temps w).
Definition add_event (e : event) (w : world) : world :=
  World (config w) (vm_name w) (work_dir w) (files w) (stdout w) (events w ++ [e]) (temps w).
Definition next_temp (w : world) : world :=
  World (config w) (vm_name w) (work_dir w) (files w) (stdout w) (events w) (S (temps w)).

(** What the host decides. *)
Record host : Type := Host {
  repr_container : yaml -> string;      (* repr of a list or dict *)
  which : string -> bool;               (* shutil.which(cmd) is not None *)
  path_expanduser : string -> string;   (* str(Path(s).expanduser()) *)
  joinpath : string -> string -> string;(* str(Path(a) / b) *)
  tool : list string -> world -> launch * gset string;
                                        (* how a command ends and what exists after it *)
  rmtree_fails : string -> world -> bool;
  iterdir : string -> world -> list (string * entry_kind);
                                        (* names and kinds of the entries of a directory *)
  mkdtemp_name : nat -> string;         (* the n-th temporary directory *)
  format_left : yaml -> nat -> outcome string;
                                        (* format(v, '<n'), the hole {v:<n} *)
  answer_is_yes : world -> bool         (* input().strip().lower() == 'y' *)
}.

(** ** State and exceptions *)

Definition M (A : Type) : Type := world -> outcome A * world.

#[global] Instance M_ret : MRet M := fun A a w => (Ret a, w).
#[global] Instance M_bind : MBind M := fun A B f m w =>
  match m w with
  | (Ret a, w') => f a w'
  | (Raise e, w') => (Raise e, w')
  end.

Definition raise {A : Type} (e : exc) : M A := fun w => (Raise e, w).
Definition lift {A : Type} (o : outcome A) : M A := fun w => (o, w).
Definition gets {A : Type} (f : world -> A) : M A := fun w => (Ret (f w), w).
Definition modify (f : world -> world) : M unit := fun w => (Ret tt, f w).

(** [try: body finally: cleanup]. An exception of the cleanup replaces
    the outcome of the body. *)
Definition try_finally {A : Type} (body : M A) (cleanup : M unit) : M A :=
  fun w =>
    let (r, w1) := body w in
    match cleanup w1 with
    | (Ret _, w2) => (r, w2)
    | (Raise e, w2) => (Raise e, w2)
    end.

(** [for x in xs: acc = body x acc] *)
Fixpoint for_each {A S : Type} (xs : list A) (acc : S) (body : A -> S -> M S) : M S :=
  match xs with
  | [] => mret acc
  | x :: rest => acc' ← body x acc; for_each rest acc' body
  end.

Definition print (s : string) : M unit := modify (add_stdout s).
Definition emit (e : event) : M unit := modify (add_event e).
Definition path_exists (p : string) : M bool :=
  gets (fun w => bool_decide (p ∈ files w)).

(** A command line must consist of strings. *)
Definition as_str (v : yaml) : outcome string :=
  match v with
  | YStr s => Ret s
  | _ => Raise TypeError
  end.

Fixpoint argv_of (args : list yaml) : outcome (list string) :=
  match args with
  | [] => Ret []
  | a :: rest =>
      match as_str a with
      | Raise e => Raise e
      | Ret s => match argv_of rest with
                 | Raise e => Raise e
                 | Ret ss => Ret (s :: ss)
                 end
      end
  end.

(** ** The text templates

    The templates are the program's string literals, character for
    character, except that a double quote is written as a backquote here
    (the program's text has no backquote) and [q] puts the double quote
    back. Escapes are resolved as Python resolves them: a doubled backslash
    is one backslash everywhere, and a doubled brace is one brace in an
    f-string only. *)

Definition dquote : ascii := ascii_of_nat 34.

Fixpoint q (s : string) : string :=
  match s with
  | EmptyString => EmptyString
  | String c rest => String (if Ascii.eqb c "`"%char then dquote else c) (q rest)
  end.

(** One LocalAccount element of Autounattend.xml (lines 212-222), cut at its holes:
    [password] stands for {user['password']}
    [description] stands for {user.get('description', '')}
    [username] stands for {user['username']}
    [group] stands for {user.get('group', 'Users')}
    [username] stands for {user['username']}. *)
Definition local_account_1 : string := Eval vm_compute in q
"
            <LocalAccount wcm:action=`add`>
                <Password>
                    <Value>".
Definition local_account_2 : string := Eval vm_compute in q
"</Value>
                    <PlainText>true</PlainText>  <!-- Heslo v plain textu (pro automatizaci) -->
                </Password>
                <Description>".
Definition local_account_3 : string := Eval vm_compute in q
"</Description>  <!-- Popis účtu -->
                <DisplayName>".
Definition local_account_4 : string := Eval vm_compute in q
"</DisplayName>  <!-- Zobrazované jméno -->
                <Group>".
Definition local_account_5 : string := Eval vm_compute in q
"</Group>  <!-- Skupina (Users/Administrators) -->
                <Name>".
Definition local_account_6 : string := Eval vm_compute in q
"</Name>  <!-- Přihlašovací jméno -->
            </LocalAccount>".
Definition local_account (password description username group : string) : string :=
  local_account_1 +:+ password +:+ local_account_2 +:+ description +:+ local_account_3 +:+ username +:+ local_account_4 +:+ group +:+ local_account_5 +:+ username +:+ local_account_6.

(** Autounattend.xml (lines 233-384), cut at its holes:
    [image_name] stands for {image_name}
    [computer_name] stands for {computer_name}
    [administrator_password] stands for {administrator_password}
    [administrator_password] stands for {administrator_password}
    [users_xml] stands for {users_xml}. *)
Definition xml_content_1 : string := Eval vm_compute in q
"<?xml version=`1.0` encoding=`utf-8`?>
<unattend xmlns=`urn:schemas-microsoft-com:unattend`>
    
    <!-- ============================================================ -->
    <!-- PASS 1: windowsPE - Instalace Windows (před instalací OS) -->
    <!-- ============================================================ -->
    <settings pass=`windowsPE`>
        
        <!-- Nastavení jazyka a regionu -->
        <component name=`Microsoft-Windows-International-Core-WinPE` processorArchitecture=`amd64` publicKeyToken=`31bf3856ad364e35` language=`neutral` versionScope=`nonSxS` xmlns:wcm=`http://schemas.microsoft.com/WMIConfig/2002/State` xmlns:xsi=`http://www.w3.org/2001/XMLSchema-instance`>
            <SetupUILanguage>
                <UILanguage>en-US</UILanguage>  <!-- Jazyk instalačního rozhraní -->
            </SetupUILanguage>
            <InputLocale>en-US</InputLocale>     <!-- Rozložení klávesnice -->
            <SystemLocale>en-US</SystemLocale>   <!-- Systémový jazyk -->
            <UILanguage>en-US</UILanguage>       <!-- Jazyk uživatelského rozhraní -->
            <UserLocale>en-US</UserLocale>       <!-- Formát data, času, měny -->
        </component>
        
        <!-- Automatické načtení VirtIO ovladačů během instalace -->
        <!-- Bez těchto ovladačů by Windows neviděl virtio disk a síťovou kartu -->
        <component name=`Microsoft-Windows-PnpCustomizationsWinPE` processorArchitecture=`amd64` publicKeyToken=`31bf3856ad364e35` language=`neutral` versionScope=`nonSxS` xmlns:wcm=`http://schemas.microsoft.com/WMIConfig/2002/State` xmlns:xsi=`http://www.w3.org/2001/XMLSchema-instance`>
            <DriverPaths>
                <!-- Ovladač pro virtio storage (disk) - Windows musí vidět virtuální disk -->
                <PathAndCredentials wcm:action=`add` wcm:keyValue=`1`>
                    <Path>D:\viostor\2k22\amd64</Path>  <!-- D: = virtio-win.iso -->
                </PathAndCredentials>
                <!-- Ovladač pro virtio network (síť) - pro síťovou komunikaci -->
                <PathAndCredentials wcm:action=`add` wcm:keyValue=`2`>
                    <Path>D:\NetKVM\2k22\amd64</Path>
                </PathAndCredentials>
            </DriverPaths>
        </component>
        
        <!-- Hlavní instalace Windows - disk konfigurace a výběr edice -->
        <component name=`Microsoft-Windows-Setup` processorArchitecture=`amd64` publicKeyToken=`31bf3856ad364e35` language=`neutral` versionScope=`nonSxS` xmlns:wcm=`http://schemas.microsoft.com/WMIConfig/2002/State` xmlns:xsi=`http://www.w3.org/2001/XMLSchema-instance`>
            
            <!-- Konfigurace disku - vytvoření a formátování partitionů -->
            <DiskConfiguration>
                <Disk wcm:action=`add`>
                    <DiskID>0</DiskID>                    <!-- První disk (virtuální disk VM) -->
                    <WillWipeDisk>true</WillWipeDisk>     <!-- Smazat všechna stávající data -->
                    <CreatePartitions>
                        <!-- Vytvoření jedné velké partition pro Windows -->
                        <CreatePartition wcm:action=`add`>
                            <Order>1</Order>              <!-- První (a jediná) partition -->
                            <Type>Primary</Type>          <!-- Primární partition (bootovací) -->
                            <Extend>true</Extend>         <!-- Použít celou dostupnou kapacitu -->
                        </CreatePartition>
                    </CreatePartitions>
                    <ModifyPartitions>
                        <!-- Formátování a označení partition -->
                        <ModifyPartition wcm:action=`add`>
                            <Active>true</Active>          <!-- Nastavení jako aktivní (bootovací) -->
                            <Format>NTFS</Format>          <!-- Souborový systém NTFS -->
                            <Label>Windows</Label>         <!-- Název svazku -->
                            <Order>1</Order>
                            <PartitionID>1</PartitionID>
                        </ModifyPartition>
                    </ModifyPartitions>
                </Disk>
            </DiskConfiguration>
            
            <!-- Výběr edice Windows k instalaci -->
            <ImageInstall>
                <OSImage>
                    <InstallFrom>
                        <!-- Specifikace přesného názvu obrazu z install.wim -->
                        <MetaData wcm:action=`add`>
                            <Key>/IMAGE/NAME</Key>
                            <Value>".
Definition xml_content_2 : string := Eval vm_compute in q
"</Value>  <!-- Např. `Windows Server 2022 SERVERSTANDARD` -->
                        </MetaData>
                    </InstallFrom>
                    <InstallTo>
                        <DiskID>0</DiskID>              <!-- Instalovat na disk 0 -->
                        <PartitionID>1</PartitionID>    <!-- Na partition 1 -->
                    </InstallTo>
                </OSImage>
            </ImageInstall>
            
            <!-- Základní uživatelské údaje pro instalaci -->
            <UserData>
                <AcceptEula>true</AcceptEula>      <!-- Automatické přijetí licenčních podmínek -->
                <FullName>Administrator</FullName>  <!-- Celé jméno uživatele -->
                <Organization>Organization</Organization>  <!-- Název organizace -->
            </UserData>
        </component>
    </settings>
    
    <!-- ============================================================ -->
    <!-- PASS 2: specialize - Konfigurace systému (během instalace) -->
    <!-- ============================================================ -->
    <settings pass=`specialize`>
        <component name=`Microsoft-Windows-Shell-Setup` processorArchitecture=`amd64` publicKeyToken=`31bf3856ad364e35` language=`neutral` versionScope=`nonSxS` xmlns:wcm=`http://schemas.microsoft.com/WMIConfig/2002/State` xmlns:xsi=`http://www.w3.org/2001/XMLSchema-instance`>
            <!-- Nastavení jména počítače (hostname) -->
            <ComputerName>".
Definition xml_content_3 : string := Eval vm_compute in q
"</ComputerName>
        </component>
    </settings>
    
    <!-- ============================================================ -->
    <!-- PASS 3: oobeSystem - Po instalaci (OOBE = Out-Of-Box Experience) -->
    <!-- ============================================================ -->
    <settings pass=`oobeSystem`>
        <component name=`Microsoft-Windows-Shell-Setup` processorArchitecture=`amd64` publicKeyToken=`31bf3856ad364e35` language=`neutral` versionScope=`nonSxS` xmlns:wcm=`http://schemas.microsoft.com/WMIConfig/2002/State` xmlns:xsi=`http://www.w3.org/2001/XMLSchema-instance`>
            
            <!-- Automatické přihlášení Administratorů po instalaci -->
            <!-- Umožní spustit setup skripty bez manuálního přihlášení -->
            <AutoLogon>
                <Password>
                    <Value>".
Definition xml_content_4 : string := Eval vm_compute in q
"</Value>
                    <PlainText>true</PlainText>
                </Password>
                <Enabled>true</Enabled>                <!-- Povolit automatické přihlášení -->
                <Username>Administrator</Username>     <!-- Přihlásit jako Administrator -->
            </AutoLogon>
            
            <!-- Nastavení OOBE (původní konfigurace Windows) -->
            <!-- Skrytí všech dialogů pro plně automatickou instalaci -->
            <OOBE>
                <HideEULAPage>true</HideEULAPage>                      <!-- Skrýt licenční podmínky -->
                <HideLocalAccountScreen>true</HideLocalAccountScreen>  <!-- Skrýt vytváření účtu -->
                <HideOnlineAccountScreens>true</HideOnlineAccountScreens>  <!-- Bez Microsoft účtu -->
                <HideWirelessSetupInOOBE>true</HideWirelessSetupInOOBE>  <!-- Bez WiFi nastavení -->
                <ProtectYourPC>3</ProtectYourPC>  <!-- Zakázat Windows Defender (3=disable) -->
            </OOBE>
            
            <!-- Konfigurace uživatelských účtů -->
            <UserAccounts>
                <!-- Heslo pro vestavěný Administrator účet -->
                <AdministratorPassword>
                    <Value>".
Definition xml_content_5 : string := Eval vm_compute in q
"</Value>
                    <PlainText>true</PlainText>
                </AdministratorPassword>
                <!-- Přidání lokálních uživatelských účtů z konfigurace -->
                <LocalAccounts>".
Definition xml_content_6 : string := Eval vm_compute in q
"
                </LocalAccounts>
            </UserAccounts>
            
            <!-- Příkazy ke spuštění při prvním přihlášení -->
            <!-- Tyto příkazy se spustí AUTOMATICKY po prvním bootu Windows -->
            <FirstLogonCommands>
                <SynchronousCommand wcm:action=`add`>
                    <Order>1</Order>  <!-- Pořadí spuštění (může být více příkazů) -->
                    <!-- Spuštění PowerShell setup skriptu z config ISO (F:) -->
                    <!-- ExecutionPolicy Bypass povolí spuštění nepodepsaných skriptů -->
                    <CommandLine>powershell -ExecutionPolicy Bypass -File F:\setup.ps1</CommandLine>
                    <Description>Run setup script</Description>
                </SynchronousCommand>
            </FirstLogonCommands>
        </component>
    </settings>
</unattend>".
Definition xml_content (image_name computer_name administrator_password users_xml : string) : string :=
  xml_content_1 +:+ image_name +:+ xml_content_2 +:+ computer_name +:+ xml_content_3 +:+ administrator_password +:+ xml_content_4 +:+ administrator_password +:+ xml_content_5 +:+ users_xml +:+ xml_content_6.

(** setup.ps1, from the start through the two web-server firewall rules (lines 414-440). *)
Definition script_head_1 : string := Eval vm_compute in q
"# Windows Server Setup Script
# Tento skript se spustí automaticky po instalaci Windows
# (voláno z Autounattend.xml -> FirstLogonCommands)

# Začátek logování - všechny výstupy se uloží do C:\setup_log.txt
# Transcript zachytí všechny Write-Host výstupy a chyby
Start-Transcript -Path `C:\setup_log.txt`

Write-Host `Začínám konfiguraci Windows Serveru...`

# === INSTALACE IIS WEB SERVERU ===
Write-Host `Instaluji IIS Web Server...`
# Install-WindowsFeature - PowerShell cmdlet pro instalaci Windows funkcí/rolí
# Web-Server = IIS (Internet Information Services)
# IncludeManagementTools = přidá i grafické nástroje pro správu
Install-WindowsFeature -Name Web-Server -IncludeManagementTools

# Web-Mgmt-Console = IIS Manager (grafická konzole pro správu IIS)
Install-WindowsFeature -Name Web-Mgmt-Console

# === KONFIGURACE FIREWALLU ===
Write-Host `Konfiguruji firewall...`
# Otevření portů pro HTTP a HTTPS komunikaci
# Bez těchto pravidel by web server nebyl přístupný zvenku
New-NetFirewallRule -DisplayName `Allow HTTP` -Direction Inbound -Protocol TCP -LocalPort 80 -Action Allow
New-NetFirewallRule -DisplayName `Allow HTTPS` -Direction Inbound -Protocol TCP -LocalPort 443 -Action Allow
".
Definition script_head : string :=
  script_head_1.

(** setup.ps1, the Remote Desktop block (lines 445-459). *)
Definition script_rdp : string := Eval vm_compute in q
"
# === KONFIGURACE REMOTE DESKTOP (RDP) ===
Write-Host `Konfiguruji Remote Desktop...`

# Povolení Remote Desktop
Set-ItemProperty -Path 'HKLM:\System\CurrentControlSet\Control\Terminal Server' -Name `fDenyTSConnections` -Value 0

# Povolení Remote Desktop přes firewall
Enable-NetFirewallRule -DisplayGroup `Remote Desktop`

# Nebo explicitní vytvoření pravidla (pokud neexistuje)
New-NetFirewallRule -DisplayName `Allow RDP` -Direction Inbound -Protocol TCP -LocalPort 3389 -Action Allow -ErrorAction SilentlyContinue

Write-Host `Remote Desktop povolen na portu 3389`
".

(** setup.ps1, web content, IIS restart and the heading of the user section; not an f-string, so its doubled braces stay doubled (lines 461-483). *)
Definition script_web : string := Eval vm_compute in q
"
# === NASAZENÍ WEBOVÉHO PROJEKTU ===
Write-Host `Nastavuji webový projekt...`
# Výchozí webová složka IIS
$webRoot = `C:\inetpub\wwwroot`

# Zkopírování souborů z CD (F:\web\*)
# F: = config ISO připojené jako třetí CD-ROM
if (Test-Path `F:\web`) {{
    Write-Host `Kopíruji webové soubory...`
    # Copy-Item rekurzivně zkopíruje všechny soubory a složky
    # -Force přepíše existující soubory
    Copy-Item -Path `F:\web\*` -Destination $webRoot -Recurse -Force
}}

# === RESTART IIS ===
Write-Host `Restartuji IIS...`
# iisreset - příkaz pro restart IIS (aplikuje změny)
iisreset

# === KONFIGURACE UŽIVATELŮ ===
Write-Host `Konfiguruji uživatele...`
".

(** setup.ps1, the lines for one member of Administrators (lines 489-494), cut at its holes:
    [username] stands for {user['username']}
    [username] stands for {user['username']}. *)
Definition script_admin_1 : string := Eval vm_compute in q
"
# Přidání ".
Definition script_admin_2 : string := Eval vm_compute in q
" do skupiny Administrators
# Add-LocalGroupMember přidá uživatele do lokální skupiny
# ErrorAction SilentlyContinue = nehlásit chybu, pokud už je v skupině
Add-LocalGroupMember -Group `Administrators` -Member `".
Definition script_admin_3 : string := Eval vm_compute in q
"` -ErrorAction SilentlyContinue
".
Definition script_admin (username : string) : string :=
  script_admin_1 +:+ username +:+ script_admin_2 +:+ username +:+ script_admin_3.

(** setup.ps1, from the IE ESC section to the end (lines 496-530). *)
Definition script_tail : string := Eval vm_compute in q
"
# === VYPNUTÍ IE ENHANCED SECURITY CONFIGURATION ===
# IE ESC znemožňuje surfání na internetu - vypínáme pro testování
Write-Host `Vypínám IE Enhanced Security Configuration...`
# Nastavení registru - IsInstalled=0 vypne ESC
$AdminKey = `HKLM:\SOFTWARE\Microsoft\Active Setup\Installed Components\{A509B1A7-37EF-4b3f-8CFC-4F3A74704073}`
$UserKey = `HKLM:\SOFTWARE\Microsoft\Active Setup\Installed Components\{A509B1A8-37EF-4b3f-8CFC-4F3A74704073}`
Set-ItemProperty -Path $AdminKey -Name `IsInstalled` -Value 0 -Force
Set-ItemProperty -Path $UserKey -Name `IsInstalled` -Value 0 -Force

# === ZOBRAZENÍ INFORMAČNÍHO SOUHRNU ===
Write-Host ``
Write-Host `======================================`
Write-Host `Konfigurace dokončena!`
Write-Host `======================================`
Write-Host ``
Write-Host `IIS Web Server běží na: http://localhost`
Write-Host ``
Write-Host `Uživatelé systému:`
# Výpis všech lokálních uživatelů
Get-LocalUser | Select-Object Name, Enabled | Format-Table

# Ukončení logování
Stop-Transcript

Write-Host `Setup dokončen. Restartování...`

# === VYPNUTÍ AUTOMATICKÉHO PŘIHLÁŠENÍ ===
# Po prvním přihlášení už nechceme auto-login
# Smazání AutoAdminLogon klíče z registru
Remove-ItemProperty -Path `HKLM:\SOFTWARE\Microsoft\Windows NT\CurrentVersion\Winlogon` -Name `AutoAdminLogon` -ErrorAction SilentlyContinue

# Odpojení CD jednotky
Write-Host `Odpojuji instalační média...`
".

(** The fallback index.html (lines 641-688), cut at its holes:
    [project_name] stands for {self.config['windows']['web_project']['name']}
    [project_name] stands for {self.config['windows']['web_project']['name']}
    [computer_name] stands for {self.config['windows']['computer_name']}. *)
Definition index_html_1 : string := Eval vm_compute in q
"<!DOCTYPE html>
<html lang=`cs`>
<head>
    <meta charset=`UTF-8`>
    <meta name=`viewport` content=`width=device-width, initial-scale=1.0`>
    <title>".
Definition index_html_2 : string := Eval vm_compute in q
"</title>
    <style>
        body {
            font-family: Arial, sans-serif;
            max-width: 800px;
            margin: 50px auto;
            padding: 20px;
            background: linear-gradient(135deg, #667eea 0%, #764ba2 100%);
            color: white;
        }
        .container {
            background: rgba(255, 255, 255, 0.1);
            padding: 40px;
            border-radius: 10px;
            backdrop-filter: blur(10px);
        }
        h1 {
            text-align: center;
            margin-bottom: 30px;
        }
        .info {
            background: rgba(255, 255, 255, 0.2);
            padding: 20px;
            border-radius: 5px;
            margin-top: 20px;
        }
    </style>
</head>
<body>
    <div class=`container`>
        <h1>🚀 ".
Definition index_html_3 : string := Eval vm_compute in q
"</h1>
        <p>Vítejte na automaticky nasazeném Windows Server 2022!</p>
        <div class=`info`>
            <h2>Informace o serveru:</h2>
            <ul>
                <li>Server: ".
Definition index_html_4 : string := Eval vm_compute in q
"</li>
                <li>IIS Web Server: Aktivní</li>
                <li>Datum nasazení: <script>document.write(new Date().toLocaleDateString('cs-CZ'))</script></li>
            </ul>
        </div>
    </div>
</body>
</html>".
Definition index_html (project_name computer_name : string) : string :=
  index_html_1 +:+ project_name +:+ index_html_2 +:+ project_name +:+ index_html_3 +:+ computer_name +:+ index_html_4.

(** The install-boot script run_<name>.sh (lines 791-817), cut at its holes:
    [cpus] stands for {cpus}
    [memory] stands for {memory}
    [requires_sudo] stands for {requires_sudo}
    [vm_name] stands for {self.vm_name}
    [cpus] stands for {cpus}
    [memory] stands for {memory}
    [disk_path] stands for {disk_path}
    [floppy_path] stands for {floppy_path}
    [virtio_iso] stands for {virtio_iso}
    [iso_path] stands for {iso_path}
    [config_iso_path] stands for {config_iso_path}
    [vnc_port] stands for {vnc_port}
    [network_config] stands for {network_config}. *)
Definition qemu_cmd_1 : string := Eval vm_compute in q
"#!/bin/bash
# Spuštění QEMU virtuálního stroje pro Windows Server 2022
# Tento skript byl automaticky vygenerován pomocí deploy_vm.py

# Název VM (zobrazí se v procesech)
# Q35 chipset s KVM akcelerací (hardware virtualizace)
# CPU hostitele pro nejlepší výkon
# Počet CPU jader: ".
Definition qemu_cmd_2 : string := Eval vm_compute in q
"
# RAM: ".
Definition qemu_cmd_3 : string := Eval vm_compute in q
"
".
Definition qemu_cmd_4 : string := Eval vm_compute in q
"qemu-system-x86_64 \
    -name `".
Definition qemu_cmd_5 : string := Eval vm_compute in q
"` \
    -machine type=q35,accel=kvm \
    -cpu host \
    -smp ".
Definition qemu_cmd_6 : string := Eval vm_compute in q
" \
    -m ".
Definition qemu_cmd_7 : string := Eval vm_compute in q
" \
    -drive file=".
Definition qemu_cmd_8 : string := Eval vm_compute in q
",if=virtio,format=qcow2 \
    -drive file=".
Definition qemu_cmd_9 : string := Eval vm_compute in q
",if=floppy,format=raw \
    -drive file=".
Definition qemu_cmd_10 : string := Eval vm_compute in q
",media=cdrom,index=1 \
    -drive file=".
Definition qemu_cmd_11 : string := Eval vm_compute in q
",media=cdrom,index=2 \
    -drive file=".
Definition qemu_cmd_12 : string := Eval vm_compute in q
",media=cdrom,index=3 \
    -boot order=d \
    -vnc :".
Definition qemu_cmd_13 : string := Eval vm_compute in q
" \
    ".
Definition qemu_cmd_14 : string := Eval vm_compute in q
" \
    -rtc base=localtime \
    -usbdevice tablet \
    `$@`
".
Definition qemu_cmd (cpus memory requires_sudo vm_name disk_path floppy_path virtio_iso iso_path config_iso_path vnc_port network_config : string) : string :=
  qemu_cmd_1 +:+ cpus +:+ qemu_cmd_2 +:+ memory +:+ qemu_cmd_3 +:+ requires_sudo +:+ qemu_cmd_4 +:+ vm_name +:+ qemu_cmd_5 +:+ cpus +:+ qemu_cmd_6 +:+ memory +:+ qemu_cmd_7 +:+ disk_path +:+ qemu_cmd_8 +:+ floppy_path +:+ qemu_cmd_9 +:+ virtio_iso +:+ qemu_cmd_10 +:+ iso_path +:+ qemu_cmd_11 +:+ config_iso_path +:+ qemu_cmd_12 +:+ vnc_port +:+ qemu_cmd_13 +:+ network_config +:+ qemu_cmd_14.

(** The banner printed when the run script is written (lines 829-852), cut at its holes:
    [vm_name_48] stands for {self.vm_name:f'<48'}
    [disk_path_48] stands for {str(disk_path):f'<48'}
    [memory_48] stands for {memory:f'<48'}
    [cpus_48] stands for {cpus:f'<48'}
    [vnc_port] stands for {vnc_port}
    [network_mode_48] stands for {network_mode:f'<48'}
    [port_forward_info_62] stands for {port_forward_info:f'<62'}
    [run_script_path_58] stands for {str(run_script_path):f'<58'}
    [vnc_port] stands for {vnc_port}. *)
Definition ready_banner_1 : string := Eval vm_compute in q
"
╔════════════════════════════════════════════════════════════════╗
║              Virtuální stroj je připraven ke spuštění          ║
╠════════════════════════════════════════════════════════════════╣
║ VM Name:       ".
Definition ready_banner_2 : string := Eval vm_compute in q
"                              ║
║ Disk:          ".
Definition ready_banner_3 : string := Eval vm_compute in q
"                            ║
║ Memory:        ".
Definition ready_banner_4 : string := Eval vm_compute in q
"                                    ║
║ CPUs:          ".
Definition ready_banner_5 : string := Eval vm_compute in q
"                                      ║
║ VNC Port:      590".
Definition ready_banner_6 : string := Eval vm_compute in q
" (připojte se z Win11)             ║
║ Network:       ".
Definition ready_banner_7 : string := Eval vm_compute in q
"                              ║
║ ".
Definition ready_banner_8 : string := Eval vm_compute in q
"                                        ║
╠════════════════════════════════════════════════════════════════╣
║ Spuštění VM:                                                   ║
║   ".
Definition ready_banner_9 : string := Eval vm_compute in q
"                                   ║
║                                                                ║
║ VNC připojení:                                                 ║
║   <IP_serveru>:590".
Definition ready_banner_10 : string := Eval vm_compute in q
"                                   ║
║                                                                ║
║ Po dokončení instalace (15-30 minut):                          ║
║   - Windows se automaticky nainstaluje a nakonfiguruje         ║
║   - IIS Web Server bude dostupný                               ║
║   - Webová stránka: http://localhost:8080                      ║
╚════════════════════════════════════════════════════════════════╝
".
Definition ready_banner (vm_name_48 disk_path_48 memory_48 cpus_48 vnc_port network_mode_48 port_forward_info_62 run_script_path_58 : string) : string :=
  ready_banner_1 +:+ vm_name_48 +:+ ready_banner_2 +:+ disk_path_48 +:+ ready_banner_3 +:+ memory_48 +:+ ready_banner_4 +:+ cpus_48 +:+ ready_banner_5 +:+ vnc_port +:+ ready_banner_6 +:+ network_mode_48 +:+ ready_banner_7 +:+ port_forward_info_62 +:+ ready_banner_8 +:+ run_script_path_58 +:+ ready_banner_9 +:+ vnc_port +:+ ready_banner_10.

(** The direct-boot script boot_<name>.sh (lines 886-903), cut at its holes:
    [requires_sudo] stands for {requires_sudo}
    [vm_name] stands for {self.vm_name}
    [cpus] stands for {cpus}
    [memory] stands for {memory}
    [disk_path] stands for {disk_path}
    [vnc_port] stands for {vnc_port}
    [network_config] stands for {network_config}. *)
Definition boot_cmd_1 : string := Eval vm_compute in q
"#!/bin/bash
# Spuštění již nainstalovaného Windows serveru
# Bootuje z virtuálního disku, nepřipojuje instalační ISO

".
Definition boot_cmd_2 : string := Eval vm_compute in q
"qemu-system-x86_64 \
    -name `".
Definition boot_cmd_3 : string := Eval vm_compute in q
"` \
    -machine type=q35,accel=kvm \
    -cpu host \
    -smp ".
Definition boot_cmd_4 : string := Eval vm_compute in q
" \
    -m ".
Definition boot_cmd_5 : string := Eval vm_compute in q
" \
    -drive file=".
Definition boot_cmd_6 : string := Eval vm_compute in q
",if=virtio,format=qcow2 \
    -boot c \
    -vnc :".
Definition boot_cmd_7 : string := Eval vm_compute in q
" \
    ".
Definition boot_cmd_8 : string := Eval vm_compute in q
" \
    -rtc base=localtime \
    -usbdevice tablet \
    `$@`
".
Definition boot_cmd (requires_sudo vm_name cpus memory disk_path vnc_port network_config : string) : string :=
  boot_cmd_1 +:+ requires_sudo +:+ boot_cmd_2 +:+ vm_name +:+ boot_cmd_3 +:+ cpus +:+ boot_cmd_4 +:+ memory +:+ boot_cmd_5 +:+ disk_path +:+ boot_cmd_6 +:+ vnc_port +:+ boot_cmd_7 +:+ network_config +:+ boot_cmd_8.

(** The banner of deploy (lines 928-932). *)
Definition deploy_banner_1 : string := Eval vm_compute in q
"
╔════════════════════════════════════════════════════════════════╗
║        Windows Server VM Deployment - QEMU/KVM                 ║
╚════════════════════════════════════════════════════════════════╝
".
Definition deploy_banner : string :=
  deploy_banner_1.


(** ** References into the configuration

    [self.config] is one object graph that every method reads through the
    same reference. A list or dict obtained from it is that stored object,
    not a copy: changing it in place changes the configuration. Such an
    object is named here by the keys that lead to it from the root; an
    object made by the method itself is local to it. *)
Inductive ref : Type :=
| InConfig (path : list string)
| Local (v : yaml).

Fixpoint lookup_path (path : list string) (v : yaml) : option yaml :=
  match path with
  | [] => Some v
  | k :: rest =>
      match v with
      | YMap kvs => match assoc k kvs with
                    | Some v' => lookup_path rest v'
                    | None => None
                    end
      | _ => None
      end
  end.

Fixpoint alter_first (f : yaml -> yaml) (k : string) (kvs : list (string * yaml))
  : list (string * yaml) :=
  match kvs with
  | [] => []
  | (k', v) :: rest =>
      if String.eqb k k' then (k', f v) :: rest else (k', v) :: alter_first f k rest
  end.

Fixpoint update_path (path : list string) (new : yaml) (v : yaml) : yaml :=
  match path with
  | [] => new
  | k :: rest =>
      match v with
      | YMap kvs => YMap (alter_first (update_path rest new) k kvs)
      | _ => v
      end
  end.

(** [d.get(k, default)] as a reference: the stored object when the key is
    there, else the default the caller has just built. [d] is the object
    at [path]. *)
Definition get_ref (path : list string) (d : yaml) (k : string) (dflt : yaml)
  : outcome ref :=
  match d with
  | YMap kvs => match assoc k kvs with
                | Some _ => Ret (InConfig (path ++ [k]))
                | None => Ret (Local dflt)
                end
  | _ => Raise AttributeError
  end.

(** The object a reference stands for, now. *)
Definition deref (r : ref) : M yaml :=
  match r with
  | Local v => mret v
  | InConfig path =>
      cfg ← gets config;
      match lookup_path path cfg with
      | Some v => mret v
      | None => raise TypeError
      end
  end.

(** [r.append(x)]: only a list has [append]; the list changes in place. *)
Definition append (r : ref) (x : yaml) : M ref :=
  v ← deref r;
  match v with
  | YList xs =>
      match r with
      | Local _ => mret (Local (YList (xs ++ [x])))
      | InConfig path =>
          cfg ← gets config;
          modify (set_config (update_path path (YList (xs ++ [x])) cfg));;
          mret r
      end
  | _ => raise AttributeError
  end.

(** ** The methods of WindowsVMDeployer *)

Section Methods.
Variable H : host.

Definition str : yaml -> string := Py.str (repr_container H).

(** [subprocess.run(cmd, check=True)] *)
Definition subprocess_run (cmd : list yaml) : M unit :=
  argv ← lift (argv_of cmd);
  w ← gets id;
  let (res, fs) := tool H argv w in
  emit (EvRun argv res);;
  modify (set_files fs);;
  match res with
  | Exited 0 => mret tt
  | Exited rc => raise (CalledProcessError rc argv)
  | NotStarted => raise (FileNotFoundError (hd "" argv))
  end.

(** [tempfile.mkdtemp()] *)
Definition mkdtemp : M string :=
  n ← gets temps;
  let d := mkdtemp_name H n in
  modify next_temp;;
  emit (EvMkdtemp d);;
  fs ← gets files;
  modify (set_files ({[ d ]} ∪ fs));;
  mret d.

(** [shutil.rmtree(path)] *)
Definition rmtree (path : string) : M unit :=
  w ← gets id;
  emit (EvRmtree path);;
  if rmtree_fails H path w then raise (OSError path)
  else modify (set_files (files w ∖ {[ path ]})).

(** [open(path, 'w')]: the file exists from here on. *)
Definition open_w (path : string) : M unit :=
  emit (EvOpen path);;
  fs ← gets files;
  modify (set_files ({[ path ]} ∪ fs)).

(** [f.write(content)] and the end of the [with] block. *)
Definition write (path content : string) : M unit :=
  emit (EvWrite path content).

(** [path.mkdir(...)] with [exist_ok=True] *)
Definition mkdir (path : string) : M unit :=
  emit (EvMkdir path);;
  fs ← gets files;
  modify (set_files ({[ path ]} ∪ fs)).

(** [Path(v).expanduser()] *)
Definition expand (v : yaml) : M string :=
  s ← lift (as_str v);
  mret (path_expanduser H s).

(** *** [__init__], after [yaml.safe_load] has returned [doc] *)
Definition init (doc : yaml) : M unit :=
  modify (set_config doc);;
  vm ← lift (getitem doc "vm");
  name ← lift (getitem vm "name");
  modify (set_vm_name name);;
  vm' ← lift (getitem doc "vm");
  wd ← lift (getitem vm' "work_dir");
  d ← expand wd;
  modify (set_work_dir d);;
  mkdir d.

(** *** [check_dependencies] *)
Definition required_commands : list string :=
  ["qemu-system-x86_64"; "qemu-img"; "mkisofs"].

Definition check_dependencies : M unit :=
  print "Kontrola závislostí...";;
  missing ← for_each required_commands ([] : list string)
    (fun cmd missing =>
       if negb (which H cmd) then mret (missing ++ [cmd]) else mret missing);
  match missing with
  | _ :: _ =>
      print ("CHYBA: Chybějící závislosti: " +:+ join ", " missing);;
      print "Nainstalujte: sudo apt-get install qemu-kvm qemu-utils genisoimage";;
      raise (SystemExit 1)
  | [] => mret tt
  end;;
  print "Všechny závislosti jsou dostupné".

(** *** [create_disk_image] *)
Definition create_disk_image : M string :=
  wd ← gets work_dir;
  name ← gets vm_name;
  let disk_path := joinpath H wd (str name +:+ ".qcow2") in
  cfg ← gets config;
  vm ← lift (getitem cfg "vm");
  disk_size ← lift (getitem vm "disk_size");
  ex ← path_exists disk_path;
  if (ex : bool) return M string then
    print ("Disk " +:+ disk_path +:+ " již existuje, používám existující");;
    mret disk_path
  else
    print ("Vytvářím virtuální disk " +:+ str disk_size +:+ "...");;
    subprocess_run
      [YStr "qemu-img"; YStr "create"; YStr "-f"; YStr "qcow2"; YStr disk_path; disk_size];;
    print ("Disk vytvořen: " +:+ disk_path);;
    mret disk_path.

(** *** [generate_autounattend_xml] *)
Definition edition_mapping : list (string * string) :=
  [ ("standard", "Windows Server 2022 SERVERSTANDARD");
    ("core", "Windows Server 2022 SERVERSTANDARDCORE");
    ("datacenter", "Windows Server 2022 SERVERDATACENTER");
    ("datacenter-core", "Windows Server 2022 SERVERDATACENTERCORE") ].

(** The body of the loop over the users: the f-string looks up password,
    description, username, group and username again, in this order; the
    second lookup of the username gives what the first gave. *)
Definition account_step (user : yaml) (users_xml : string) : M string :=
  password ← lift (getitem user "password");
  description ← lift (get user "description" (YStr ""));
  username ← lift (getitem user "username");
  group ← lift (get user "group" (YStr "Users"));
  mret (users_xml +:+
        local_account (str password) (str description) (str username) (str group)).

Definition generate_autounattend_xml : M string :=
  print "Generuji Autounattend.xml...";;
  cfg ← gets config;
  windows ← lift (getitem cfg "windows");
  windows_edition ← lift (get windows "windows_edition" (YStr "standard"));
  image_name ← lift (mapping_get edition_mapping windows_edition
                       "Windows Server 2022 SERVERSTANDARD");
  print ("  Vybraná edice: " +:+ image_name);;
  cfg ← gets config;
  windows ← lift (getitem cfg "windows");
  users ← lift (getitem windows "users");
  items ← lift (iter users);
  users_xml ← for_each items "" account_step;
  cfg ← gets config;
  windows ← lift (getitem cfg "windows");
  administrator_password ← lift (get windows "administrator_password" (YStr "Admin123!"));
  cfg ← gets config;
  windows ← lift (getitem cfg "windows");
  computer_name ← lift (get windows "computer_name" (YStr "WIN-SERVER"));
  mret (xml_content image_name (str computer_name) (str administrator_password) users_xml).

(** *** [generate_setup_script] *)
Definition admin_step (user : yaml) (script_content : string) : M string :=
  group ← lift (get user "group" (YStr "Users"));
  if eq_str group "Administrators" return M string then
    username ← lift (getitem user "username");
    mret (script_content +:+ script_admin (str username))
  else mret script_content.

Definition generate_setup_script : M string :=
  print "Generuji setup.ps1...";;
  cfg ← gets config;
  windows ← lift (getitem cfg "windows");
  web_project ← lift (getitem windows "web_project");
  web_source ← lift (getitem web_project "source_folder");
  let script_content := script_head in
  cfg ← gets config;
  vm ← lift (getitem cfg "vm");
  rdp_config ← lift (get vm "rdp" (YMap []));
  enabled ← lift (get rdp_config "enabled" (YBool false));
  let script_content :=
    if truthy enabled then script_content +:+ script_rdp else script_content in
  let script_content := script_content +:+ script_web in
  cfg ← gets config;
  windows ← lift (getitem cfg "windows");
  users ← lift (getitem windows "users");
  items ← lift (iter users);
  script_content ← for_each items script_content admin_step;
  mret (script_content +:+ script_tail).

(** *** [create_config_iso] *)

(** The copy of one entry of the web project folder. *)
Definition copy_item (web_source web_dest : string) (item : string * entry_kind)
    (_ : unit) : M unit :=
  match snd item with
  | IsFile => emit (EvCopy2 (joinpath H web_source (fst item)) web_dest)
  | IsDir => emit (EvCopytree (joinpath H web_source (fst item))
                              (joinpath H web_dest (fst item)))
  | IsOther => mret tt
  end.

(** The inner [try ... finally] (lines 590-607): mount the image, copy
    the answer file onto it, unmount; in any case remove the mount point and
    the directory of the answer file. *)
Definition mount_and_copy (floppy_img autounattend_floppy mount_point floppy_dir : string)
  : M unit :=
  try_finally
    (subprocess_run [YStr "sudo"; YStr "mount"; YStr "-o"; YStr "loop";
                     YStr floppy_img; YStr mount_point];;
     subprocess_run [YStr "sudo"; YStr "cp"; YStr autounattend_floppy; YStr mount_point];;
     subprocess_run [YStr "sudo"; YStr "umount"; YStr mount_point])
    (rmtree mount_point;;
     rmtree floppy_dir).

(** The floppy: from the first [mkdtemp] inside the [try] to the message
    that the image is there (lines 562-609). *)
Definition floppy_stage : M string :=
  floppy_dir ← mkdtemp;
  let autounattend_floppy := joinpath H floppy_dir "Autounattend.xml" in
  open_w autounattend_floppy;;
  xml ← generate_autounattend_xml;
  write autounattend_floppy xml;;
  wd ← gets work_dir;
  name ← gets vm_name;
  let floppy_img := joinpath H wd (str name +:+ "_floppy.img") in
  subprocess_run [YStr "dd"; YStr "if=/dev/zero"; YStr ("of=" +:+ floppy_img);
                  YStr "bs=1024"; YStr "count=1440"];;
  subprocess_run [YStr "mkfs.vfat"; YStr floppy_img];;
  mount_point ← mkdtemp;
  mount_and_copy floppy_img autounattend_floppy mount_point floppy_dir;;
  print ("✓ Floppy image vytvořen: " +:+ floppy_img);;
  mret floppy_img.

(** The ISO: from writing setup.ps1 to the message that the ISO is there
    (lines 611-706). *)
Definition iso_stage (temp_dir : string) : M string :=
  let setup_script_path := joinpath H temp_dir "setup.ps1" in
  open_w setup_script_path;;
  script ← generate_setup_script;
  write setup_script_path script;;
  cfg ← gets config;
  windows ← lift (getitem cfg "windows");
  web_project ← lift (getitem windows "web_project");
  source_folder ← lift (getitem web_project "source_folder");
  web_source ← expand source_folder;
  let web_dest := joinpath H temp_dir "web" in
  mkdir web_dest;;
  ex ← path_exists web_source;
  (if (ex : bool) return M unit then
     print ("Kopíruji webový projekt z " +:+ web_source +:+ "...");;
     w ← gets id;
     for_each (iterdir H web_source w) tt (copy_item web_source web_dest)
   else
     print "Vytvářím základní index.html...";;
     let index_path := joinpath H web_dest "index.html" in
     open_w index_path;;
     cfg ← gets config;
     windows ← lift (getitem cfg "windows");
     web_project ← lift (getitem windows "web_project");
     project_name ← lift (getitem web_project "name");
     cfg ← gets config;
     windows ← lift (getitem cfg "windows");
     computer_name ← lift (getitem windows "computer_name");
     write index_path (index_html (str project_name) (str computer_name)));;
  wd ← gets work_dir;
  name ← gets vm_name;
  let iso_path := joinpath H wd (str name +:+ "_config.iso") in
  subprocess_run [YStr "mkisofs"; YStr "-o"; YStr iso_path; YStr "-J"; YStr "-r";
                  YStr "-V"; YStr "CONFIG"; YStr temp_dir];;
  print ("✓ Konfigurační ISO vytvořeno: " +:+ iso_path);;
  mret iso_path.

Definition create_config_iso : M (string * string) :=
  print "Vytvářím konfigurační ISO...";;
  temp_dir ← mkdtemp;
  try_finally
    (floppy_img ← floppy_stage;
     iso_path ← iso_stage temp_dir;
     mret (iso_path, floppy_img))
    (rmtree temp_dir).

(** *** [start_vm] *)

(** [f"hostfwd=tcp::{pf['host']}-:{pf['guest']}"] for one entry *)
Definition hostfwd_step (pf : yaml) (acc : list string) : M (list string) :=
  host ← lift (getitem pf "host");
  guest ← lift (getitem pf "guest");
  mret (acc ++ ["hostfwd=tcp::" +:+ str host +:+ "-:" +:+ str guest]).

(** [f"localhost:{pf['host']} -> VM:{pf['guest']}"] for one entry *)
Definition forward_line_step (pf : yaml) (acc : list string) : M (list string) :=
  host ← lift (getitem pf "host");
  guest ← lift (getitem pf "guest");
  mret (acc ++ ["localhost:" +:+ str host +:+ " -> VM:" +:+ str guest]).

(** The network clause (lines 762-783): the clause itself, the line for
    the banner and the prefix of the command. *)
Definition network_clause (network_mode bridge_interface : yaml)
  : M (string * string * string) :=
  if eq_str network_mode "bridge" return M (string * string * string) then
    mret ("-netdev bridge,id=net0,br=" +:+ str bridge_interface +:+
          " -device virtio-net-pci,netdev=net0,mac=52:54:00:12:34:56",
          "VM bude mít IP z rozsahu " +:+ str bridge_interface +:+ " sítě",
          "sudo ")
  else
    cfg ← gets config;
    vm ← lift (getitem cfg "vm");
    port_forwards ← lift (get_ref ["vm"] vm "port_forwards"
                            (YList [YMap [("host", YInt 8080); ("guest", YInt 80)]]));
    cfg ← gets config;
    vm ← lift (getitem cfg "vm");
    rdp_config ← lift (get vm "rdp" (YMap []));
    enabled ← lift (get rdp_config "enabled" (YBool false));
    port_forwards ←
      (if truthy enabled return M ref then
         rdp_host_port ← lift (get rdp_config "host_port" (YInt 3389));
         append port_forwards (YMap [("host", rdp_host_port); ("guest", YInt 3389)])
       else mret port_forwards);
    pfs ← deref port_forwards;
    items ← lift (iter pfs);
    rules ← for_each items ([] : list string) hostfwd_step;
    let hostfwd_rules := join "," rules in
    let network_config := "-net nic,model=virtio -net user," +:+ hostfwd_rules in
    pfs ← deref port_forwards;
    items ← lift (iter pfs);
    port_forward_lines ← for_each items ([] : list string) forward_line_step;
    let port_forward_info := "Port forwards:  " +:+ join ", " port_forward_lines in
    mret (network_config, port_forward_info, "").

Definition start_vm (disk_path config_iso_path floppy_path : string) : M unit :=
  print "Spouštím virtuální stroj...";;
  cfg ← gets config;
  vm ← lift (getitem cfg "vm");
  iso_raw ← lift (getitem vm "iso_path");
  iso_path ← expand iso_raw;
  ex ← path_exists iso_path;
  (if (ex : bool) return M unit then mret tt
   else print ("CHYBA: ISO soubor nenalezen: " +:+ iso_path);;
        raise (SystemExit 1));;
  cfg ← gets config;
  vm ← lift (getitem cfg "vm");
  virtio_raw ← lift (get vm "virtio_iso_path" (YStr "~/iso/virtio-win.iso"));
  virtio_iso ← expand virtio_raw;
  ex ← path_exists virtio_iso;
  (if (ex : bool) return M unit then mret tt
   else print ("VAROVÁNÍ: virtio-win.iso nenalezen: " +:+ virtio_iso);;
        print "Instalace může selhat bez virtio ovladačů");;
  cfg ← gets config;
  vm ← lift (getitem cfg "vm");
  memory ← lift (getitem vm "memory");
  cfg ← gets config;
  vm ← lift (getitem cfg "vm");
  cpus ← lift (getitem vm "cpus");
  cfg ← gets config;
  vm ← lift (getitem cfg "vm");
  vnc_port ← lift (get vm "vnc_port" (YInt 0));
  cfg ← gets config;
  vm ← lift (getitem cfg "vm");
  network_mode ← lift (get vm "network_mode" (YStr "nat"));
  cfg ← gets config;
  vm ← lift (getitem cfg "vm");
  bridge_interface ← lift (get vm "bridge_interface" (YStr "br0"));
  clause ← network_clause network_mode bridge_interface;
  let network_config := fst (fst clause) in
  let port_forward_info := snd (fst clause) in
  let requires_sudo := snd clause in
  wd ← gets work_dir;
  name ← gets vm_name;
  let run_script_path := joinpath H wd ("run_" +:+ str name +:+ ".sh") in
  name ← gets vm_name;
  let cmd := qemu_cmd (str cpus) (str memory) requires_sudo (str name) disk_path
               floppy_path virtio_iso iso_path config_iso_path (str vnc_port)
               network_config in
  open_w run_script_path;;
  write run_script_path cmd;;
  emit (EvChmod run_script_path 493);;
  name ← gets vm_name;
  name_48 ← lift (format_left H name 48);
  disk_48 ← lift (format_left H (YStr disk_path) 48);
  memory_48 ← lift (format_left H memory 48);
  cpus_48 ← lift (format_left H cpus 48);
  mode_48 ← lift (format_left H network_mode 48);
  info_62 ← lift (format_left H (YStr port_forward_info) 62);
  script_58 ← lift (format_left H (YStr run_script_path) 58);
  print (ready_banner name_48 disk_48 memory_48 cpus_48 (str vnc_port) mode_48
           info_62 script_58);;
  print "
Chcete spustit VM nyní? [y/N]: ";;
  w ← gets id;
  (if answer_is_yes H w return M unit then
     print "
Spouštím VM v pozadí...";;
     wd ← gets work_dir;
     name ← gets vm_name;
     let log_file := joinpath H wd (str name +:+ "_qemu.log") in
     open_w log_file;;
     emit (EvPopen [run_script_path] log_file);;
     print ("VM spuštěn, log: " +:+ log_file);;
     print ("Připojte se přes VNC na port 590" +:+ str vnc_port)
   else
     print ("
VM můžete spustit později pomocí: " +:+ run_script_path));;
  wd ← gets work_dir;
  name ← gets vm_name;
  let boot_script_path := joinpath H wd ("boot_" +:+ str name +:+ ".sh") in
  name ← gets vm_name;
  let cmd := boot_cmd requires_sudo (str name) (str cpus) (str memory) disk_path
               (str vnc_port) network_config in
  open_w boot_script_path;;
  write boot_script_path cmd;;
  emit (EvChmod boot_script_path 493);;
  print ("
Pro restart po instalaci použijte: " +:+ boot_script_path).

(** *** [deploy] *)
Definition deploy : M unit :=
  print deploy_banner;;
  check_dependencies;;
  disk_path ← create_disk_image;
  media ← create_config_iso;
  start_vm disk_path (fst media) (snd media);;
  print "
Deployment dokončen!".

End Methods.

(** ** What the theorems speak about *)

(** The commands of the fixed list that the search path does not have. *)
Definition missing_commands (H : host) : list string :=
  List.filter (fun cmd => negb (which H cmd)) required_commands.

(** The number of external commands run so far. *)
Definition is_run (e : event) : bool :=
  match e with
  | EvRun _ _ => true
  | _ => false
  end.

Definition tool_runs (w : world) : nat := length (List.filter is_run (events w)).

(** The disk path that [create_disk_image] derives. *)
Definition disk_path (H : host) (w : world) : string :=
  joinpath H (work_dir w) (str H (vm_name w) +:+ ".qcow2").

Definition reuse_message (path : string) : string :=
  "Disk " +:+ path +:+ " již existuje, používám existující".

(** What is relied on of [qemu-img create]: after exit status 0 the image
    file exists. *)
Definition qemu_img_creates (H : host) : Prop :=
  forall (path size : string) (w : world),
    fst (tool H ["qemu-img"; "create"; "-f"; "qcow2"; path; size] w) = Exited 0 ->
    path ∈ snd (tool H ["qemu-img"; "create"; "-f"; "qcow2"; path; size] w).

(** Two calls in a row. *)
Definition create_disk_image_twice (H : host) : M (string * string) :=
  p1 ← create_disk_image H;
  p2 ← create_disk_image H;
  mret (p1, p2).

(** The world after some more lines were printed. *)
Definition add_stdouts (lines : list string) (w : world) : world :=
  World (config w) (vm_name w) (work_dir w) (files w) (stdout w ++ lines) (events w)
        (temps w).

(** A computation that only reads the configuration and prints: its result
    and the lines it prints are a function of the configuration, and it
    leaves everything but the standard output as it was. *)
Class ReadsConfig {A : Type} (m : M A) : Type := {
  on_config : yaml -> outcome A * list string;
  reads_config : forall w : world,
    m w = (fst (on_config (config w)), add_stdouts (snd (on_config (config w))) w)
}.
Arguments on_config {A} m {_} _.
Arguments reads_config {A} m {_} _.

(** An edition key that is a scalar and none of the four keys of
    [edition_mapping]. *)
Definition unrecognized_edition (v : yaml) : Prop :=
  match v with
  | YStr s => assoc_str s edition_mapping = None
  | YNull | YBool _ | YInt _ => True
  | YList _ | YMap _ => False
  end.

(** A computation that touches nothing: it has one outcome, in every
    world, and leaves the world as it was. *)
Class Pure {A : Type} (m : M A) : Type := {
  pure_outcome : outcome A;
  pure_run : forall w : world, m w = (pure_outcome, w)
}.
Arguments pure_outcome {A} m {_}.
Arguments pure_run {A} m {_} _.

(** ** Lines of a text *)

Definition nl : ascii := "010"%char.

(** The lines of [s] followed by the text whose first line is [fst x] and
    whose other lines are [snd x]: the last line of [s] runs on into
    [fst x]. *)
Fixpoint prepend (s : string) (x : string * list string) : string * list string :=
  match s with
  | EmptyString => x
  | String c s' =>
      let (first, rest) := prepend s' x in
      if Ascii.eqb c nl then (EmptyString, first :: rest) else (String c first, rest)
  end.

(** [s.split('\n')] *)
Definition lines (s : string) : list string :=
  let (first, rest) := prepend s (EmptyString, []) in first :: rest.

Fixpoint has_newline (s : string) : bool :=
  match s with
  | EmptyString => false
  | String c s' => Ascii.eqb c nl || has_newline s'
  end.

Definition one_line (s : string) : Prop := has_newline s = false.

(** [s] without the prefix [p], if it starts with [p]. *)
Fixpoint strip_prefix (p s : string) : option string :=
  match p, s with
  | EmptyString, _ => Some s
  | String a p', String b s' => if Ascii.eqb a b then strip_prefix p' s' else None
  | String _ _, EmptyString => None
  end.

(** [s] without the suffix [suf], if it ends with [suf]. *)
Fixpoint strip_suffix (suf s : string) : option string :=
  if String.eqb s suf then Some EmptyString
  else match s with
       | EmptyString => None
       | String c s' => option_map (String c) (strip_suffix suf s')
       end.

(** What stands between [p] and [suf] on a line that starts with [p] and
    ends with [suf]. *)
Definition between (p suf line : string) : option string :=
  match strip_prefix p line with
  | Some rest => strip_suffix suf rest
  | None => None
  end.

(** The ten lines of one LocalAccount element. *)
Definition account_open : string := Eval vm_compute in q
"            <LocalAccount wcm:action=`add`>".

Definition account_close : string := "            </LocalAccount>".

Definition account_lines (password description username group : string) : list string :=
  [ account_open;
    "                <Password>";
    "                    <Value>" +:+ password +:+ "</Value>";
    "                    <PlainText>true</PlainText>  <!-- Heslo v plain textu (pro automatizaci) -->";
    "                </Password>";
    "                <Description>" +:+ description +:+ "</Description>  <!-- Popis účtu -->";
    "                <DisplayName>" +:+ username +:+ "</DisplayName>  <!-- Zobrazované jméno -->";
    "                <Group>" +:+ group +:+ "</Group>  <!-- Skupina (Users/Administrators) -->";
    "                <Name>" +:+ username +:+ "</Name>  <!-- Přihlašovací jméno -->";
    account_close ].

(** What stands before and after the username in the Name line of an
    element. *)
Definition name_prefix : string := "                <Name>".
Definition name_suffix : string := "</Name>  <!-- Přihlašovací jméno -->".

(** What the answer file shows of one user. *)
Definition user_password (H : host) (user : yaml) : string :=
  match getitem user "password" with Ret v => str H v | Raise _ => "" end.
Definition user_description (H : host) (user : yaml) : string :=
  match get user "description" (YStr "") with Ret v => str H v | Raise _ => "" end.
Definition user_name (H : host) (user : yaml) : string :=
  match getitem user "username" with Ret v => str H v | Raise _ => "" end.
Definition user_group (H : host) (user : yaml) : string :=
  match get user "group" (YStr "Users") with Ret v => str H v | Raise _ => "" end.

(** A user entry that can be rendered: a mapping with a password and a
    username. *)
Definition has_account_keys (user : yaml) : Prop :=
  (exists v, getitem user "password" = Ret v) /\
  (exists v, getitem user "username" = Ret v).

(** A user entry whose rendered fields have no line break. *)
Definition one_line_user (H : host) (user : yaml) : Prop :=
  one_line (user_password H user) /\ one_line (user_description H user) /\
  one_line (user_name H user) /\ one_line (user_group H user).

Definition account_text (H : host) (user : yaml) : string :=
  local_account (user_password H user) (user_description H user)
                (user_name H user) (user_group H user).

Fixpoint accounts_text (H : host) (users : list yaml) : string :=
  match users with
  | [] => ""
  | user :: rest => account_text H user +:+ accounts_text H rest
  end.

(** Autounattend.xml up to the place of the LocalAccount elements. *)
Definition xml_head (image_name computer_name administrator_password : string) : string :=
  xml_content_1 +:+ image_name +:+ xml_content_2 +:+ computer_name +:+ xml_content_3 +:+
  administrator_password +:+ xml_content_4 +:+ administrator_password +:+ xml_content_5.

(** The value a mapping gives for a key, or the default. *)
Definition field (kvs : list (string * yaml)) (k : string) (dflt : yaml) : yaml :=
  match assoc k kvs with
  | Some v => v
  | None => dflt
  end.

Definition scalar (v : yaml) : Prop :=
  match v with
  | YList _ | YMap _ => False
  | _ => True
  end.

(** The image name that [generate_autounattend_xml] selects for the
    [windows] section [kvs]. *)
Definition image_name_of (kvs : list (string * yaml)) : string :=
  match mapping_get edition_mapping (field kvs "windows_edition" (YStr "standard"))
          "Windows Server 2022 SERVERSTANDARD" with
  | Ret name => name
  | Raise _ => ""
  end.

(** The lines of Autounattend.xml after the LocalAccount elements. *)
Definition xml_tail_lines : list string :=
  Eval vm_compute in snd (prepend xml_content_6 (EmptyString, [])).

(** ** What is read off setup.ps1 *)










(** Whether the setup script adds a user to Administrators. *)
Definition is_admin (user : yaml) : bool :=
  match get user "group" (YStr "Users") with
  | Ret group => eq_str group "Administrators"
  | Raise _ => false
  end.

(** A user entry that the setup script can handle: a mapping, with a
    username if it is a member of Administrators. *)
Definition script_user_keys (user : yaml) : Prop :=
  (exists kvs, user = YMap kvs) /\
  (is_admin user = true -> exists v, getitem user "username" = Ret v).

(** Such an entry whose block takes lines of its own: the username of a
    member of Administrators has no line break. *)
Definition script_user_ok (H : host) (user : yaml) : Prop :=
  script_user_keys user /\ (is_admin user = true -> one_line (user_name H user)).

Fixpoint admins_text (H : host) (users : list yaml) : string :=
  match users with
  | [] => ""
  | user :: rest =>
      if is_admin user then script_admin (user_name H user) +:+ admins_text H rest
      else admins_text H rest
  end.



(** The lines of a chunk of text after its first. *)
Definition body (s : string) : list string := snd (prepend s (EmptyString, [])).


(** ** Example hosts and configurations *)

(** A host on which every tool is found and succeeds, [qemu-img create]
    leaves its image file, and paths are joined with a slash. *)
Definition example_tool (argv : list string) (w : world) : launch * gset string :=
  (Exited 0,
   if String.eqb (hd "" argv) "qemu-img" then {[ nth 4 argv "" ]} ∪ files w else files w).

Definition example_host : host :=
  Host (fun _ => "<container>")
       (fun _ => true)
       (fun s => s)
       (fun a b => a +:+ "/" +:+ b)
       example_tool
       (fun _ _ => false)
       (fun _ _ => [])
       (fun n => "/tmp/tmp" +:+ str_of_Z (Z.of_nat n))
       (fun v _ => Ret (Py.str (fun _ => "<container>") v))
       (fun _ => false).

(** The same host without [qemu-system-x86_64] and [qemu-img] on the
    search path. *)
Definition host_without_qemu : host :=
  Host (repr_container example_host)
       (fun cmd => String.eqb cmd "mkisofs")
       (path_expanduser example_host) (joinpath example_host) (tool example_host)
       (rmtree_fails example_host) (iterdir example_host) (mkdtemp_name example_host)
       (format_left example_host) (answer_is_yes example_host).

(** The same host on which [sudo cp] exits with status 1. *)
Definition host_cp_fails : host :=
  Host (repr_container example_host) (which example_host)
       (path_expanduser example_host) (joinpath example_host)
       (fun argv w =>
          if String.eqb (nth 1 argv "") "cp" then (Exited 1, files w)
          else example_tool argv w)
       (rmtree_fails example_host) (iterdir example_host) (mkdtemp_name example_host)
       (format_left example_host) (answer_is_yes example_host).

Definition forward (host_port guest_port : Z) : yaml :=
  YMap [("host", YInt host_port); ("guest", YInt guest_port)].

Definition alice : yaml :=
  YMap [("username", YStr "alice"); ("password", YStr "Secret1!");
        ("group", YStr "Administrators")].

Definition bob : yaml :=
  YMap [("username", YStr "bob"); ("password", YStr "Secret2!");
        ("description", YStr "Web editor")].

Definition example_windows : yaml :=
  YMap [("windows_edition", YStr "datacenter");
        ("computer_name", YStr "WEB01");
        ("users", YList [alice; bob]);
        ("web_project", YMap [("source_folder", YStr "/srv/site"); ("name", YStr "Site")])].

(** The [vm] section: name Win1, NAT mode, with the given extra entries. *)
Definition example_vm (extra : list (string * yaml)) : yaml :=
  YMap ([("name", YStr "Win1"); ("work_dir", YStr "/vms"); ("disk_size", YStr "40G");
         ("memory", YStr "4G"); ("cpus", YInt 2); ("iso_path", YStr "/iso/win.iso");
         ("network_mode", YStr "nat")] ++ extra).

Definition example_doc (extra : list (string * yaml)) : yaml :=
  YMap [("vm", example_vm extra); ("windows", example_windows)].

(** Remote Desktop enabled, forwarded from host port 13389. *)
Definition rdp_on : string * yaml :=
  ("rdp", YMap [("enabled", YBool true); ("host_port", YInt 13389)]).

Definition blank_world : world := World YNull YNull "" ∅ [] [] 0.

(** The world after [__init__] on a blank machine that has the
    installation medium. *)
Definition loaded (H : host) (doc : yaml) : world :=
  snd (init H doc (set_files {[ "/iso/win.iso" ]} blank_world)).

(** ** What is read off the host *)

(** The mount point that a command mounts on, or unmounts. *)
Definition mounted_by (e : event) : option string :=
  match e with
  | EvRun argv (Exited 0) =>
      if String.eqb (nth 0 argv "") "sudo" && String.eqb (nth 1 argv "") "mount"
      then Some (nth 5 argv "") else None
  | _ => None
  end.

Definition unmounted_by (e : event) : option string :=
  match e with
  | EvRun argv (Exited 0) =>
      if String.eqb (nth 0 argv "") "sudo" && String.eqb (nth 1 argv "") "umount"
      then Some (nth 2 argv "") else None
  | _ => None
  end.

(** The mount points in use after a sequence of events. *)
Fixpoint mounts (evs : list event) (active : list string) : list string :=
  match evs with
  | [] => active
  | e :: rest =>
      match mounted_by e, unmounted_by e with
      | Some mp, _ => mounts rest (active ++ [mp])
      | None, Some mp => mounts rest (List.filter (fun m => negb (String.eqb m mp)) active)
      | None, None => mounts rest active
      end
  end.

(** The directories removed while something was mounted on them. *)
Fixpoint removed_while_mounted (evs : list event) (active : list string) : list string :=
  match evs with
  | [] => []
  | e :: rest =>
      match e with
      | EvRmtree d =>
          if existsb (String.eqb d) active
          then d :: removed_while_mounted rest active
          else removed_while_mounted rest active
      | _ =>
          match mounted_by e, unmounted_by e with
          | Some mp, _ => removed_while_mounted rest (active ++ [mp])
          | None, Some mp =>
              removed_while_mounted rest
                (List.filter (fun m => negb (String.eqb m mp)) active)
          | None, None => removed_while_mounted rest active
          end
      end
  end.

(** The events that run a command or remove a directory tree, in short. *)
Inductive action : Type :=
| Ran (program : string) (ok : bool)
| Removed (path : string).

Definition program_of (argv : list string) : string :=
  if String.eqb (nth 0 argv "") "sudo" then nth 1 argv "" else nth 0 argv "".

Definition action_of (e : event) : option action :=
  match e with
  | EvRun argv (Exited 0) => Some (Ran (program_of argv) true)
  | EvRun argv _ => Some (Ran (program_of argv) false)
  | EvRmtree d => Some (Removed d)
  | _ => None
  end.

Definition actions (w : world) : list action := omap action_of (events w).

(** The port-forward table that the configuration holds. *)
Definition port_forwards_of (w : world) : option yaml :=
  lookup_path ["vm"; "port_forwards"] (config w).

(** ** Rendering and the keys it needs *)

Inductive renderer : Type := AnswerFile | SetupScript.

Definition render (H : host) (r : renderer) : M string :=
  match r with
  | AnswerFile => generate_autounattend_xml H
  | SetupScript => generate_setup_script H
  end.

(** A document that has what both renderers look up: a [windows] section
    with a scalar edition key (or none), a list of users that are mappings
    with a password and a username, and a web project with a source folder;
    and a [vm] section whose [rdp] entry is a mapping (or absent). *)
Definition renderable (doc : yaml) : Prop :=
  exists (kvs_win kvs_vm rdp : list (string * yaml)) (users : list yaml)
         (web_project source : yaml),
    getitem doc "windows" = Ret (YMap kvs_win)
    /\ scalar (field kvs_win "windows_edition" (YStr "standard"))
    /\ assoc "users" kvs_win = Some (YList users)
    /\ Forall has_account_keys users
    /\ assoc "web_project" kvs_win = Some web_project
    /\ getitem web_project "source_folder" = Ret source
    /\ getitem doc "vm" = Ret (YMap kvs_vm)
    /\ field kvs_vm "rdp" (YMap []) = YMap rdp.

(** [lacks doc r key]: the first thing that renderer [r] misses in [doc]
    is the key [key], which it looks up without a default. *)
Inductive lacks : yaml -> renderer -> string -> Prop :=
| lacks_windows (r : renderer) (kvs : list (string * yaml)) :
    assoc "windows" kvs = None ->
    lacks (YMap kvs) r "windows"
| lacks_users (kvs kw : list (string * yaml)) :
    assoc "windows" kvs = Some (YMap kw) ->
    scalar (field kw "windows_edition" (YStr "standard")) ->
    assoc "users" kw = None ->
    lacks (YMap kvs) AnswerFile "users"
| lacks_password (kvs kw bad : list (string * yaml)) (good rest : list yaml) :
    assoc "windows" kvs = Some (YMap kw) ->
    scalar (field kw "windows_edition" (YStr "standard")) ->
    assoc "users" kw = Some (YList (good ++ YMap bad :: rest)) ->
    Forall has_account_keys good ->
    assoc "password" bad = None ->
    lacks (YMap kvs) AnswerFile "password"
| lacks_username (kvs kw bad : list (string * yaml)) (good rest : list yaml)
    (password : yaml) :
    assoc "windows" kvs = Some (YMap kw) ->
    scalar (field kw "windows_edition" (YStr "standard")) ->
    assoc "users" kw = Some (YList (good ++ YMap bad :: rest)) ->
    Forall has_account_keys good ->
    assoc "password" bad = Some password ->
    assoc "username" bad = None ->
    lacks (YMap kvs) AnswerFile "username"
| lacks_web_project (kvs kw : list (string * yaml)) :
    assoc "windows" kvs = Some (YMap kw) ->
    assoc "web_project" kw = None ->
    lacks (YMap kvs) SetupScript "web_project"
| lacks_source_folder (kvs kw kwp : list (string * yaml)) :
    assoc "windows" kvs = Some (YMap kw) ->
    assoc "web_project" kw = Some (YMap kwp) ->
    assoc "source_folder" kwp = None ->
    lacks (YMap kvs) SetupScript "source_folder".

(** The example document without the name of the VM, and without the
    source folder of the web project. *)
Definition doc_without_name : yaml :=
  YMap [("vm", YMap [("work_dir", YStr "/vms"); ("disk_size", YStr "40G")]);
        ("windows", example_windows)].

Definition doc_without_source_folder : yaml :=
  YMap [("vm", example_vm []);
        ("windows", YMap [("users", YList [alice; bob]);
                          ("web_project", YMap [("name", YStr "Site")])])].

(** ** The entry point *)

(** [main], after the argument parser has returned the path of the
    configuration. [read_config path] is what [open] and [yaml.safe_load]
    give for the file at [path] when [__init__] reads it; a document that
    does not parse is outside of what [exc] names. *)
Definition main (H : host) (read_config : string -> outcome yaml) (config_path : string)
  : M unit :=
  ex ← path_exists config_path;
  if (ex : bool) return M unit then
    doc ← lift (read_config config_path);
    init H doc;;
    deploy H
  else
    print ("CHYBA: Konfigurační soubor nenalezen: " +:+ config_path);;
    raise (SystemExit 1).

(** ** What a step leaves alone *)

(** The deployer object is the same in two worlds. *)
Definition same_self (w' w : world) : Prop :=
  config w' = config w /\ vm_name w' = vm_name w /\ work_dir w' = work_dir w.

(** A computation that leaves the deployer object as it was, returning or
    raising, when it starts from a configuration that satisfies [C]. *)
Class Keeps (C : yaml -> Prop) {A : Type} (m : M A) : Prop :=
  keeps : forall w : world, C (config w) -> same_self (snd (m w)) w.

(** A configuration in which the planner has no stored port-forward table
    to append to: whenever its [vm] section enables Remote Desktop, that
    section has no [port_forwards] key. *)
Definition no_table_to_append_to (cfg : yaml) : Prop :=
  forall kvs_vm rdp : list (string * yaml),
    getitem cfg "vm" = Ret (YMap kvs_vm) ->
    field kvs_vm "rdp" (YMap []) = YMap rdp ->
    truthy (field rdp "enabled" (YBool false)) = true ->
    assoc "port_forwards" kvs_vm = None.

(** A reader of configuration files that finds the example document at
    one path. *)
Definition example_reader (doc : yaml) (path : string) : outcome yaml :=
  if String.eqb path "config.yaml" then Ret doc else Raise (FileNotFoundError path).

(** ** More that is read off the rendered texts *)

(** The image name, the computer name and the password values of an
    answer file: what stands in its image line, its ComputerName line and its
    password lines. *)
Definition image_prefix : string := "                            <Value>".
Definition image_suffix : string := Eval vm_compute in q
"</Value>  <!-- Např. `Windows Server 2022 SERVERSTANDARD` -->".

Definition image_names (text : string) : list string :=
  omap (between image_prefix image_suffix) (lines text).

Definition computer_names (text : string) : list string :=
  omap (between "            <ComputerName>" "</ComputerName>") (lines text).

Definition password_values (text : string) : list string :=
  omap (between "                    <Value>" "</Value>") (lines text).

(** ** The forwarding rules *)

(** An entry of the port-forward table that has both ports. *)
Definition has_ports (pf : yaml) : Prop :=
  (exists h, getitem pf "host" = Ret h) /\ (exists g, getitem pf "guest" = Ret g).

Definition port (H : host) (pf : yaml) (side : string) : string :=
  match getitem pf side with
  | Ret v => str H v
  | Raise _ => ""
  end.

(** The rule and the banner text of one entry. *)
Definition forward_rule (H : host) (pf : yaml) : string :=
  "hostfwd=tcp::" +:+ port H pf "host" +:+ "-:" +:+ port H pf "guest".

Definition forward_line (H : host) (pf : yaml) : string :=
  "localhost:" +:+ port H pf "host" +:+ " -> VM:" +:+ port H pf "guest".

(** The entry that Remote Desktop adds, if it is enabled. *)
Definition rdp_entries (rdp : list (string * yaml)) : list yaml :=
  if truthy (field rdp "enabled" (YBool false))
  then [YMap [("host", field rdp "host_port" (YInt 3389)); ("guest", YInt 3389)]]
  else [].

(** ** What a run adds to the record of the host *)

(** A computation that adds only events that satisfy [P] to the record,
    whether it returns or raises. *)
Class Adds (P : event -> bool) {A : Type} (m : M A) : Prop :=
  adds : forall w : world,
    exists evs, events (snd (m w)) = events w ++ evs /\ forallb P evs = true.

(** The removals of a record are in order when each removed directory was
    made by [mkdtemp] earlier in the record, or is one of [made]. *)
Fixpoint well_removed (made : list string) (evs : list event) : bool :=
  match evs with
  | [] => true
  | EvMkdtemp d :: rest => well_removed (d :: made) rest
  | EvRmtree d :: rest => existsb (String.eqb d) made && well_removed made rest
  | _ :: rest => well_removed made rest
  end.

(** A computation whose removals are in order, given the directories
    [made] before it. *)
Class Tidy (made : list string) {A : Type} (m : M A) : Prop :=
  tidy : forall w : world,
    exists evs, events (snd (m w)) = events w ++ evs /\ well_removed made evs = true.

Definition no_removal (e : event) : bool :=
  match e with
  | EvRmtree _ => false
  | _ => true
  end.

Definition no_launch (e : event) : bool :=
  match e with
  | EvPopen _ _ => false
  | _ => true
  end.

(** The commands that the deployer runs and waits for: five programs,
    and [sudo] only in front of [mount], [cp] and [umount]. *)
Definition known_command (e : event) : bool :=
  match e with
  | EvRun argv _ =>
      if String.eqb (nth 0 argv "") "sudo"
      then existsb (String.eqb (nth 1 argv "")) ["mount"; "cp"; "umount"]
      else existsb (String.eqb (nth 0 argv "")) ["qemu-img"; "dd"; "mkfs.vfat"; "mkisofs"]
  | _ => true
  end.

(** ** The web project on the ISO *)

(** What the copy of one entry of the source folder adds to the record. *)
Definition copied (H : host) (web_source web_dest : string) (item : string * entry_kind)
  : list event :=
  match snd item with
  | IsFile => [EvCopy2 (joinpath H web_source (fst item)) web_dest]
  | IsDir => [EvCopytree (joinpath H web_source (fst item)) (joinpath H web_dest (fst item))]
  | IsOther => []
  end.

(** ** What depends on the configuration alone *)

(** A computation that reads and writes nothing but the configuration:
    in two worlds with the same configuration it has the same outcome and
    leaves the same configuration, and the rest of the world is as it was. *)
Class ConfigOnly {A : Type} (m : M A) : Prop :=
  config_only : forall w w' : world,
    config w = config w' ->
    fst (m w) = fst (m w') /\ snd (m w) = set_config (config (snd (m w'))) w.

(** ** More hosts and documents for the examples *)

(** The example host on which every command exits with status 1. *)
Definition host_failing_tools : host :=
  Host (repr_container example_host) (which example_host)
       (path_expanduser example_host) (joinpath example_host)
       (fun _ w => (Exited 1, files w))
       (rmtree_fails example_host) (iterdir example_host) (mkdtemp_name example_host)
       (format_left example_host) (answer_is_yes example_host).

(** The example host without [dd]. *)
Definition host_without_dd : host :=
  Host (repr_container example_host) (which example_host)
       (path_expanduser example_host) (joinpath example_host)
       (fun argv w =>
          if String.eqb (hd "" argv) "dd" then (NotStarted, files w)
          else example_tool argv w)
       (rmtree_fails example_host) (iterdir example_host) (mkdtemp_name example_host)
       (format_left example_host) (answer_is_yes example_host).

(** The example host on which the web project has a page, a folder and a
    socket. *)
Definition site_entries : list (string * entry_kind) :=
  [("index.html", IsFile); ("css", IsDir); ("live.sock", IsOther)].

Definition host_with_site : host :=
  Host (repr_container example_host) (which example_host)
       (path_expanduser example_host) (joinpath example_host) (tool example_host)
       (rmtree_fails example_host) (fun _ _ => site_entries) (mkdtemp_name example_host)
       (format_left example_host) (answer_is_yes example_host).

(** The example document with the users given by name, and without the
    name of the computer. *)
Definition doc_with_user_names : yaml :=
  YMap [("vm", example_vm []);
        ("windows", YMap [("users", YList [YStr "alice"; YStr "bob"]);
                          ("web_project", YMap [("source_folder", YStr "/srv/site");
                                                ("name", YStr "Site")])])].

Definition doc_without_computer_name : yaml :=
  YMap [("vm", example_vm []);
        ("windows", YMap [("users", YList [alice; bob]);
                          ("web_project", YMap [("source_folder", YStr "/srv/site");
                                                ("name", YStr "Site")])])].

(** ** Reading a text character by character *)

(** [s] begins with [p]. *)
Fixpoint starts_with (p s : string) : bool :=
  match p, s with
  | EmptyString, _ => true
  | String _ _, EmptyString => false
  | String a p', String b s' => Ascii.eqb a b && starts_with p' s'
  end.

(** The number of places of [s] at which [p] begins. *)
Fixpoint occurrences (p s : string) : nat :=
  match s with
  | EmptyString => 0
  | String _ s' => (if starts_with p s then 1 else 0) + occurrences p s'
  end.

(** The pieces of [s] that stand between an opening text [o] and the
    next closing text [c], in order. [skip] characters of a text just
    recognised are still to pass; [cur] is the piece being read, if one is
    open. A piece that is not closed is dropped. *)
Fixpoint elements_from (o c : string) (skip : nat) (cur : option string) (s : string)
  : list string :=
  match s with
  | EmptyString => []
  | String a s' =>
      match skip with
      | S k => elements_from o c k cur s'
      | O =>
          match cur with
          | None =>
              if starts_with o s
              then elements_from o c (String.length o - 1) (Some EmptyString) s'
              else elements_from o c 0 None s'
          | Some piece =>
              if starts_with c s
              then piece :: elements_from o c (String.length c - 1) None s'
              else elements_from o c 0 (Some (piece +:+ String a EmptyString)) s'
          end
      end
  end.

Definition elements (o c s : string) : list string := elements_from o c 0 None s.

(** [x] occurs in [s]. *)
Fixpoint has_char (x : ascii) (s : string) : bool :=
  match s with
  | EmptyString => false
  | String a s' => Ascii.eqb x a || has_char x s'
  end.

(** The first character of a text. *)
Definition first_char (s : string) : option ascii :=
  match s with
  | EmptyString => None
  | String a _ => Some a
  end.

(** A value without markup: it has no [<]. *)
Definition markup_free (s : string) : Prop := has_char "<" s = false.

(** A user entry whose rendered fields have no markup. *)
Definition markup_free_user (H : host) (user : yaml) : Prop :=
  markup_free (user_password H user) /\ markup_free (user_description H user) /\
  markup_free (user_name H user) /\ markup_free (user_group H user).

(** The tags of a LocalAccount element. *)
Definition account_open_tag : string := Eval vm_compute in q
"<LocalAccount wcm:action=`add`>".

Definition account_close_tag : string := "</LocalAccount>".

(** The accounts that an answer file declares, element by element: the
    number of its LocalAccount tags and the contents of its Name, Group,
    DisplayName and Description elements, top to bottom. *)
Definition account_elements (text : string) : nat * nat :=
  (occurrences account_open_tag text, occurrences account_close_tag text).

Definition element_names (text : string) : list string :=
  elements "<Name>" "</Name>" text.

Definition element_groups (text : string) : list string :=
  elements "<Group>" "</Group>" text.

Definition element_display_names (text : string) : list string :=
  elements "<DisplayName>" "</DisplayName>" text.

Definition element_descriptions (text : string) : list string :=
  elements "<Description>" "</Description>" text.

(** A user whose description closes its own element and the account, and
    opens a second account. *)
Definition injected_description : string := Eval vm_compute in q
"x</Description><DisplayName>ghost</DisplayName><Group>Administrators</Group><Name>ghost</Name></LocalAccount><LocalAccount wcm:action=`add`><Password><Value>pw</Value><PlainText>true</PlainText></Password><Description>y".

Definition mallory : yaml :=
  YMap [("username", YStr "mallory"); ("password", YStr "Secret3!");
        ("description", YStr injected_description)].

Definition doc_with_mallory : yaml :=
  YMap [("vm", example_vm []);
        ("windows", YMap [("users", YList [mallory]);
                          ("web_project", YMap [("source_folder", YStr "/srv/site");
                                                ("name", YStr "Site")])])].

(** A plain name: ASCII letters, digits, space, hyphen, dot and
    underscore. *)
Definition plain_char (a : ascii) : bool :=
  let n := nat_of_ascii a in
  (Nat.leb 48 n && Nat.leb n 57) || (Nat.leb 65 n && Nat.leb n 90)
  || (Nat.leb 97 n && Nat.leb n 122)
  || Nat.eqb n 32 || Nat.eqb n 45 || Nat.eqb n 46 || Nat.eqb n 95.

Fixpoint plain (s : string) : bool :=
  match s with
  | EmptyString => true
  | String a s' => plain_char a && plain s'
  end.

(** An entry that the setup script can handle and whose username, if it
    is a member of Administrators, is plain. *)
Definition script_user_plain (H : host) (user : yaml) : Prop :=
  script_user_keys user /\ (is_admin user = true -> plain (user_name H user) = true).

(** The members that a script names for Administrators: what stands
    between the opening of a -Member argument for that group and the double
    quote that closes it, top to bottom. *)
Definition member_open : string := Eval vm_compute in q
"`Administrators` -Member `".

Definition quote_mark : string := String dquote EmptyString.

Definition named_members (text : string) : list string :=
  elements member_open quote_mark text.

(** ** Reasoning about the methods *)

Section Steps.
Context {A B : Type}.

Lemma bind_ret (m : M A) (f : A -> M B) (w w' : world) (a : A) :
  m w = (Ret a, w') -> (m ≫= f) w = f a w'.
Proof. intros E. unfold mbind, M_bind. now rewrite E. Qed.

Lemma bind_raise (m : M A) (f : A -> M B) (w w' : world) (e : exc) :
  m w = (Raise e, w') -> (m ≫= f) w = (Raise e, w').
Proof. intros E. unfold mbind, M_bind. now rewrite E. Qed.

End Steps.

(** Unfolds the monad's operations one layer at a time. *)
Ltac msimpl :=
  repeat progress
    (unfold mbind, M_bind, mret, M_ret, gets, lift, modify, print, emit, path_exists, raise;
     cbn beta iota;
     cbn [config vm_name work_dir files stdout events temps
          set_config set_vm_name set_work_dir set_files add_stdout add_event next_temp
          fst snd]).

Lemma collect_missing (H : host) (cmds acc : list string) (w : world) :
  for_each cmds acc
    (fun cmd missing =>
       if negb (which H cmd) then mret (missing ++ [cmd]) else mret missing) w
  = (Ret (acc ++ List.filter (fun cmd => negb (which H cmd)) cmds), w).
Proof.
  revert acc. induction cmds as [|c cmds IH]; intros acc; simpl.
  - now rewrite app_nil_r.
  - unfold mbind, M_bind. destruct (which H c); simpl.
    + apply IH.
    + unfold mret, M_ret. rewrite IH. now rewrite <- app_assoc.
Qed.

(** C7. Whenever at least one of the required commands is missing, the
    dependency check prints one report line that lists every missing
    command, in the order of the fixed list, and then exits with status 1;
    nothing is reported per command, and a command is in the report exactly
    when the search path does not have it. *)
Theorem check_dependencies_reports_all_missing (H : host) (w : world) :
  missing_commands H <> [] ->
  check_dependencies H w =
    (Raise (SystemExit 1),
     add_stdout "Nainstalujte: sudo apt-get install qemu-kvm qemu-utils genisoimage"
       (add_stdout ("CHYBA: Chybějící závislosti: " +:+ join ", " (missing_commands H))
          (add_stdout "Kontrola závislostí..." w)))
  /\ (forall cmd, In cmd (missing_commands H) <->
                  In cmd required_commands /\ which H cmd = false).
Proof.
  intros Hne. split.
  - unfold check_dependencies.
    unfold mbind at 1, M_bind at 1. cbn [print modify].
    unfold mbind at 1, M_bind at 1.
    unfold mbind at 1, M_bind at 1.
    rewrite collect_missing. cbn [app].
    fold (missing_commands H).
    destruct (missing_commands H) as [|m ms]; [congruence|].
    reflexivity.
  - intros cmd. unfold missing_commands. rewrite filter_In.
    now rewrite negb_true_iff.
Qed.

Lemma create_disk_image_reuse (H : host) (w : world) (vm size : yaml) :
  getitem (config w) "vm" = Ret vm ->
  getitem vm "disk_size" = Ret size ->
  disk_path H w ∈ files w ->
  create_disk_image H w =
    (Ret (disk_path H w), add_stdout (reuse_message (disk_path H w)) w).
Proof.
  intros Hvm Hsize Hin. unfold create_disk_image.
  msimpl. rewrite Hvm. msimpl. rewrite Hsize. msimpl.
  fold (disk_path H w).
  rewrite bool_decide_eq_true_2 by exact Hin. reflexivity.
Qed.

Lemma create_disk_image_fresh (H : host) (w : world) (vm size : yaml) :
  getitem (config w) "vm" = Ret vm ->
  getitem vm "disk_size" = Ret size ->
  disk_path H w ∉ files w ->
  create_disk_image H w =
    let w1 := add_stdout ("Vytvářím virtuální disk " +:+ str H size +:+ "...") w in
    match as_str size with
    | Raise e => (Raise e, w1)
    | Ret s =>
        let argv := ["qemu-img"; "create"; "-f"; "qcow2"; disk_path H w; s] in
        let w2 := set_files (snd (tool H argv w1))
                    (add_event (EvRun argv (fst (tool H argv w1))) w1) in
        match fst (tool H argv w1) with
        | Exited 0 => (Ret (disk_path H w), add_stdout ("Disk vytvořen: " +:+ disk_path H w) w2)
        | Exited rc => (Raise (CalledProcessError rc argv), w2)
        | NotStarted => (Raise (FileNotFoundError "qemu-img"), w2)
        end
    end.
Proof.
  intros Hvm Hsize Hin. unfold create_disk_image.
  msimpl. rewrite Hvm. msimpl. rewrite Hsize. msimpl.
  fold (disk_path H w).
  rewrite bool_decide_eq_false_2 by exact Hin.
  unfold subprocess_run. msimpl. cbn [argv_of as_str].
  destruct size; try reflexivity.
  cbn [as_str id]. cbv zeta.
  destruct (tool H _ _) as [res fs]. cbn [fst snd]. msimpl.
  destruct res as [[| |]|]; reflexivity.
Qed.

Lemma tool_runs_add_stdout (s : string) (w : world) :
  tool_runs (add_stdout s w) = tool_runs w.
Proof. reflexivity. Qed.

Lemma tool_runs_add_run (argv : list string) (res : launch) (w : world) :
  tool_runs (add_event (EvRun argv res) w) = S (tool_runs w).
Proof.
  unfold tool_runs. cbn [events add_event].
  rewrite List.filter_app, length_app. cbn. lia.
Qed.

(** What one call of [create_disk_image] does, whatever the tool answers:
    it runs at most one command, and when it returns, it returns the derived
    path and leaves a world in which that path exists and the deployer
    object is as before. *)
Lemma create_disk_image_once (H : host) (w : world) (vm size : yaml) :
  getitem (config w) "vm" = Ret vm ->
  getitem vm "disk_size" = Ret size ->
  qemu_img_creates H ->
  forall r w1, create_disk_image H w = (r, w1) ->
    (tool_runs w1 <= tool_runs w + 1)%nat /\
    (disk_path H w ∈ files w -> tool_runs w1 = tool_runs w) /\
    (forall p, r = Ret p ->
       p = disk_path H w /\ p ∈ files w1 /\ config w1 = config w /\
       vm_name w1 = vm_name w /\ work_dir w1 = work_dir w).
Proof.
  intros Hvm Hsize Htool r w1 E.
  destruct (decide (disk_path H w ∈ files w)) as [Hin|Hout].
  - rewrite (create_disk_image_reuse H w vm size Hvm Hsize Hin) in E.
    injection E as <- <-. rewrite tool_runs_add_stdout.
    split; [lia|]. split; [reflexivity|].
    intros p [= <-]. repeat split; exact Hin.
  - rewrite (create_disk_image_fresh H w vm size Hvm Hsize Hout) in E.
    cbv zeta in E. split; [|split; [intros Hin; contradiction|]].
    + destruct (as_str size) as [s|e].
      * destruct (fst (tool H _ _)) as [[| |]|] eqn:Et; injection E as <- <-;
          cbn [tool_runs]; rewrite ?tool_runs_add_stdout;
          unfold tool_runs; cbn [events set_files add_event add_stdout];
          rewrite List.filter_app, length_app; cbn; lia.
      * injection E as <- <-. rewrite tool_runs_add_stdout. lia.
    + intros p ->.
      destruct (as_str size) as [s|e]; [|discriminate].
      destruct (fst (tool H _ _)) as [[| |]|] eqn:Et; try discriminate.
      injection E as <- <-. split; [reflexivity|].
      split; [|repeat split].
      cbn [files add_stdout set_files]. apply Htool. exact Et.
Qed.

(** C6. Disk provisioning is idempotent. With a configuration that gives
    a disk size, and a disk-creation tool that leaves the image file in place
    when it exits with status 0: (1) if a file exists at the derived path,
    the call returns that path, prints the reuse message and does nothing
    else, so no tool is run and nothing about the existing file is checked;
    (2) after a call that returned, a second call returns the same path and
    again only prints the reuse message; (3) two calls in a row run at most
    one external command. *)
Theorem create_disk_image_idempotent (H : host) (w : world) (vm size : yaml) :
  getitem (config w) "vm" = Ret vm ->
  getitem vm "disk_size" = Ret size ->
  qemu_img_creates H ->
  (disk_path H w ∈ files w ->
     create_disk_image H w =
       (Ret (disk_path H w), add_stdout (reuse_message (disk_path H w)) w))
  /\ (forall p1 w1, create_disk_image H w = (Ret p1, w1) ->
        p1 = disk_path H w /\
        create_disk_image H w1 = (Ret p1, add_stdout (reuse_message p1) w1))
  /\ (tool_runs (snd (create_disk_image_twice H w)) <= tool_runs w + 1)%nat.
Proof.
  intros Hvm Hsize Htool. split; [|split].
  - apply (create_disk_image_reuse H w vm size Hvm Hsize).
  - intros p1 w1 E.
    destruct (create_disk_image_once H w vm size Hvm Hsize Htool _ _ E)
      as (_ & _ & Hret).
    destruct (Hret p1 eq_refl) as (-> & Hin & Hc & Hn & Hd).
    split; [reflexivity|].
    assert (Hp : disk_path H w1 = disk_path H w)
      by (unfold disk_path; now rewrite Hn, Hd).
    rewrite <- Hp in *.
    apply (create_disk_image_reuse H w1 vm size); [now rewrite Hc|exact Hsize|exact Hin].
  - unfold create_disk_image_twice.
    destruct (create_disk_image H w) as [r w1] eqn:E.
    destruct (create_disk_image_once H w vm size Hvm Hsize Htool _ _ E)
      as (Hle & _ & Hret).
    destruct r as [p1|e].
    + destruct (Hret p1 eq_refl) as (-> & Hin & Hc & Hn & Hd).
      assert (Hp : disk_path H w1 = disk_path H w)
        by (unfold disk_path; now rewrite Hn, Hd).
      rewrite (bind_ret _ _ _ _ _ E).
      rewrite <- Hp in Hin.
      assert (E2 := create_disk_image_reuse H w1 vm size
                      ltac:(now rewrite Hc) Hsize Hin).
      rewrite (bind_ret _ _ _ _ _ E2).
      cbn [mret M_ret snd]. rewrite tool_runs_add_stdout. exact Hle.
    + rewrite (bind_raise _ _ _ _ _ E). exact Hle.
Qed.

(** *** Computations that only read the configuration *)

Lemma add_stdouts_nil (w : world) : add_stdouts [] w = w.
Proof. destruct w. unfold add_stdouts. cbn. now rewrite app_nil_r. Qed.

Lemma add_stdouts_app (l1 l2 : list string) (w : world) :
  add_stdouts l2 (add_stdouts l1 w) = add_stdouts (l1 ++ l2) w.
Proof. unfold add_stdouts. cbn. now rewrite app_assoc. Qed.

#[global] Instance reads_ret {A : Type} (a : A) : ReadsConfig (mret a).
Proof.
  exists (fun _ => (Ret a, [])). intros w. cbn. now rewrite add_stdouts_nil.
Defined.

#[global] Instance reads_lift {A : Type} (o : outcome A) : ReadsConfig (lift o).
Proof.
  exists (fun _ => (o, [])). intros w. cbn. now rewrite add_stdouts_nil.
Defined.

#[global] Instance reads_gets_config : ReadsConfig (gets config).
Proof.
  exists (fun c => (Ret c, [])). intros w. cbn. now rewrite add_stdouts_nil.
Defined.

#[global] Instance reads_print (s : string) : ReadsConfig (print s).
Proof. exists (fun _ => (Ret tt, [s])). intros w. reflexivity. Defined.

#[global] Instance reads_bind {A B : Type} (m : M A) (k : A -> M B)
  (Hm : ReadsConfig m) (Hk : forall a, ReadsConfig (k a)) : ReadsConfig (m ≫= k).
Proof.
  exists (fun c =>
            match on_config m c with
            | (Ret a, out) => (fst (on_config (k a) c), out ++ snd (on_config (k a) c))
            | (Raise e, out) => (Raise e, out)
            end).
  intros w. unfold mbind, M_bind. rewrite (reads_config m w).
  destruct (on_config m (config w)) as [[a|e] out]; cbn [fst snd].
  - rewrite (reads_config (k a)). cbn [config add_stdouts].
    now rewrite add_stdouts_app.
  - reflexivity.
Defined.

#[global] Instance reads_if {A : Type} (b : bool) (m1 m2 : M A)
  (H1 : ReadsConfig m1) (H2 : ReadsConfig m2) : ReadsConfig (if b then m1 else m2).
Proof. destruct b; assumption. Defined.

#[global] Instance reads_for_each {A S : Type} (xs : list A) (acc : S)
  (body : A -> S -> M S) (Hb : forall x s, ReadsConfig (body x s)) :
  ReadsConfig (for_each xs acc body).
Proof.
  revert acc. induction xs as [|x xs IH]; intros acc; cbn [for_each].
  - apply reads_ret.
  - apply reads_bind; [apply Hb|]. intros a. apply IH.
Defined.

#[global] Instance reads_generate_autounattend_xml (H : host) :
  ReadsConfig (generate_autounattend_xml H).
Proof. unfold generate_autounattend_xml, account_step. apply _. Defined.

#[global] Instance reads_generate_setup_script (H : host) :
  ReadsConfig (generate_setup_script H).
Proof. unfold generate_setup_script, admin_step. cbv zeta. apply _. Defined.

(** A read-only computation gives the same result in any two worlds that
    hold the same configuration, and leaves the configuration in place. *)
Lemma reads_config_result {A : Type} (m : M A) `{!ReadsConfig m} (w w' : world) :
  config w = config w' -> fst (m w) = fst (m w').
Proof. intros E. rewrite !(reads_config m). cbn [fst]. now rewrite E. Qed.

Lemma reads_config_frame {A : Type} (m : M A) `{!ReadsConfig m} (w : world) :
  config (snd (m w)) = config w /\ vm_name (snd (m w)) = vm_name w /\
  work_dir (snd (m w)) = work_dir w /\ files (snd (m w)) = files w /\
  events (snd (m w)) = events w /\ temps (snd (m w)) = temps w.
Proof. rewrite (reads_config m). cbn. repeat split. Qed.

(** C5. Rendering the answer file is deterministic. Two renderings, one
    after the other, give the same outcome, text for text; the outcome is the
    same in any other world that holds the same configuration, whatever is
    on disk, whatever was printed or run before; and rendering leaves the
    configuration, the files and the record of external actions untouched. *)
Theorem generate_autounattend_xml_deterministic (H : host) (w : world) :
  (let (r1, w1) := generate_autounattend_xml H w in
   let (r2, _) := generate_autounattend_xml H w1 in
   r1 = r2)
  /\ (forall w' : world, config w' = config w ->
        fst (generate_autounattend_xml H w') = fst (generate_autounattend_xml H w))
  /\ config (snd (generate_autounattend_xml H w)) = config w
  /\ files (snd (generate_autounattend_xml H w)) = files w
  /\ events (snd (generate_autounattend_xml H w)) = events w.
Proof.
  split; [|split].
  - destruct (generate_autounattend_xml H w) as [r1 w1] eqn:E1.
    destruct (generate_autounattend_xml H w1) as [r2 w2] eqn:E2.
    change r1 with (fst (r1, w1)). change r2 with (fst (r2, w2)).
    rewrite <- E1, <- E2. symmetry. apply reads_config_result; [apply _|].
    change w1 with (snd (r1, w1)). rewrite <- E1.
    apply (reads_config_frame (generate_autounattend_xml H) w).
  - intros w' E. apply reads_config_result; [apply _|exact E].
  - destruct (reads_config_frame (generate_autounattend_xml H) w) as (? & ? & ? & ? & ? & ?).
    auto.
Qed.

(** *** Computations that touch nothing *)

#[global] Instance pure_ret {A : Type} (a : A) : Pure (mret a).
Proof. exists (Ret a). reflexivity. Defined.

#[global] Instance pure_lift {A : Type} (o : outcome A) : Pure (lift o).
Proof. exists o. reflexivity. Defined.

#[global] Instance pure_bind {A B : Type} (m : M A) (k : A -> M B)
  (Hm : Pure m) (Hk : forall a, Pure (k a)) : Pure (m ≫= k).
Proof.
  exists (match pure_outcome m with
          | Ret a => pure_outcome (k a)
          | Raise e => Raise e
          end).
  intros w. unfold mbind, M_bind. rewrite (pure_run m w).
  destruct (pure_outcome m) as [a|e]; [apply (pure_run (k a))|reflexivity].
Defined.

#[global] Instance pure_if {A : Type} (b : bool) (m1 m2 : M A)
  (H1 : Pure m1) (H2 : Pure m2) : Pure (if b then m1 else m2).
Proof. destruct b; assumption. Defined.

#[global] Instance pure_for_each {A S : Type} (xs : list A) (acc : S)
  (body : A -> S -> M S) (Hb : forall x s, Pure (body x s)) :
  Pure (for_each xs acc body).
Proof.
  revert acc. induction xs as [|x xs IH]; intros acc; cbn [for_each].
  - apply pure_ret.
  - apply pure_bind; [apply Hb|]. intros a. apply IH.
Defined.

#[global] Instance pure_account_step (H : host) (user : yaml) (acc : string) :
  Pure (account_step H user acc).
Proof. unfold account_step. apply _. Defined.

#[global] Instance pure_admin_step (H : host) (user : yaml) (acc : string) :
  Pure (admin_step H user acc).
Proof. unfold admin_step. apply _. Defined.

(** Splits on the outcomes that both sides of the goal wait for. *)
Ltac split_outcomes :=
  repeat match goal with
         | |- context [match ?x with Ret _ => _ | Raise _ => _ end] => destruct x
         end.

Ltac finish_edition :=
  split; [reflexivity|];
  split; [now rewrite <- !app_assoc|];
  split; [now rewrite <- !app_assoc|];
  intros text Ht; [discriminate Ht || (injection Ht as <-; eauto)].

(** C8. An edition key outside the enumeration is no error and selects
    the image of the default. Take two configurations whose [windows]
    sections agree on every key but [windows_edition], which the first sets
    to a scalar that is none of the four known keys and the second does not
    have. Rendering the answer file has the same outcome for both (the same
    text, or the same exception from a later lookup), in both runs the
    image announced is that of the standard edition, and a text that is
    returned is the template filled with that image name. *)
Theorem unrecognized_edition_falls_back (H : host) (w1 w2 : world)
    (kvs1 kvs2 : list (string * yaml)) (v : yaml) :
  getitem (config w1) "windows" = Ret (YMap kvs1) ->
  getitem (config w2) "windows" = Ret (YMap kvs2) ->
  assoc "windows_edition" kvs1 = Some v ->
  assoc "windows_edition" kvs2 = None ->
  (forall k, k <> "windows_edition" -> assoc k kvs1 = assoc k kvs2) ->
  unrecognized_edition v ->
  fst (generate_autounattend_xml H w1) = fst (generate_autounattend_xml H w2)
  /\ stdout (snd (generate_autounattend_xml H w1)) =
       stdout w1 ++ ["Generuji Autounattend.xml...";
                     "  Vybraná edice: Windows Server 2022 SERVERSTANDARD"]
  /\ stdout (snd (generate_autounattend_xml H w2)) =
       stdout w2 ++ ["Generuji Autounattend.xml...";
                     "  Vybraná edice: Windows Server 2022 SERVERSTANDARD"]
  /\ (forall text, fst (generate_autounattend_xml H w1) = Ret text ->
        exists computer_name administrator_password users_xml,
          text = xml_content "Windows Server 2022 SERVERSTANDARD"
                   computer_name administrator_password users_xml).
Proof.
  intros Hw1 Hw2 Hv Hnone Hsame Hun.
  assert (Himg : mapping_get edition_mapping v "Windows Server 2022 SERVERSTANDARD"
                 = Ret "Windows Server 2022 SERVERSTANDARD").
  { destruct v; cbn in Hun |- *; try reflexivity; try contradiction.
    now rewrite Hun. }
  unfold generate_autounattend_xml.
  msimpl. rewrite Hw1, Hw2. msimpl. cbn [get getitem]. rewrite Hv, Hnone. msimpl.
  rewrite Himg.
  change (mapping_get edition_mapping (YStr "standard") "Windows Server 2022 SERVERSTANDARD")
    with (Ret (A:=string) "Windows Server 2022 SERVERSTANDARD").
  msimpl.
  rewrite !(Hsame "users") by discriminate.
  destruct (assoc "users" kvs2) as [users|]; msimpl;
    [|finish_edition].
  destruct (iter users) as [items|e]; msimpl;
    [|finish_edition].
  rewrite !(pure_run (for_each items "" (account_step H))).
  destruct (pure_outcome (for_each items "" (account_step H))) as [users_xml|e]; msimpl;
    [|finish_edition].
  rewrite Hw1, Hw2. msimpl. cbn [get].
  rewrite !(Hsame "administrator_password") by discriminate.
  rewrite !(Hsame "computer_name") by discriminate.
  split_outcomes; msimpl; finish_edition.
Qed.

(** *** Lines *)

Lemma prepend_app (s t : string) (x : string * list string) :
  prepend (s +:+ t) x = prepend s (prepend t x).
Proof.
  induction s as [|c s IH]; [reflexivity|].
  change (String c s +:+ t) with (String c (s +:+ t)).
  cbn [prepend]. now rewrite IH.
Qed.

Lemma prepend_one_line (h : string) (first : string) (rest : list string) :
  one_line h -> prepend h (first, rest) = (h +:+ first, rest).
Proof.
  unfold one_line. induction h as [|c h IH]; [reflexivity|].
  cbn [has_newline prepend]. intros E. apply orb_false_iff in E as [Ec Eh].
  rewrite (IH Eh), Ec. reflexivity.
Qed.

Lemma one_line_app (s t : string) : one_line s -> one_line t -> one_line (s +:+ t).
Proof.
  unfold one_line. induction s as [|c s IH]; [auto|].
  change (String c s +:+ t) with (String c (s +:+ t)). cbn [has_newline].
  intros E Ht. apply orb_false_iff in E as [Ec Eh]. rewrite Ec. cbn [orb]. auto.
Qed.

Lemma length_append (s t : string) :
  String.length (s +:+ t) = (String.length s + String.length t)%nat.
Proof.
  induction s as [|c s IH]; [reflexivity|].
  change (String c s +:+ t) with (String c (s +:+ t)). cbn [String.length].
  now rewrite IH.
Qed.

Lemma strip_suffix_app (suf x : string) : strip_suffix suf (x +:+ suf) = Some x.
Proof.
  induction x as [|c x IH].
  - change (EmptyString +:+ suf) with suf.
    destruct suf as [|a suf]; [reflexivity|].
    cbn [strip_suffix]. now rewrite String.eqb_refl.
  - change (String c x +:+ suf) with (String c (x +:+ suf)). cbn [strip_suffix].
    destruct (String.eqb (String c (x +:+ suf)) suf) eqn:E.
    + apply String.eqb_eq in E. apply (f_equal String.length) in E.
      cbn [String.length] in E. rewrite length_append in E. lia.
    + rewrite IH. reflexivity.
Qed.

Lemma append_assoc (a b c : string) : (a +:+ b) +:+ c = a +:+ (b +:+ c).
Proof.
  induction a as [|x a IH]; [reflexivity|].
  change ((String x a +:+ b) +:+ c) with (String x ((a +:+ b) +:+ c)).
  now rewrite IH.
Qed.

Lemma append_nil_r (a : string) : a +:+ "" = a.
Proof.
  induction a as [|x a IH]; [reflexivity|].
  change (String x a +:+ "") with (String x (a +:+ "")). now rewrite IH.
Qed.

Lemma prepend_rest (s first : string) (rest : list string) :
  prepend s (first, rest) =
    (fst (prepend s (first, [])), snd (prepend s (first, [])) ++ rest).
Proof.
  induction s as [|c s IH]; [reflexivity|].
  cbn [prepend]. rewrite IH.
  destruct (prepend s (first, [])) as [a L]. cbn [fst snd].
  destruct (Ascii.eqb c nl); reflexivity.
Qed.

Lemma prepend_local_account (pw d u g : string) (rest : list string) :
  one_line pw -> one_line d -> one_line u -> one_line g ->
  prepend (local_account pw d u g) (EmptyString, rest)
  = (EmptyString, account_lines pw d u g ++ rest).
Proof.
  intros Hpw Hd Hu Hg. unfold local_account.
  rewrite !prepend_app.
  cbn [prepend local_account_6 Ascii.eqb Bool.eqb nl].
  rewrite (prepend_one_line u) by assumption.
  cbn [prepend local_account_5 Ascii.eqb Bool.eqb nl].
  rewrite (prepend_one_line g) by assumption.
  cbn [prepend local_account_4 Ascii.eqb Bool.eqb nl].
  rewrite (prepend_one_line u) by assumption.
  cbn [prepend local_account_3 Ascii.eqb Bool.eqb nl].
  rewrite (prepend_one_line d) by assumption.
  cbn [prepend local_account_2 Ascii.eqb Bool.eqb nl].
  rewrite (prepend_one_line pw) by assumption.
  cbn [prepend local_account_1 Ascii.eqb Bool.eqb nl].
  reflexivity.
Qed.

(** The lines of the elements of all users. *)
Lemma prepend_accounts_text (H : host) (users : list yaml) (rest : list string) :
  Forall (one_line_user H) users ->
  prepend (accounts_text H users) (EmptyString, rest)
  = (EmptyString,
     concat (map (fun user => account_lines (user_password H user) (user_description H user)
                                (user_name H user) (user_group H user)) users) ++ rest).
Proof.
  induction 1 as [|user users (Hp & Hd & Hu & Hg) _ IH]; [reflexivity|].
  cbn [accounts_text map concat]. rewrite prepend_app, IH.
  unfold account_text. rewrite prepend_local_account by assumption.
  now rewrite <- app_assoc.
Qed.

(** One step of the loop over the users appends the element of the user. *)
Lemma account_step_run (H : host) (user : yaml) (acc : string) (w : world) :
  has_account_keys user ->
  account_step H user acc w = (Ret (acc +:+ account_text H user), w).
Proof.
  intros [[p Hp] [u Hu]]. unfold account_step. msimpl.
  unfold account_text, user_password, user_description, user_name, user_group.
  rewrite Hp, Hu. destruct user as [| | | | |kvs]; try discriminate.
  cbn [get]. destruct (assoc "description" kvs), (assoc "group" kvs); reflexivity.
Qed.

(** The loop over the users appends one element per user, in order. *)
Lemma account_loop (H : host) (users : list yaml) (acc : string) (w : world) :
  Forall has_account_keys users ->
  for_each users acc (account_step H) w = (Ret (acc +:+ accounts_text H users), w).
Proof.
  intros Hk. revert acc. induction Hk as [|user users Hu _ IH]; intros acc.
  - cbn [for_each accounts_text]. now rewrite append_nil_r.
  - cbn [for_each accounts_text]. unfold mbind, M_bind.
    rewrite (account_step_run H user acc w Hu), IH. now rewrite append_assoc.
Qed.

(** String literals in front of an append are pushed through it. *)
#[local] Arguments String.append !s1 s2 : simpl nomatch.

Lemma get_field (kvs : list (string * yaml)) (k : string) (dflt : yaml) :
  get (YMap kvs) k dflt = Ret (field kvs k dflt).
Proof. unfold get, field. destruct (assoc k kvs); reflexivity. Qed.

Lemma lines_insert (P U T : string) (UL : list string) :
  fst (prepend T (EmptyString, [])) = EmptyString ->
  prepend U (EmptyString, snd (prepend T (EmptyString, [])))
    = (EmptyString, UL ++ snd (prepend T (EmptyString, []))) ->
  lines (P +:+ U +:+ T) = lines P ++ UL ++ snd (prepend T (EmptyString, [])).
Proof.
  intros HT HU. unfold lines. rewrite !prepend_app.
  destruct (prepend T (EmptyString, [])) as [f B]. cbn [fst snd] in *. subst f.
  rewrite HU, prepend_rest. destruct (prepend P (EmptyString, [])) as [a L].
  reflexivity.
Qed.

Lemma xml_content_split (img comp pw U : string) :
  xml_content img comp pw U = xml_head img comp pw +:+ U +:+ xml_content_6.
Proof. unfold xml_content, xml_head. now rewrite !append_assoc. Qed.

Lemma xml_tail_lines_spec :
  prepend xml_content_6 (EmptyString, []) = (EmptyString, xml_tail_lines)
  /\ omap (between name_prefix name_suffix) xml_tail_lines = []
  /\ List.filter (String.eqb account_open) xml_tail_lines = []
  /\ List.filter (String.eqb account_close) xml_tail_lines = [].
Proof. repeat split; vm_compute; reflexivity. Qed.

Lemma image_one_line (e : yaml) (img : string) :
  mapping_get edition_mapping e "Windows Server 2022 SERVERSTANDARD" = Ret img ->
  one_line img.
Proof.
  destruct e as [| | |s| |]; cbn [mapping_get]; try (intros [= <-]; reflexivity);
    try discriminate.
  unfold edition_mapping. cbn [assoc_str].
  repeat match goal with
         | |- context [if ?b then _ else _] => destruct b
         end; intros [= <-]; reflexivity.
Qed.

Lemma mapping_get_scalar (m : list (string * string)) (e : yaml) (dflt : string) :
  scalar e -> exists name, mapping_get m e dflt = Ret name.
Proof. destruct e; cbn; intros He; try contradiction; eauto. Qed.

(** What [generate_autounattend_xml] returns for a [windows] section with
    a scalar edition key and a list of users that have their keys. *)
Lemma generate_autounattend_xml_run (H : host) (w : world)
    (kvs : list (string * yaml)) (users : list yaml) :
  getitem (config w) "windows" = Ret (YMap kvs) ->
  scalar (field kvs "windows_edition" (YStr "standard")) ->
  assoc "users" kvs = Some (YList users) ->
  Forall has_account_keys users ->
  generate_autounattend_xml H w =
    (Ret (xml_content (image_name_of kvs)
            (str H (field kvs "computer_name" (YStr "WIN-SERVER")))
            (str H (field kvs "administrator_password" (YStr "Admin123!")))
            (accounts_text H users)),
     add_stdout ("  Vybraná edice: " +:+ image_name_of kvs)
       (add_stdout "Generuji Autounattend.xml..." w)).
Proof.
  intros Hw He Hu Hk. unfold generate_autounattend_xml. msimpl.
  rewrite Hw. msimpl. rewrite !get_field. msimpl.
  unfold image_name_of.
  destruct (mapping_get_scalar edition_mapping _ "Windows Server 2022 SERVERSTANDARD" He)
    as [img Himg].
  rewrite Himg. msimpl. rewrite ?Hw. msimpl. cbn [getitem]. rewrite Hu. msimpl.
  cbn [iter]. rewrite (account_loop H users "" _ Hk). msimpl.
  rewrite ?Hw. msimpl. rewrite ?get_field. reflexivity.
Qed.

Lemma omap_concat_map {A B C : Type} (f : B -> option C) (g : A -> list B) (h : A -> C)
    (xs : list A) :
  (forall x, omap f (g x) = [h x]) -> omap f (concat (map g xs)) = map h xs.
Proof.
  intros E. induction xs as [|x xs IH]; [reflexivity|].
  cbn [map concat]. rewrite omap_app, E, IH. reflexivity.
Qed.

(** *** The lines of setup.ps1 *)








(** One step of the loop over the users of the setup script. *)
Lemma admin_step_run (H : host) (user : yaml) (acc : string) (w : world) :
  script_user_keys user ->
  admin_step H user acc w =
    (Ret (if is_admin user then acc +:+ script_admin (user_name H user) else acc), w).
Proof.
  intros [[kvs ->] Hu]. unfold admin_step, is_admin in *. msimpl.
  rewrite get_field in *. msimpl.
  destruct (eq_str (field kvs "group" (YStr "Users")) "Administrators"); [|reflexivity].
  destruct (Hu eq_refl) as [v Hv]. msimpl. unfold user_name. rewrite Hv. reflexivity.
Qed.

Lemma admin_loop (H : host) (users : list yaml) (acc : string) (w : world) :
  Forall script_user_keys users ->
  for_each users acc (admin_step H) w = (Ret (acc +:+ admins_text H users), w).
Proof.
  intros Hk. revert acc. induction Hk as [|user users Hu _ IH]; intros acc.
  - cbn [for_each admins_text]. now rewrite append_nil_r.
  - cbn [for_each admins_text]. unfold mbind, M_bind.
    rewrite (admin_step_run H user acc w Hu), IH.
    destruct (is_admin user); [now rewrite append_assoc|reflexivity].
Qed.

(** What [generate_setup_script] returns when the keys it needs are
    there: the fixed chunks, the Remote Desktop block if that is enabled,
    and one block per member of Administrators. *)
Lemma generate_setup_script_run (H : host) (w : world)
    (kvs_win kvs_vm rdp : list (string * yaml)) (users : list yaml)
    (web_project source : yaml) :
  getitem (config w) "windows" = Ret (YMap kvs_win) ->
  assoc "web_project" kvs_win = Some web_project ->
  getitem web_project "source_folder" = Ret source ->
  getitem (config w) "vm" = Ret (YMap kvs_vm) ->
  field kvs_vm "rdp" (YMap []) = YMap rdp ->
  assoc "users" kvs_win = Some (YList users) ->
  Forall script_user_keys users ->
  generate_setup_script H w =
    (Ret (script_head +:+
          (if truthy (field rdp "enabled" (YBool false)) then script_rdp else "") +:+
          script_web +:+ admins_text H users +:+ script_tail),
     add_stdout "Generuji setup.ps1..." w).
Proof.
  intros Hw Hwp Hs Hvm Hrdp Hu Hk. unfold generate_setup_script. msimpl.
  rewrite ?Hw. msimpl. cbn [getitem]. rewrite Hwp. msimpl. rewrite Hs. msimpl.
  rewrite ?Hvm. msimpl. rewrite get_field, Hrdp. msimpl. rewrite get_field. msimpl.
  rewrite Hu. msimpl. cbn [iter]. cbv zeta.
  rewrite (admin_loop H users _ _ Hk). msimpl.
  destruct (truthy (field rdp "enabled" (YBool false))).
  - now rewrite !append_assoc.
  - now rewrite !append_assoc.
Qed.





(** *** The launch planner *)

(** C10. In NAT mode without a port-forward table the planner starts
    from one entry, host port 8080 to guest port 80. For a [vm] section
    without [port_forwards] whose [rdp] entry is absent or a mapping, and any
    network mode but bridge, the network clause has the rule
    [hostfwd=tcp::8080-:80] first; it is the only rule when Remote Desktop is
    not enabled, and is followed by the Remote Desktop rule when it is. The
    banner line lists the same forwards, no elevation prefix is asked for,
    and the world, the configuration included, is left as it was. *)
Theorem default_port_forward (H : host) (w : world)
    (kvs_vm rdp : list (string * yaml)) (network_mode bridge_interface : yaml) :
  getitem (config w) "vm" = Ret (YMap kvs_vm) ->
  eq_str network_mode "bridge" = false ->
  assoc "port_forwards" kvs_vm = None ->
  field kvs_vm "rdp" (YMap []) = YMap rdp ->
  network_clause H network_mode bridge_interface w =
    (Ret
       (if truthy (field rdp "enabled" (YBool false))
        then ("-net nic,model=virtio -net user,hostfwd=tcp::8080-:80,hostfwd=tcp::" +:+
              str H (field rdp "host_port" (YInt 3389)) +:+ "-:3389",
              "Port forwards:  localhost:8080 -> VM:80, localhost:" +:+
              str H (field rdp "host_port" (YInt 3389)) +:+ " -> VM:3389",
              "")
        else ("-net nic,model=virtio -net user,hostfwd=tcp::8080-:80",
              "Port forwards:  localhost:8080 -> VM:80",
              "")),
     w).
Proof.
  intros Hvm Hmode Hpf Hrdp. unfold network_clause. rewrite Hmode. msimpl.
  rewrite ?Hvm. msimpl. cbn [get_ref]. rewrite Hpf. msimpl.
  rewrite get_field, Hrdp. msimpl. rewrite get_field. msimpl.
  destruct (truthy (field rdp "enabled" (YBool false))).
  - rewrite get_field. msimpl. unfold append, deref. msimpl. cbn [app iter for_each].
    unfold hostfwd_step, forward_line_step. msimpl.
    cbn [getitem assoc String.eqb Ascii.eqb Bool.eqb]. msimpl.
    cbn [app join str Py.str str_of_Z]. reflexivity.
  - unfold deref. msimpl. cbn [iter for_each].
    unfold hostfwd_step, forward_line_step. msimpl.
    cbn [getitem assoc String.eqb Ascii.eqb Bool.eqb]. msimpl.
    reflexivity.
Qed.

(** *** Loading and rendering *)

Lemma init_run (H : host) (w0 : world) (doc vm name : yaml) (dir : string) :
  getitem doc "vm" = Ret vm ->
  getitem vm "name" = Ret name ->
  getitem vm "work_dir" = Ret (YStr dir) ->
  init H doc w0 =
    (Ret tt,
     World doc name (path_expanduser H dir) ({[ path_expanduser H dir ]} ∪ files w0)
           (stdout w0) (events w0 ++ [EvMkdir (path_expanduser H dir)]) (temps w0)).
Proof.
  intros Hvm Hn Hd. unfold init, expand, mkdir. msimpl.
  rewrite Hvm. msimpl. rewrite Hn. msimpl. rewrite Hd. msimpl. reflexivity.
Qed.

Lemma has_account_keys_script (user : yaml) : has_account_keys user -> script_user_keys user.
Proof.
  intros [[p Hp] [u Hu]]. destruct user as [| | | | |kvs]; try discriminate.
  split; eauto.
Qed.

Lemma account_loop_stops (H : host) (good rest : list yaml) (bad : list (string * yaml))
    (acc key : string) (w : world) :
  Forall has_account_keys good ->
  (assoc "password" bad = None /\ key = "password"
   \/ (exists p, assoc "password" bad = Some p) /\ assoc "username" bad = None
      /\ key = "username") ->
  for_each (good ++ YMap bad :: rest) acc (account_step H) w = (Raise (KeyError key), w).
Proof.
  intros Hg Hb. revert acc. induction Hg as [|user good Hu _ IH]; intros acc.
  - cbn [app for_each]. unfold mbind, M_bind, account_step. msimpl. cbn [getitem get].
    destruct Hb as [[Hp ->]|([p Hp] & Hu & ->)]; rewrite Hp; [reflexivity|].
    destruct (assoc "description" bad); msimpl; rewrite Hu; reflexivity.
  - cbn [app for_each]. unfold mbind, M_bind.
    rewrite (account_step_run H user acc w Hu). apply IH.
Qed.

(** Follows the lookups in the configuration [Hc] down to the section [Hw]. *)
Ltac reads Hc Hw :=
  repeat progress (msimpl; rewrite ?Hc; cbn [getitem]; rewrite ?Hw).

(** C2, as the code has it. Loading looks up [vm.name] and [vm.work_dir]
    itself, and succeeds when they are there (the work directory being a
    string); every other key is looked up by the step that needs it. Of a
    loaded configuration: (1) if it has the keys that the two renderers look
    up, both renderers return text; (2) if the first thing a renderer misses
    is a key it looks up without a default ([windows], [users], a user's
    [password] or [username], [web_project], [source_folder]), that renderer
    raises a KeyError that names this key. *)
Theorem rendering_keys_are_checked_lazily (H : host) (w0 : world)
    (doc vm name : yaml) (dir : string) :
  getitem doc "vm" = Ret vm ->
  getitem vm "name" = Ret name ->
  getitem vm "work_dir" = Ret (YStr dir) ->
  fst (init H doc w0) = Ret tt
  /\ config (snd (init H doc w0)) = doc
  /\ stdout (snd (init H doc w0)) = stdout w0
  /\ (renderable doc ->
      forall r, exists text, fst (render H r (snd (init H doc w0))) = Ret text)
  /\ (forall r key, lacks doc r key ->
      fst (render H r (snd (init H doc w0))) = Raise (KeyError key)).
Proof.
  intros Hvm Hn Hd. rewrite (init_run H w0 doc vm name dir Hvm Hn Hd). cbn [fst snd config stdout].
  split; [reflexivity|]. split; [reflexivity|]. split; [reflexivity|].
  set (w := World doc name _ _ _ _ _).
  assert (Hc : config w = doc) by reflexivity. clearbody w. split.
  - intros (kw & kv & rdp & users & wp & src & Hw & He & Hu & Hk & Hwp & Hs & Hv & Hr) r.
    rewrite <- Hc in Hw, Hv. destruct r; cbn [render].
    + rewrite (generate_autounattend_xml_run H w kw users Hw He Hu Hk). eauto.
    + rewrite (generate_setup_script_run H w kw kv rdp users wp src Hw Hwp Hs Hv Hr Hu
                 (Forall_impl _ _ _ Hk has_account_keys_script)).
      eauto.
  - intros r key Hl. destruct Hl as
      [r kvs Hw | kvs kw Hw He Hu | kvs kw bad good rest Hw He Hu Hg Hp
      | kvs kw bad good rest p Hw He Hu Hg Hp Hn' | kvs kw Hw Hwp | kvs kw kwp Hw Hwp Hs].
    + destruct r; cbn [render]; unfold generate_autounattend_xml, generate_setup_script;
        msimpl; rewrite Hc; cbn [getitem]; rewrite Hw; reflexivity.
    + cbn [render]. unfold generate_autounattend_xml. reads Hc Hw. rewrite get_field.
      destruct (mapping_get_scalar edition_mapping _ "Windows Server 2022 SERVERSTANDARD" He)
        as [img ->].
      reads Hc Hw. rewrite Hu. reflexivity.
    + cbn [render]. unfold generate_autounattend_xml. reads Hc Hw. rewrite get_field.
      destruct (mapping_get_scalar edition_mapping _ "Windows Server 2022 SERVERSTANDARD" He)
        as [img ->].
      reads Hc Hw. rewrite Hu. msimpl. cbn [iter].
      rewrite (account_loop_stops H good rest bad "" "password" _ Hg) by auto.
      reflexivity.
    + cbn [render]. unfold generate_autounattend_xml. reads Hc Hw. rewrite get_field.
      destruct (mapping_get_scalar edition_mapping _ "Windows Server 2022 SERVERSTANDARD" He)
        as [img ->].
      reads Hc Hw. rewrite Hu. msimpl. cbn [iter].
      rewrite (account_loop_stops H good rest bad "" "username" _ Hg) by eauto 6.
      reflexivity.
    + cbn [render]. unfold generate_setup_script. reads Hc Hw. rewrite Hwp. reflexivity.
    + cbn [render]. unfold generate_setup_script. reads Hc Hw. rewrite Hwp. msimpl.
      cbn [getitem]. rewrite Hs. reflexivity.
Qed.

(** *** The port-forward table *)

#[global] Instance pure_hostfwd_step (H : host) (pf : yaml) (acc : list string) :
  Pure (hostfwd_step H pf acc).
Proof. unfold hostfwd_step. apply _. Defined.

#[global] Instance pure_forward_line_step (H : host) (pf : yaml) (acc : list string) :
  Pure (forward_line_step H pf acc).
Proof. unfold forward_line_step. apply _. Defined.

Lemma lookup_update_path (k1 k2 : string) (new : yaml) (kvs kvs' : list (string * yaml))
    (old : yaml) :
  assoc k1 kvs = Some (YMap kvs') ->
  assoc k2 kvs' = Some old ->
  lookup_path [k1; k2] (update_path [k1; k2] new (YMap kvs)) = Some new.
Proof.
  intros H1 H2. cbn [update_path lookup_path].
  assert (A : forall (f : yaml -> yaml) k l v,
             assoc k l = Some v -> assoc k (alter_first f k l) = Some (f v)).
  { intros f k l. induction l as [|[k' v'] l IH]; [discriminate|].
    intros v. cbn [assoc alter_first]. destruct (String.eqb k k') eqn:E.
    - intros [= ->]. cbn [assoc]. now rewrite E.
    - intros Hl. cbn [assoc]. rewrite E. now apply IH. }
  rewrite (A _ _ _ _ H1). cbn [update_path]. now rewrite (A _ _ _ _ H2).
Qed.

(** In NAT mode with Remote Desktop enabled, a port-forward table that the
    configuration holds is the list the planner appends to: after the network
    clause is built, the configuration has the Remote Desktop entry at the end
    of its table, whether or not the entries could then be rendered. *)
Lemma network_clause_appends_to_configuration (H : host) (w : world)
    (kvs kvs_vm rdp : list (string * yaml)) (pfs : list yaml)
    (network_mode bridge_interface : yaml) :
  config w = YMap kvs ->
  assoc "vm" kvs = Some (YMap kvs_vm) ->
  eq_str network_mode "bridge" = false ->
  assoc "port_forwards" kvs_vm = Some (YList pfs) ->
  field kvs_vm "rdp" (YMap []) = YMap rdp ->
  truthy (field rdp "enabled" (YBool false)) = true ->
  port_forwards_of (snd (network_clause H network_mode bridge_interface w))
  = Some (YList (pfs ++ [YMap [("host", field rdp "host_port" (YInt 3389));
                               ("guest", YInt 3389)]])).
Proof.
  intros Hc Hvm Hmode Hpf Hrdp Hen. unfold network_clause. rewrite Hmode. msimpl.
  rewrite !Hc. cbn [getitem]. rewrite Hvm. msimpl. cbn [get_ref]. rewrite Hpf. msimpl.
  rewrite get_field, Hrdp. msimpl. rewrite get_field, Hen. msimpl. rewrite get_field.
  msimpl. unfold append, deref. msimpl. rewrite !Hc. cbn [lookup_path app].
  rewrite Hvm, Hpf. msimpl.
  set (cfg' := update_path _ _ _).
  assert (Hl : lookup_path ["vm"; "port_forwards"] cfg'
               = Some (YList (pfs ++ [YMap [("host", field rdp "host_port" (YInt 3389));
                                           ("guest", YInt 3389)]])))
    by (subst cfg'; rewrite ?Hc; apply (lookup_update_path _ _ _ _ _ _ Hvm Hpf)).
  unfold port_forwards_of.
  repeat (first
            [ rewrite Hl
            | rewrite (pure_run (for_each _ _ (hostfwd_step H)))
            | rewrite (pure_run (for_each _ _ (forward_line_step H)))
            | match goal with
              | |- context [match ?x with Ret _ => _ | Raise _ => _ end] => destruct x
              end ];
          msimpl; cbn [iter]);
    reflexivity.
Qed.

(** *** The mount of the floppy image *)

(** Whatever the host, when the mount succeeds and the copy exits with a
    status other than 0, the block ends with an exception after these events
    and no others: the mount, the copy, the removal of the mount point and,
    if that went through, the removal of the directory of the answer file.
    The unmount is not among them. *)
Lemma mount_and_copy_skips_unmount (H : host) (w : world)
    (img src mp dir : string) (fs1 fs2 : gset string) (rc : Z) :
  let mount := ["sudo"; "mount"; "-o"; "loop"; img; mp] in
  let cp := ["sudo"; "cp"; src; mp] in
  let w1 := set_files fs1 (add_event (EvRun mount (Exited 0)) w) in
  let w2 := set_files fs2 (add_event (EvRun cp (Exited rc)) w1) in
  tool H mount w = (Exited 0, fs1) ->
  tool H cp w1 = (Exited rc, fs2) ->
  rc <> 0 ->
  (exists e, fst (mount_and_copy H img src mp dir w) = Raise e)
  /\ events (snd (mount_and_copy H img src mp dir w))
     = events w ++ [EvRun mount (Exited 0); EvRun cp (Exited rc); EvRmtree mp]
       ++ (if rmtree_fails H mp w2 then [] else [EvRmtree dir]).
Proof.
  intros mount cp w1 w2 Hm Hc Hrc.
  unfold mount_and_copy, try_finally, subprocess_run, rmtree. msimpl.
  cbn [argv_of as_str id]. msimpl. fold mount cp. rewrite Hm. msimpl.
  fold w1. rewrite Hc. msimpl. fold w2.
  destruct rc as [|p|p]; [contradiction| |];
    msimpl; destruct (rmtree_fails H mp w2); msimpl;
    try destruct (rmtree_fails H dir _); msimpl;
    (split; [eauto|]); subst w2 w1; msimpl; rewrite <- ?app_assoc; reflexivity.
Qed.

(** *** The code on the examples *)

(** C3 (the code departs from it). With NAT mode, Remote Desktop enabled
    and a port-forward table in the configuration, [start_vm] returns
    normally and the table in the configuration has grown by the Remote
    Desktop entry; a second call appends the entry once more. *)
Theorem start_vm_appends_to_configured_port_forwards :
  let doc := example_doc [("port_forwards", YList [forward 8080 80]); rdp_on] in
  let w := loaded example_host doc in
  let run := start_vm example_host "/vms/Win1.qcow2" "/vms/Win1_config.iso"
               "/vms/Win1_floppy.img" in
  config w = doc
  /\ port_forwards_of w = Some (YList [forward 8080 80])
  /\ fst (run w) = Ret tt
  /\ port_forwards_of (snd (run w)) = Some (YList [forward 8080 80; forward 13389 3389])
  /\ port_forwards_of (snd (run (snd (run w))))
     = Some (YList [forward 8080 80; forward 13389 3389; forward 13389 3389]).
Proof. cbv zeta. repeat split; vm_compute; reflexivity. Qed.

(** C1 (the code departs from it). On a host where the copy onto the
    mounted floppy image exits with status 1, [create_config_iso] raises the
    error of the copy after it has removed the mount-point directory and the
    two other temporary directories, and it never runs the unmount: the image
    is still mounted on the removed mount point when the error surfaces. *)
Theorem floppy_stays_mounted_when_copy_fails :
  let w := loaded host_cp_fails (example_doc []) in
  let r := create_config_iso host_cp_fails w in
  fst r = Raise (CalledProcessError 1
                   ["sudo"; "cp"; "/tmp/tmp1/Autounattend.xml"; "/tmp/tmp2"])
  /\ actions (snd r)
     = [Ran "dd" true; Ran "mkfs.vfat" true; Ran "mount" true; Ran "cp" false;
        Removed "/tmp/tmp2"; Removed "/tmp/tmp1"; Removed "/tmp/tmp0"]
  /\ mounts (events (snd r)) [] = ["/tmp/tmp2"]
  /\ removed_while_mounted (events (snd r)) [] = ["/tmp/tmp2"].
Proof. cbv zeta. repeat split; vm_compute; reflexivity. Qed.

(** When every command succeeds, the unmount comes before the removal of
    the mount point and nothing stays mounted. *)
Example floppy_unmounted_when_all_succeeds :
  let w := loaded example_host (example_doc []) in
  let r := create_config_iso example_host w in
  fst r = Ret ("/vms/Win1_config.iso", "/vms/Win1_floppy.img")
  /\ actions (snd r)
     = [Ran "dd" true; Ran "mkfs.vfat" true; Ran "mount" true; Ran "cp" true;
        Ran "umount" true; Removed "/tmp/tmp2"; Removed "/tmp/tmp1";
        Ran "mkisofs" true; Removed "/tmp/tmp0"]
  /\ mounts (events (snd r)) [] = []
  /\ removed_while_mounted (events (snd r)) [] = [].
Proof. cbv zeta. repeat split; vm_compute; reflexivity. Qed.

(** C2 as stated fails: a document without [vm.name] fails when it is
    loaded, before anything is rendered or printed. *)
Lemma missing_vm_name_fails_at_load :
  fst (init example_host doc_without_name blank_world) = Raise (KeyError "name")
  /\ stdout (snd (init example_host doc_without_name blank_world)) = []
  /\ events (snd (init example_host doc_without_name blank_world)) = [].
Proof. repeat split; vm_compute; reflexivity. Qed.


(** *** The theorems at the examples *)

Lemma example_host_creates : qemu_img_creates example_host.
Proof.
  intros path size w _. cbn [tool example_host example_tool snd hd nth].
  rewrite String.eqb_refl. set_solver.
Qed.

Lemma example_users_ok (H : host) :
  Forall has_account_keys [alice; bob]
  /\ Forall (one_line_user H) [alice; bob]
  /\ Forall (script_user_ok H) [alice; bob].
Proof.
  split; [|split].
  - repeat constructor; eexists; reflexivity.
  - repeat constructor; reflexivity.
  - repeat constructor; try (eexists; reflexivity); try reflexivity;
      intros; try discriminate; eexists; reflexivity.
Qed.

Lemma check_dependencies_reports_all_missing_witness :
  missing_commands host_without_qemu = ["qemu-system-x86_64"; "qemu-img"]
  /\ check_dependencies host_without_qemu blank_world =
       (Raise (SystemExit 1),
        add_stdout "Nainstalujte: sudo apt-get install qemu-kvm qemu-utils genisoimage"
          (add_stdout "CHYBA: Chybějící závislosti: qemu-system-x86_64, qemu-img"
             (add_stdout "Kontrola závislostí..." blank_world))).
Proof.
  split; [reflexivity|].
  apply (check_dependencies_reports_all_missing host_without_qemu blank_world).
  discriminate.
Defined.

Lemma create_disk_image_idempotent_witness :
  let w := loaded example_host (example_doc []) in
  getitem (config w) "vm" = Ret (example_vm [])
  /\ (tool_runs (snd (create_disk_image_twice example_host w)) <= tool_runs w + 1)%nat
  /\ forall p1 w1, create_disk_image example_host w = (Ret p1, w1) ->
       p1 = disk_path example_host w /\
       create_disk_image example_host w1 = (Ret p1, add_stdout (reuse_message p1) w1).
Proof.
  cbv zeta. split; [reflexivity|].
  pose proof (create_disk_image_idempotent example_host
                (loaded example_host (example_doc [])) (example_vm []) (YStr "40G")
                eq_refl eq_refl example_host_creates) as (_ & Hsecond & Htwice).
  split; assumption.
Defined.

Lemma unrecognized_edition_falls_back_witness :
  let kvs2 := [("users", YList [alice; bob])] in
  let kvs1 := ("windows_edition", YStr "enterprise") :: kvs2 in
  let w1 := set_config (YMap [("windows", YMap kvs1)]) blank_world in
  let w2 := set_config (YMap [("windows", YMap kvs2)]) blank_world in
  unrecognized_edition (YStr "enterprise")
  /\ fst (generate_autounattend_xml example_host w1)
     = fst (generate_autounattend_xml example_host w2).
Proof.
  cbv zeta. split; [reflexivity|].
  apply (unrecognized_edition_falls_back example_host
           (set_config (YMap [("windows", YMap (("windows_edition", YStr "enterprise")
                                                  :: [("users", YList [alice; bob])]))])
              blank_world)
           (set_config (YMap [("windows", YMap [("users", YList [alice; bob])])])
              blank_world)
           (("windows_edition", YStr "enterprise") :: [("users", YList [alice; bob])])
           [("users", YList [alice; bob])] (YStr "enterprise"));
    try reflexivity.
  intros k Hk. cbn [assoc]. destruct (String.eqb_spec k "windows_edition"); [contradiction|].
  reflexivity.
Defined.


Lemma rendering_keys_are_checked_lazily_witness :
  fst (init example_host doc_without_source_folder blank_world) = Ret tt
  /\ fst (render example_host SetupScript
            (snd (init example_host doc_without_source_folder blank_world)))
     = Raise (KeyError "source_folder")
  /\ exists text,
       fst (render example_host SetupScript
              (snd (init example_host (example_doc []) blank_world))) = Ret text.
Proof.
  pose proof (rendering_keys_are_checked_lazily example_host blank_world
                doc_without_source_folder (example_vm []) (YStr "Win1") "/vms"
                eq_refl eq_refl eq_refl) as (Hload & _ & _ & _ & Hlacks).
  pose proof (rendering_keys_are_checked_lazily example_host blank_world
                (example_doc []) (example_vm []) (YStr "Win1") "/vms"
                eq_refl eq_refl eq_refl) as (_ & _ & _ & Hok & _).
  split; [exact Hload|]. split.
  - apply Hlacks.
    apply (lacks_source_folder _ [("users", YList [alice; bob]);
                                   ("web_project", YMap [("name", YStr "Site")])]
             [("name", YStr "Site")]); reflexivity.
  - apply Hok. unfold renderable.
    exists [("windows_edition", YStr "datacenter"); ("computer_name", YStr "WEB01");
            ("users", YList [alice; bob]);
            ("web_project", YMap [("source_folder", YStr "/srv/site");
                                  ("name", YStr "Site")])].
    exists [("name", YStr "Win1"); ("work_dir", YStr "/vms"); ("disk_size", YStr "40G");
            ("memory", YStr "4G"); ("cpus", YInt 2); ("iso_path", YStr "/iso/win.iso");
            ("network_mode", YStr "nat")].
    exists [], [alice; bob],
      (YMap [("source_folder", YStr "/srv/site"); ("name", YStr "Site")]),
      (YStr "/srv/site").
    repeat split; try reflexivity. apply (example_users_ok example_host).
Defined.

Lemma default_port_forward_witness :
  fst (network_clause example_host (YStr "nat") (YStr "br0")
         (loaded example_host (example_doc [rdp_on])))
  = Ret ("-net nic,model=virtio -net user,hostfwd=tcp::8080-:80,hostfwd=tcp::13389-:3389",
         "Port forwards:  localhost:8080 -> VM:80, localhost:13389 -> VM:3389", "")
  /\ fst (network_clause example_host (YStr "nat") (YStr "br0")
            (loaded example_host (example_doc [])))
     = Ret ("-net nic,model=virtio -net user,hostfwd=tcp::8080-:80",
            "Port forwards:  localhost:8080 -> VM:80", "").
Proof.
  split.
  - rewrite (default_port_forward example_host (loaded example_host (example_doc [rdp_on]))
               [("name", YStr "Win1"); ("work_dir", YStr "/vms"); ("disk_size", YStr "40G");
                ("memory", YStr "4G"); ("cpus", YInt 2); ("iso_path", YStr "/iso/win.iso");
                ("network_mode", YStr "nat"); rdp_on]
               [("enabled", YBool true); ("host_port", YInt 13389)]
               (YStr "nat") (YStr "br0") eq_refl eq_refl eq_refl eq_refl).
    reflexivity.
  - rewrite (default_port_forward example_host (loaded example_host (example_doc []))
               [("name", YStr "Win1"); ("work_dir", YStr "/vms"); ("disk_size", YStr "40G");
                ("memory", YStr "4G"); ("cpus", YInt 2); ("iso_path", YStr "/iso/win.iso");
                ("network_mode", YStr "nat")]
               [] (YStr "nat") (YStr "br0") eq_refl eq_refl eq_refl eq_refl).
    reflexivity.
Defined.

(** ** More about the methods *)

(** *** What the steps leave alone *)

Lemma same_self_refl (w : world) : same_self w w.
Proof. repeat split. Qed.

Lemma same_self_trans (w1 w2 w3 : world) :
  same_self w1 w2 -> same_self w2 w3 -> same_self w1 w3.
Proof. intros (a & b & c) (d & e & f). repeat split; congruence. Qed.

Section KeepsInstances.
Context (C : yaml -> Prop).

#[global] Instance keeps_ret {A : Type} (a : A) : Keeps C (mret a).
Proof. intros w _. apply same_self_refl. Qed.

#[global] Instance keeps_lift {A : Type} (o : outcome A) : Keeps C (lift o).
Proof. intros w _. apply same_self_refl. Qed.

#[global] Instance keeps_raise {A : Type} (e : exc) : Keeps C (raise (A:=A) e).
Proof. intros w _. apply same_self_refl. Qed.

#[global] Instance keeps_gets {A : Type} (f : world -> A) : Keeps C (gets f).
Proof. intros w _. apply same_self_refl. Qed.

#[global] Instance keeps_print (s : string) : Keeps C (print s).
Proof. intros w _. repeat split. Qed.

#[global] Instance keeps_emit (e : event) : Keeps C (emit e).
Proof. intros w _. repeat split. Qed.

#[global] Instance keeps_set_files (fs : gset string) : Keeps C (modify (set_files fs)).
Proof. intros w _. repeat split. Qed.

#[global] Instance keeps_next_temp : Keeps C (modify next_temp).
Proof. intros w _. repeat split. Qed.

#[global] Instance keeps_path_exists (p : string) : Keeps C (path_exists p).
Proof. intros w _. apply same_self_refl. Qed.

#[global] Instance keeps_bind {A B : Type} (m : M A) (k : A -> M B)
  (Hm : Keeps C m) (Hk : forall a, Keeps C (k a)) : Keeps C (m ≫= k).
Proof.
  intros w Hc. unfold mbind, M_bind. pose proof (Hm w Hc) as Em.
  destruct (m w) as [[a|e] w1]; cbn [snd] in *; [|exact Em].
  apply (same_self_trans _ w1); [|exact Em].
  apply Hk. destruct Em as (-> & _). exact Hc.
Qed.

#[global] Instance keeps_if {A : Type} (b : bool) (m1 m2 : M A)
  (H1 : Keeps C m1) (H2 : Keeps C m2) : Keeps C (if b then m1 else m2).
Proof. destruct b; assumption. Qed.

#[global] Instance keeps_for_each {A S : Type} (xs : list A) (acc : S)
  (body : A -> S -> M S) (Hb : forall x s, Keeps C (body x s)) :
  Keeps C (for_each xs acc body).
Proof.
  revert acc. induction xs as [|x xs IH]; intros acc; cbn [for_each]; apply _.
Qed.

#[global] Instance keeps_try_finally {A : Type} (body : M A) (cleanup : M unit)
  (Hb : Keeps C body) (Hc : Keeps C cleanup) : Keeps C (try_finally body cleanup).
Proof.
  intros w Hw. unfold try_finally. pose proof (Hb w Hw) as Eb.
  destruct (body w) as [r w1]. cbn [snd] in Eb.
  assert (Hw1 : C (config w1)) by (destruct Eb as (-> & _); exact Hw).
  pose proof (Hc w1 Hw1) as Ec.
  destruct (cleanup w1) as [[u|e] w2]; cbn [snd] in *;
    apply (same_self_trans _ w1); assumption.
Qed.

#[global] Instance keeps_subprocess_run (H : host) (cmd : list yaml) :
  Keeps C (subprocess_run H cmd).
Proof.
  intros w _. unfold subprocess_run. msimpl.
  destruct (argv_of cmd) as [argv|e]; msimpl; [|apply same_self_refl].
  unfold id. destruct (tool H argv w) as [[[| |]|] fs]; msimpl; repeat split.
Qed.

#[global] Instance keeps_mkdtemp (H : host) : Keeps C (mkdtemp H).
Proof. unfold mkdtemp. apply _. Qed.

#[global] Instance keeps_rmtree (H : host) (path : string) : Keeps C (rmtree H path).
Proof.
  intros w _. unfold rmtree. msimpl. unfold id.
  destruct (rmtree_fails H path w); msimpl; repeat split.
Qed.

#[global] Instance keeps_open_w (path : string) : Keeps C (open_w path).
Proof. unfold open_w. apply _. Qed.

#[global] Instance keeps_write (path content : string) : Keeps C (write path content).
Proof. unfold write. apply _. Qed.

#[global] Instance keeps_mkdir (path : string) : Keeps C (mkdir path).
Proof. unfold mkdir. apply _. Qed.

#[global] Instance keeps_expand (H : host) (v : yaml) : Keeps C (expand H v).
Proof. unfold expand. apply _. Qed.

#[global] Instance keeps_check_dependencies (H : host) : Keeps C (check_dependencies H).
Proof.
  unfold check_dependencies. apply keeps_bind; [apply _|]. intros _.
  apply keeps_bind; [apply _|]. intros missing.
  apply keeps_bind; [destruct missing; apply _|]. intros _. apply _.
Qed.

#[global] Instance keeps_create_disk_image (H : host) : Keeps C (create_disk_image H).
Proof. unfold create_disk_image. apply _. Qed.

#[global] Instance keeps_generate_autounattend_xml (H : host) :
  Keeps C (generate_autounattend_xml H).
Proof. unfold generate_autounattend_xml, account_step. apply _. Qed.

#[global] Instance keeps_generate_setup_script (H : host) :
  Keeps C (generate_setup_script H).
Proof. unfold generate_setup_script, admin_step. cbv zeta. apply _. Qed.

#[global] Instance keeps_mount_and_copy (H : host) (a b c d : string) :
  Keeps C (mount_and_copy H a b c d).
Proof. unfold mount_and_copy. apply _. Qed.

#[global] Instance keeps_floppy_stage (H : host) : Keeps C (floppy_stage H).
Proof. unfold floppy_stage. apply _. Qed.

#[global] Instance keeps_copy_item (H : host) (s d : string) (item : string * entry_kind)
  (u : unit) : Keeps C (copy_item H s d item u).
Proof. unfold copy_item. destruct (snd item); apply _. Qed.

#[global] Instance keeps_iso_stage (H : host) (temp_dir : string) :
  Keeps C (iso_stage H temp_dir).
Proof. unfold iso_stage. apply _. Qed.

#[global] Instance keeps_create_config_iso (H : host) : Keeps C (create_config_iso H).
Proof. unfold create_config_iso. apply _. Qed.

End KeepsInstances.

(** X1. None of the dependency check, the disk step, the two renderers
    and the media step changes the deployer object: the configuration, the
    name of the VM and the work directory are what they were, on every host,
    whether the step returns or raises. *)
Theorem steps_keep_the_deployer_object (H : host) (w : world) :
  same_self (snd (check_dependencies H w)) w
  /\ same_self (snd (create_disk_image H w)) w
  /\ same_self (snd (generate_autounattend_xml H w)) w
  /\ same_self (snd (generate_setup_script H w)) w
  /\ same_self (snd (create_config_iso H w)) w.
Proof.
  repeat split; apply (keeps (C := fun _ => True)); exact I.
Qed.

(** The network clause leaves the deployer object alone when there is no
    stored table to append to. *)
#[global] Instance keeps_network_clause (H : host) (network_mode bridge_interface : yaml) :
  Keeps no_table_to_append_to (network_clause H network_mode bridge_interface).
Proof.
  intros w Hc. unfold network_clause.
  destruct (eq_str network_mode "bridge"); [apply same_self_refl|]. msimpl.
  destruct (getitem (config w) "vm") as [vm|e] eqn:Evm; msimpl; [|apply same_self_refl].
  destruct vm as [| | | | |kvs]; cbn [get_ref]; msimpl; try apply same_self_refl.
  rewrite get_field.
  destruct (field kvs "rdp" (YMap [])) as [| | | | |rdp] eqn:Erdp; cbn [get]; msimpl;
    try (destruct (assoc "port_forwards" kvs); apply same_self_refl).
  destruct (truthy (match assoc "enabled" rdp with Some v => v | None => YBool false end))
    eqn:Et.
  - rewrite (Hc kvs rdp Evm Erdp Et). msimpl.
    destruct (assoc "enabled" rdp); destruct (assoc "host_port" rdp); msimpl;
      rewrite ?Et; msimpl; unfold append, deref; msimpl; cbn [iter];
      rewrite ?(pure_run (for_each _ _ (hostfwd_step H)));
      split_outcomes; msimpl;
      rewrite ?(pure_run (for_each _ _ (forward_line_step H)));
      split_outcomes; msimpl; apply same_self_refl.
  - destruct (assoc "port_forwards" kvs) eqn:Epf; msimpl;
      destruct (assoc "enabled" rdp); msimpl; rewrite ?Et; msimpl; unfold deref; msimpl;
      repeat (first
                [ rewrite (pure_run (for_each _ _ (hostfwd_step H)))
                | rewrite (pure_run (for_each _ _ (forward_line_step H)))
                | match goal with
                  | |- context [match ?x with Ret _ => _ | Raise _ => _ end] => destruct x
                  | |- context [match ?x with Some _ => _ | None => _ end] => destruct x
                  end ];
              msimpl);
      apply same_self_refl.
Qed.

(** Decomposes a computation into the steps that are known to leave the
    deployer object alone. *)
Ltac keeps_steps :=
  repeat match goal with
         | |- Keeps _ (network_clause _ _ _) => apply keeps_network_clause
         | |- Keeps _ (expand _ _) => apply keeps_expand
         | |- Keeps _ (open_w _) => apply keeps_open_w
         | |- Keeps _ (write _ _) => apply keeps_write
         | |- Keeps _ (print _) => apply keeps_print
         | |- Keeps _ (emit _) => apply keeps_emit
         | |- Keeps _ (path_exists _) => apply keeps_path_exists
         | |- Keeps _ (lift _) => apply keeps_lift
         | |- Keeps _ (gets _) => apply keeps_gets
         | |- Keeps _ (mret _) => apply keeps_ret
         | |- Keeps _ (raise _) => apply keeps_raise
         | |- Keeps _ (if _ then _ else _) => apply keeps_if
         | |- Keeps _ (_ ≫= _) => apply keeps_bind; [|intros ?]
         end.

#[global] Instance keeps_start_vm (H : host) (a b c : string) :
  Keeps no_table_to_append_to (start_vm H a b c).
Proof. unfold start_vm. cbv zeta. keeps_steps. Qed.

(** X2. [start_vm] leaves the deployer object as it was whenever there is
    no stored port-forward table to append to, that is, when Remote Desktop
    is not enabled or the [vm] section has no [port_forwards] key: the
    configuration, the name and the work directory are unchanged, in NAT and
    in bridge mode, whether [start_vm] returns or raises. *)
Theorem start_vm_keeps_the_deployer_object (H : host) (w : world)
    (disk_path config_iso_path floppy_path : string) :
  no_table_to_append_to (config w) ->
  same_self (snd (start_vm H disk_path config_iso_path floppy_path w)) w.
Proof. apply keeps_start_vm. Qed.

(** *** Dependencies, loading and the order of the steps *)

Lemma check_dependencies_run (H : host) (w : world) :
  check_dependencies H w =
    match missing_commands H with
    | [] => (Ret tt,
             add_stdout "Všechny závislosti jsou dostupné"
               (add_stdout "Kontrola závislostí..." w))
    | m :: ms =>
        (Raise (SystemExit 1),
         add_stdout "Nainstalujte: sudo apt-get install qemu-kvm qemu-utils genisoimage"
           (add_stdout ("CHYBA: Chybějící závislosti: " +:+ join ", " (m :: ms))
              (add_stdout "Kontrola závislostí..." w)))
    end.
Proof.
  unfold check_dependencies.
  unfold mbind at 1, M_bind at 1. cbn [print modify].
  unfold mbind at 1, M_bind at 1.
  unfold mbind at 1, M_bind at 1.
  rewrite collect_missing. cbn [app]. fold (missing_commands H).
  destruct (missing_commands H); reflexivity.
Qed.

(** X3. The dependency check passes exactly when each of the three
    required commands is on the search path; then it prints its two messages
    and nothing else happens. Passing or not, it creates no file and runs no
    command. *)
Theorem check_dependencies_passes_iff_all_found (H : host) (w : world) :
  (fst (check_dependencies H w) = Ret tt <->
   which H "qemu-system-x86_64" = true /\ which H "qemu-img" = true
   /\ which H "mkisofs" = true)
  /\ (fst (check_dependencies H w) = Ret tt ->
      stdout (snd (check_dependencies H w))
      = stdout w ++ ["Kontrola závislostí..."; "Všechny závislosti jsou dostupné"])
  /\ files (snd (check_dependencies H w)) = files w
  /\ events (snd (check_dependencies H w)) = events w.
Proof.
  rewrite check_dependencies_run. unfold missing_commands, required_commands.
  cbn [List.filter].
  destruct (which H "qemu-system-x86_64"), (which H "qemu-img"), (which H "mkisofs");
    cbn [negb fst snd stdout files events add_stdout];
    (split; [split; [intros E; try discriminate E; auto
                    |intros (E1 & E2 & E3); try discriminate; reflexivity]|]);
    (split; [intros E; try discriminate E; now rewrite <- !app_assoc|]);
    split; reflexivity.
Qed.

(** X4. With a required command missing, [deploy] stops at the dependency
    check: it exits with status 1 after the banner and the three lines of the
    check, before any file is made and before any command is run. *)
Theorem deploy_stops_at_missing_dependency (H : host) (w : world) :
  missing_commands H <> [] ->
  fst (deploy H w) = Raise (SystemExit 1)
  /\ stdout (snd (deploy H w))
     = stdout w ++ [deploy_banner; "Kontrola závislostí...";
                    "CHYBA: Chybějící závislosti: " +:+ join ", " (missing_commands H);
                    "Nainstalujte: sudo apt-get install qemu-kvm qemu-utils genisoimage"]
  /\ events (snd (deploy H w)) = events w
  /\ files (snd (deploy H w)) = files w.
Proof.
  intros Hne.
  assert (E : deploy H w =
              (Raise (SystemExit 1),
               add_stdout "Nainstalujte: sudo apt-get install qemu-kvm qemu-utils genisoimage"
                 (add_stdout ("CHYBA: Chybějící závislosti: " +:+
                              join ", " (missing_commands H))
                    (add_stdout "Kontrola závislostí..." (add_stdout deploy_banner w))))).
  { unfold deploy.
    unfold mbind at 1, M_bind at 1. cbn [print modify].
    unfold mbind at 1, M_bind at 1. rewrite check_dependencies_run.
    destruct (missing_commands H) as [|m ms]; [congruence|reflexivity]. }
  rewrite E. cbn [fst snd stdout events files add_stdout].
  repeat split. now rewrite <- !app_assoc.
Qed.


(** Without the configuration file [main] exits with status 1 at once. *)
Lemma main_without_config_file (H : host) (read_config : string -> outcome yaml)
    (config_path : string) (w : world) :
  config_path ∉ files w ->
  main H read_config config_path w =
    (Raise (SystemExit 1),
     add_stdout ("CHYBA: Konfigurační soubor nenalezen: " +:+ config_path) w).
Proof.
  intros Hout. unfold main. msimpl.
  rewrite bool_decide_eq_false_2 by exact Hout. reflexivity.
Qed.

(** X6. The work directory is made before the dependencies are checked:
    when the configuration file is there and loads, and a required command
    is missing, [main] exits with status 1 and the only thing it has done on
    the host is to create the work directory. *)
Theorem main_creates_work_dir_before_dependency_check (H : host)
    (read_config : string -> outcome yaml) (config_path : string) (w : world)
    (doc vm name : yaml) (dir : string) :
  config_path ∈ files w ->
  read_config config_path = Ret doc ->
  getitem doc "vm" = Ret vm ->
  getitem vm "name" = Ret name ->
  getitem vm "work_dir" = Ret (YStr dir) ->
  missing_commands H <> [] ->
  fst (main H read_config config_path w) = Raise (SystemExit 1)
  /\ events (snd (main H read_config config_path w))
     = events w ++ [EvMkdir (path_expanduser H dir)]
  /\ path_expanduser H dir ∈ files (snd (main H read_config config_path w)).
Proof.
  intros Hin Hread Hvm Hn Hd Hne.
  assert (E : exists out,
             main H read_config config_path w =
               (Raise (SystemExit 1),
                World doc name (path_expanduser H dir)
                      ({[ path_expanduser H dir ]} ∪ files w) out
                      (events w ++ [EvMkdir (path_expanduser H dir)]) (temps w))).
  { unfold main. msimpl. rewrite bool_decide_eq_true_2 by exact Hin. rewrite Hread.
    msimpl. rewrite (init_run H w doc vm name dir Hvm Hn Hd). msimpl.
    unfold deploy. unfold mbind at 1, M_bind at 1. cbn [print modify].
    unfold mbind at 1, M_bind at 1. rewrite check_dependencies_run.
    destruct (missing_commands H) as [|m ms]; [congruence|].
    eexists. reflexivity. }
  destruct E as [out ->]. cbn [fst snd events files].
  repeat split. set_solver.
Qed.

(** *** The disk step when things go wrong *)

(** X7. When the disk has to be made and [qemu-img] exits with a status
    other than 0, [create_disk_image] raises CalledProcessError with that
    status and the command line; it has run that one command, has announced
    the creation, and has not reported a created disk. *)
Theorem create_disk_image_reports_tool_failure (H : host) (w : world)
    (vm : yaml) (size : string) (rc : Z) :
  let argv := ["qemu-img"; "create"; "-f"; "qcow2"; disk_path H w; size] in
  let w1 := add_stdout ("Vytvářím virtuální disk " +:+ size +:+ "...") w in
  getitem (config w) "vm" = Ret vm ->
  getitem vm "disk_size" = Ret (YStr size) ->
  disk_path H w ∉ files w ->
  fst (tool H argv w1) = Exited rc ->
  rc <> 0 ->
  fst (create_disk_image H w) = Raise (CalledProcessError rc argv)
  /\ stdout (snd (create_disk_image H w)) = stdout w1
  /\ events (snd (create_disk_image H w)) = events w ++ [EvRun argv (Exited rc)].
Proof.
  intros argv w1 Hvm Hsize Hout Htool Hrc.
  rewrite (create_disk_image_fresh H w vm (YStr size) Hvm Hsize Hout).
  cbn [as_str str Py.str]. cbv zeta. fold argv. fold w1. rewrite Htool.
  destruct rc as [|p|p]; [contradiction| |]; repeat split.
Qed.

(** X8. The disk size is looked up before the disk is looked for, and is
    only used when the disk has to be made. Without [vm.disk_size] the step
    raises KeyError, also when the disk exists. A size that is not a string
    (a YAML number, say) is no obstacle to reusing an existing disk, but when
    the disk has to be made it raises TypeError before any command is run. *)
Theorem create_disk_image_size_lookup (H : host) (w : world)
    (kvs_vm : list (string * yaml)) :
  getitem (config w) "vm" = Ret (YMap kvs_vm) ->
  (assoc "disk_size" kvs_vm = None ->
   create_disk_image H w = (Raise (KeyError "disk_size"), w))
  /\ (forall size, assoc "disk_size" kvs_vm = Some size ->
      (forall s, size <> YStr s) ->
      (disk_path H w ∈ files w ->
       fst (create_disk_image H w) = Ret (disk_path H w))
      /\ (disk_path H w ∉ files w ->
          fst (create_disk_image H w) = Raise TypeError
          /\ events (snd (create_disk_image H w)) = events w)).
Proof.
  intros Hvm. split.
  - intros Hnone. unfold create_disk_image. msimpl. rewrite Hvm. msimpl.
    cbn [getitem]. rewrite Hnone. reflexivity.
  - intros size Hsome Hns.
    assert (Hsize : getitem (YMap kvs_vm) "disk_size" = Ret size)
      by (cbn [getitem]; now rewrite Hsome).
    split.
    + intros Hin. now rewrite (create_disk_image_reuse H w _ size Hvm Hsize Hin).
    + intros Hout. rewrite (create_disk_image_fresh H w _ size Hvm Hsize Hout).
      destruct size as [| | |s| |]; cbn [as_str]; cbv zeta; try (split; reflexivity).
      now contradiction (Hns s).
Qed.

(** *** Reading the rendered texts back *)

(** The lines of the answer file: the head, ten lines per user, the tail. *)
Lemma answer_file_lines (H : host) (img comp pw : string) (users : list yaml) :
  Forall (one_line_user H) users ->
  lines (xml_content img comp pw (accounts_text H users))
  = lines (xml_head img comp pw)
    ++ concat (map (fun user => account_lines (user_password H user)
                                  (user_description H user) (user_name H user)
                                  (user_group H user)) users)
    ++ xml_tail_lines.
Proof.
  intros Hl. destruct xml_tail_lines_spec as (Ht & _).
  rewrite xml_content_split.
  rewrite (lines_insert _ _ _
             (concat (map (fun user => account_lines (user_password H user)
                                         (user_description H user) (user_name H user)
                                         (user_group H user)) users))).
  - now rewrite Ht.
  - now rewrite Ht.
  - rewrite Ht. cbn [snd]. apply prepend_accounts_text. exact Hl.
Qed.

(** The lines of the head in constructor form. *)
Ltac head_lines Hi Hc Hp :=
  unfold lines, xml_head; rewrite !prepend_app;
  cbn [prepend xml_content_5 Ascii.eqb Bool.eqb nl];
  rewrite (prepend_one_line _ _ _ Hp);
  rewrite (prepend_rest xml_content_4);
  cbn [prepend xml_content_4 Ascii.eqb Bool.eqb nl fst snd app];
  rewrite (prepend_one_line _ _ _ Hp);
  rewrite (prepend_rest xml_content_3);
  cbn [prepend xml_content_3 Ascii.eqb Bool.eqb nl fst snd app];
  rewrite (prepend_one_line _ _ _ Hc);
  rewrite (prepend_rest xml_content_2);
  cbn [prepend xml_content_2 Ascii.eqb Bool.eqb nl fst snd app];
  rewrite (prepend_one_line _ _ _ Hi);
  rewrite (prepend_rest xml_content_1);
  cbn [prepend xml_content_1 Ascii.eqb Bool.eqb nl fst snd app].

Lemma xml_head_fields (img comp pw : string) :
  one_line img -> one_line comp -> one_line pw ->
  omap (between image_prefix image_suffix) (lines (xml_head img comp pw)) = [img]
  /\ omap (between "            <ComputerName>" "</ComputerName>")
       (lines (xml_head img comp pw)) = [comp]
  /\ omap (between "                    <Value>" "</Value>")
       (lines (xml_head img comp pw)) = [pw; pw].
Proof.
  intros Hi Hc Hp.
  pose proof (strip_suffix_app image_suffix img) as Ei.
  pose proof (strip_suffix_app "</ComputerName>" comp) as Ec.
  pose proof (strip_suffix_app "</Value>" pw) as Ep.
  unfold image_suffix in Ei |- *.
  head_lines Hi Hc Hp.
  split; [|split].
  - cbn [omap list_omap between strip_prefix strip_suffix image_prefix
         String.eqb Ascii.eqb Bool.eqb String.append option_map].
    rewrite Ei. reflexivity.
  - cbn [omap list_omap between strip_prefix strip_suffix
         String.eqb Ascii.eqb Bool.eqb String.append option_map].
    rewrite Ec. reflexivity.
  - cbn [omap list_omap between strip_prefix strip_suffix
         String.eqb Ascii.eqb Bool.eqb String.append option_map].
    rewrite !Ep. reflexivity.
Qed.

Lemma xml_tail_no_fields :
  omap (between image_prefix image_suffix) xml_tail_lines = []
  /\ omap (between "            <ComputerName>" "</ComputerName>") xml_tail_lines = []
  /\ omap (between "                    <Value>" "</Value>") xml_tail_lines = []
  /\ omap (between "                <Group>"
                   "</Group>  <!-- Skupina (Users/Administrators) -->") xml_tail_lines = []
  /\ omap (between "                <DisplayName>"
                   "</DisplayName>  <!-- Zobrazované jméno -->") xml_tail_lines = []
  /\ omap (between "                <Description>"
                   "</Description>  <!-- Popis účtu -->") xml_tail_lines = [].
Proof. repeat split; vm_compute; reflexivity. Qed.

Lemma account_lines_fields (pw d u g : string) :
  omap (between image_prefix image_suffix) (account_lines pw d u g) = []
  /\ omap (between "            <ComputerName>" "</ComputerName>")
       (account_lines pw d u g) = []
  /\ omap (between "                    <Value>" "</Value>") (account_lines pw d u g) = [pw]
  /\ omap (between "                <Group>"
                   "</Group>  <!-- Skupina (Users/Administrators) -->")
       (account_lines pw d u g) = [g]
  /\ omap (between "                <DisplayName>"
                   "</DisplayName>  <!-- Zobrazované jméno -->")
       (account_lines pw d u g) = [u]
  /\ omap (between "                <Description>"
                   "</Description>  <!-- Popis účtu -->")
       (account_lines pw d u g) = [d].
Proof.
  pose proof (strip_suffix_app "</Value>" pw) as Ep.
  pose proof (strip_suffix_app "</Group>  <!-- Skupina (Users/Administrators) -->" g) as Eg.
  pose proof (strip_suffix_app "</DisplayName>  <!-- Zobrazované jméno -->" u) as Eu.
  pose proof (strip_suffix_app "</Description>  <!-- Popis účtu -->" d) as Ed.
  unfold account_lines.
  repeat split;
    cbn [omap list_omap between strip_prefix strip_suffix image_prefix account_open
         account_close String.eqb Ascii.eqb Bool.eqb String.append option_map];
    rewrite ?Ep, ?Eg, ?Eu, ?Ed; reflexivity.
Qed.

Lemma omap_concat_nil {A B C : Type} (f : B -> option C) (g : A -> list B) (xs : list A) :
  (forall x, omap f (g x) = []) -> omap f (concat (map g xs)) = [].
Proof.
  intros E. induction xs as [|x xs IH]; [reflexivity|].
  cbn [map concat]. now rewrite omap_app, E, IH.
Qed.

(** X10. The values of the answer file can be read back from it. For a
    [windows] section with a scalar edition key (or none) and a list of users
    that each have a password and a username, where no rendered value has a
    line break, the rendered file has one image line, and it
    names the image of the edition key (the standard image for a key that is
    absent or unknown); one ComputerName line, with the computer name or
    WIN-SERVER when none is configured; and its password lines carry, in
    plain text and in this order, the administrator password twice (Admin123!
    when none is configured) and then the password of each user. *)
Theorem answer_file_values_read_back (H : host) (w : world)
    (kvs : list (string * yaml)) (users : list yaml) :
  getitem (config w) "windows" = Ret (YMap kvs) ->
  scalar (field kvs "windows_edition" (YStr "standard")) ->
  assoc "users" kvs = Some (YList users) ->
  Forall has_account_keys users ->
  Forall (one_line_user H) users ->
  one_line (str H (field kvs "computer_name" (YStr "WIN-SERVER"))) ->
  one_line (str H (field kvs "administrator_password" (YStr "Admin123!"))) ->
  exists text,
    fst (generate_autounattend_xml H w) = Ret text
    /\ image_names text = [image_name_of kvs]
    /\ computer_names text = [str H (field kvs "computer_name" (YStr "WIN-SERVER"))]
    /\ password_values text
       = [str H (field kvs "administrator_password" (YStr "Admin123!"));
          str H (field kvs "administrator_password" (YStr "Admin123!"))]
         ++ map (user_password H) users
    /\ (forall key image, In (key, image) edition_mapping ->
        assoc "windows_edition" kvs = Some (YStr key) -> image_name_of kvs = image)
    /\ (assoc "windows_edition" kvs = None ->
        image_name_of kvs = "Windows Server 2022 SERVERSTANDARD").
Proof.
  intros Hw He Hu Hk Hl Hc Hp.
  rewrite (generate_autounattend_xml_run H w kvs users Hw He Hu Hk).
  eexists. split; [reflexivity|].
  assert (Hi : one_line (image_name_of kvs)).
  { unfold image_name_of.
    destruct (mapping_get edition_mapping _ _) as [img|e] eqn:E; [|reflexivity].
    exact (image_one_line _ _ E). }
  destruct (xml_head_fields _ _ _ Hi Hc Hp) as (Hi' & Hc' & Hp').
  destruct xml_tail_no_fields as (Ti & Tc & Tp & _).
  unfold image_names, computer_names, password_values.
  rewrite (answer_file_lines H _ _ _ users Hl).
  rewrite !omap_app, Hi', Hc', Hp', Ti, Tc, Tp, !app_nil_r.
  split; [|split; [|split; [|split]]].
  - rewrite omap_concat_nil; [reflexivity|].
    intros user. exact (proj1 (account_lines_fields _ _ _ _)).
  - rewrite omap_concat_nil; [reflexivity|].
    intros user. exact (proj1 (proj2 (account_lines_fields _ _ _ _))).
  - f_equal. apply omap_concat_map.
    intros user. exact (proj1 (proj2 (proj2 (account_lines_fields _ _ _ _)))).
  - intros key image Hin Hkey. unfold image_name_of, field. rewrite Hkey.
    cbn [In edition_mapping] in Hin.
    destruct Hin as [E|[E|[E|[E|[]]]]]; injection E as <- <-; reflexivity.
  - intros Hnone. unfold image_name_of, field. rewrite Hnone. reflexivity.
Qed.

(** X12. A users entry whose first item is a string is rejected by type,
    not by key: this is so for a list of names, for a non-empty mapping from
    names to users (a loop over a mapping visits its keys) and for a
    non-empty string. The answer file fails with TypeError at the password
    lookup, the setup script with AttributeError at the group lookup; neither
    raises KeyError. *)
Theorem users_given_by_name_are_rejected (H : host) (w : world)
    (kvs_win kvs_vm rdp : list (string * yaml)) (users web_project source : yaml)
    (name : string) (rest : list yaml) :
  getitem (config w) "windows" = Ret (YMap kvs_win) ->
  scalar (field kvs_win "windows_edition" (YStr "standard")) ->
  assoc "users" kvs_win = Some users ->
  iter users = Ret (YStr name :: rest) ->
  assoc "web_project" kvs_win = Some web_project ->
  getitem web_project "source_folder" = Ret source ->
  getitem (config w) "vm" = Ret (YMap kvs_vm) ->
  field kvs_vm "rdp" (YMap []) = YMap rdp ->
  fst (generate_autounattend_xml H w) = Raise TypeError
  /\ fst (generate_setup_script H w) = Raise AttributeError.
Proof.
  intros Hw He Hu Hi Hwp Hs Hvm Hrdp. split.
  - unfold generate_autounattend_xml. msimpl. rewrite ?Hw. msimpl. rewrite get_field.
    destruct (mapping_get_scalar edition_mapping _ "Windows Server 2022 SERVERSTANDARD" He)
      as [img ->].
    msimpl. rewrite ?Hw. msimpl. cbn [getitem]. rewrite Hu. msimpl. rewrite Hi. msimpl.
    cbn [for_each]. unfold account_step at 1. msimpl. reflexivity.
  - unfold generate_setup_script. msimpl. rewrite ?Hw. msimpl. cbn [getitem].
    rewrite Hwp. msimpl. rewrite Hs. msimpl. rewrite ?Hvm. msimpl.
    rewrite get_field, Hrdp. msimpl. rewrite get_field. msimpl. rewrite Hu. msimpl.
    rewrite Hi. msimpl. cbv zeta. cbn [for_each]. unfold admin_step at 1. msimpl.
    reflexivity.
Qed.

(** *** The forwarding rules of a configured table *)

Lemma hostfwd_loop (H : host) (pfs : list yaml) (acc : list string) (w : world) :
  Forall has_ports pfs ->
  for_each pfs acc (hostfwd_step H) w = (Ret (acc ++ map (forward_rule H) pfs), w).
Proof.
  intros Hp. revert acc. induction Hp as [|pf pfs [[h Hh] [g Hg]] _ IH]; intros acc.
  - cbn [for_each map]. now rewrite app_nil_r.
  - cbn [for_each map]. unfold mbind, M_bind, hostfwd_step at 1. msimpl.
    rewrite Hh, Hg. msimpl. rewrite IH, <- app_assoc.
    unfold forward_rule, port. now rewrite Hh, Hg.
Qed.

Lemma forward_line_loop (H : host) (pfs : list yaml) (acc : list string) (w : world) :
  Forall has_ports pfs ->
  for_each pfs acc (forward_line_step H) w = (Ret (acc ++ map (forward_line H) pfs), w).
Proof.
  intros Hp. revert acc. induction Hp as [|pf pfs [[h Hh] [g Hg]] _ IH]; intros acc.
  - cbn [for_each map]. now rewrite app_nil_r.
  - cbn [for_each map]. unfold mbind, M_bind, forward_line_step at 1. msimpl.
    rewrite Hh, Hg. msimpl. rewrite IH, <- app_assoc.
    unfold forward_line, port. now rewrite Hh, Hg.
Qed.

Lemma rdp_entries_have_ports (rdp : list (string * yaml)) :
  Forall has_ports (rdp_entries rdp).
Proof.
  unfold rdp_entries. destruct (truthy _); repeat constructor; eexists; reflexivity.
Qed.

(** X13. A configured port-forward table is rendered entry by entry, in
    its order. In NAT mode, with a table whose entries all have a host and a
    guest port and an [rdp] entry that is absent or a mapping, the network
    clause is the user-mode network device followed by one [hostfwd] rule per
    entry, comma-separated, with the Remote Desktop rule last if Remote
    Desktop is enabled; the banner line lists the same forwards. An empty
    table without Remote Desktop gives the device with no rule after its
    comma. *)
Theorem configured_port_forwards_render_in_order (H : host) (w : world)
    (kvs kvs_vm rdp : list (string * yaml)) (pfs : list yaml)
    (network_mode bridge_interface : yaml) :
  config w = YMap kvs ->
  assoc "vm" kvs = Some (YMap kvs_vm) ->
  eq_str network_mode "bridge" = false ->
  assoc "port_forwards" kvs_vm = Some (YList pfs) ->
  Forall has_ports pfs ->
  field kvs_vm "rdp" (YMap []) = YMap rdp ->
  fst (network_clause H network_mode bridge_interface w)
  = Ret ("-net nic,model=virtio -net user," +:+
         join "," (map (forward_rule H) (pfs ++ rdp_entries rdp)),
         "Port forwards:  " +:+ join ", " (map (forward_line H) (pfs ++ rdp_entries rdp)),
         "")
  /\ (pfs = [] -> truthy (field rdp "enabled" (YBool false)) = false ->
      fst (network_clause H network_mode bridge_interface w)
      = Ret ("-net nic,model=virtio -net user,", "Port forwards:  ", "")).
Proof.
  intros Hc Hvm Hmode Hpf Hp Hrdp.
  assert (Hall : Forall has_ports (pfs ++ rdp_entries rdp))
    by (apply Forall_app; split; [exact Hp|apply rdp_entries_have_ports]).
  assert (E : fst (network_clause H network_mode bridge_interface w)
              = Ret ("-net nic,model=virtio -net user," +:+
                     join "," (map (forward_rule H) (pfs ++ rdp_entries rdp)),
                     "Port forwards:  " +:+
                     join ", " (map (forward_line H) (pfs ++ rdp_entries rdp)),
                     "")).
  { unfold network_clause. rewrite Hmode. msimpl.
    rewrite !Hc. cbn [getitem]. rewrite Hvm. msimpl. cbn [get_ref]. rewrite Hpf. msimpl.
    rewrite get_field, Hrdp. msimpl. rewrite get_field.
    unfold rdp_entries in *.
    destruct (truthy (field rdp "enabled" (YBool false))).
    - msimpl. rewrite get_field. msimpl. unfold append, deref. msimpl.
      rewrite !Hc. cbn [lookup_path app]. rewrite Hvm, Hpf. msimpl.
      rewrite !Hc.
      rewrite (lookup_update_path _ _ _ _ _ _ Hvm Hpf). msimpl. cbn [iter].
      rewrite (hostfwd_loop H _ [] _ Hall). msimpl.
      rewrite (lookup_update_path _ _ _ _ _ _ Hvm Hpf). msimpl. cbn [iter].
      rewrite (forward_line_loop H _ [] _ Hall). reflexivity.
    - msimpl. unfold deref. msimpl. rewrite !Hc. cbn [lookup_path app]. rewrite Hvm, Hpf.
      msimpl. cbn [iter]. rewrite app_nil_r in *.
      rewrite (hostfwd_loop H _ [] _ Hall). msimpl. rewrite !Hc. cbn [lookup_path app].
      rewrite Hvm, Hpf. msimpl. cbn [iter].
      rewrite (forward_line_loop H _ [] _ Hall). reflexivity. }
  split; [exact E|].
  intros -> Ht. rewrite E. unfold rdp_entries. rewrite Ht. reflexivity.
Qed.

(** *** What the steps add to the record *)

Section AddsRules.
Context (P : event -> bool).

Lemma adds_nothing {A : Type} (m : M A) :
  (forall w, events (snd (m w)) = events w) -> Adds P m.
Proof. intros E w. exists []. now rewrite E, app_nil_r. Qed.

Lemma adds_ret {A : Type} (a : A) : Adds P (mret a).
Proof. now apply adds_nothing. Qed.

Lemma adds_lift {A : Type} (o : outcome A) : Adds P (lift o).
Proof. now apply adds_nothing. Qed.

Lemma adds_raise {A : Type} (e : exc) : Adds P (raise (A:=A) e).
Proof. now apply adds_nothing. Qed.

Lemma adds_gets {A : Type} (f : world -> A) : Adds P (gets f).
Proof. now apply adds_nothing. Qed.

Lemma adds_print (s : string) : Adds P (print s).
Proof. now apply adds_nothing. Qed.

Lemma adds_path_exists (p : string) : Adds P (path_exists p).
Proof. now apply adds_nothing. Qed.

Lemma adds_set_files (fs : gset string) : Adds P (modify (set_files fs)).
Proof. now apply adds_nothing. Qed.

Lemma adds_set_config (c : yaml) : Adds P (modify (set_config c)).
Proof. now apply adds_nothing. Qed.

Lemma adds_set_vm_name (n : yaml) : Adds P (modify (set_vm_name n)).
Proof. now apply adds_nothing. Qed.

Lemma adds_set_work_dir (d : string) : Adds P (modify (set_work_dir d)).
Proof. now apply adds_nothing. Qed.

Lemma adds_next_temp : Adds P (modify next_temp).
Proof. now apply adds_nothing. Qed.

Lemma adds_emit (e : event) : P e = true -> Adds P (emit e).
Proof. intros He w. exists [e]. cbn. now rewrite He. Qed.

Lemma adds_bind {A B : Type} (m : M A) (k : A -> M B) :
  Adds P m -> (forall a, Adds P (k a)) -> Adds P (m ≫= k).
Proof.
  intros Hm Hk w. unfold mbind, M_bind. destruct (Hm w) as (evs1 & E1 & P1).
  destruct (m w) as [[a|e] w1]; cbn [snd] in *; [|now exists evs1].
  destruct (Hk a w1) as (evs2 & E2 & P2). exists (evs1 ++ evs2).
  rewrite E2, E1, app_assoc, forallb_app, P1, P2. now split.
Qed.

Lemma adds_if {A : Type} (b : bool) (m1 m2 : M A) :
  Adds P m1 -> Adds P m2 -> Adds P (if b then m1 else m2).
Proof. now destruct b. Qed.

Lemma adds_for_each {A S : Type} (xs : list A) (acc : S) (body : A -> S -> M S) :
  (forall x s, Adds P (body x s)) -> Adds P (for_each xs acc body).
Proof.
  intros Hb. revert acc. induction xs as [|x xs IH]; intros acc; cbn [for_each].
  - apply adds_ret.
  - apply adds_bind; [apply Hb|exact IH].
Qed.

Lemma adds_try_finally {A : Type} (body : M A) (cleanup : M unit) :
  Adds P body -> Adds P cleanup -> Adds P (try_finally body cleanup).
Proof.
  intros Hb Hc w. unfold try_finally. destruct (Hb w) as (evs1 & E1 & P1).
  destruct (body w) as [r w1]. cbn [snd] in *.
  destruct (Hc w1) as (evs2 & E2 & P2).
  exists (evs1 ++ evs2).
  destruct (cleanup w1) as [[u|e] w2]; cbn [snd] in *;
    rewrite E2, E1, app_assoc, forallb_app, P1, P2; now split.
Qed.

Lemma adds_subprocess_run (H : host) (cmd : list yaml) :
  (forall argv res, argv_of cmd = Ret argv -> P (EvRun argv res) = true) ->
  Adds P (subprocess_run H cmd).
Proof.
  intros Hp w. unfold subprocess_run. msimpl.
  destruct (argv_of cmd) as [argv|e]; msimpl; [|exists []; now rewrite app_nil_r].
  unfold id. destruct (tool H argv w) as [res fs]. exists [EvRun argv res].
  split; [destruct res as [[| |]|]; reflexivity|].
  cbn. now rewrite (Hp argv res eq_refl).
Qed.

Lemma adds_mkdtemp (H : host) :
  (forall d, P (EvMkdtemp d) = true) -> Adds P (mkdtemp H).
Proof.
  intros Hp. unfold mkdtemp.
  repeat (apply adds_bind; [|intros ?]);
    auto using adds_gets, adds_next_temp, adds_emit, adds_set_files, adds_ret.
Qed.

Lemma adds_rmtree (H : host) (path : string) :
  P (EvRmtree path) = true -> Adds P (rmtree H path).
Proof.
  intros Hp w. unfold rmtree. msimpl. unfold id. exists [EvRmtree path].
  split; [destruct (rmtree_fails H path w); reflexivity|]. cbn. now rewrite Hp.
Qed.

Lemma adds_open_w (path : string) : P (EvOpen path) = true -> Adds P (open_w path).
Proof.
  intros Hp. unfold open_w.
  repeat (apply adds_bind; [|intros ?]); auto using adds_gets, adds_emit, adds_set_files.
Qed.

Lemma adds_write (path content : string) :
  P (EvWrite path content) = true -> Adds P (write path content).
Proof. apply adds_emit. Qed.

Lemma adds_mkdir (path : string) : P (EvMkdir path) = true -> Adds P (mkdir path).
Proof.
  intros Hp. unfold mkdir.
  repeat (apply adds_bind; [|intros ?]); auto using adds_gets, adds_emit, adds_set_files.
Qed.

Lemma adds_expand (H : host) (v : yaml) : Adds P (expand H v).
Proof. unfold expand. apply adds_bind; [apply adds_lift|intros ?; apply adds_ret]. Qed.

Lemma adds_deref (r : ref) : Adds P (deref r).
Proof.
  apply adds_nothing. intros w. destruct r as [path|v]; [|reflexivity].
  unfold deref. msimpl. now destruct (lookup_path path (config w)).
Qed.

Lemma adds_append (r : ref) (x : yaml) : Adds P (append r x).
Proof.
  apply adds_nothing. intros w. unfold append, deref. msimpl.
  destruct r as [path|v]; msimpl.
  - destruct (lookup_path path (config w)) as [[| | | |xs|]|]; reflexivity.
  - destruct v; reflexivity.
Qed.

End AddsRules.

(** The first two words of a command line are those of the list it is
    made from. *)
Lemma argv_of_head (s : string) (rest : list yaml) (argv : list string) :
  argv_of (YStr s :: rest) = Ret argv -> nth 0 argv "" = s.
Proof.
  cbn [argv_of as_str]. destruct (argv_of rest); [|discriminate].
  now intros [= <-].
Qed.

Lemma argv_of_second (s t : string) (rest : list yaml) (argv : list string) :
  argv_of (YStr s :: YStr t :: rest) = Ret argv -> nth 1 argv "" = t.
Proof.
  cbn [argv_of as_str]. destruct (argv_of rest); [|discriminate].
  now intros [= <-].
Qed.

(** Decomposes a computation into steps and shows of each that it adds
    only events that satisfy the predicate. *)
Ltac adds_step :=
  match goal with
  | |- Adds _ (network_clause _ _ _) => unfold network_clause
  | |- Adds _ (hostfwd_step _ _ _) => unfold hostfwd_step
  | |- Adds _ (forward_line_step _ _ _) => unfold forward_line_step
  | |- Adds _ (account_step _ _ _) => unfold account_step
  | |- Adds _ (admin_step _ _ _) => unfold admin_step
  | |- Adds _ (copy_item _ _ _ _ _) => unfold copy_item
  | |- Adds _ (subprocess_run _ _) => apply adds_subprocess_run
  | |- Adds _ (mkdtemp _) => apply adds_mkdtemp
  | |- Adds _ (rmtree _ _) => apply adds_rmtree
  | |- Adds _ (expand _ _) => apply adds_expand
  | |- Adds _ (open_w _) => apply adds_open_w
  | |- Adds _ (write _ _) => apply adds_write
  | |- Adds _ (mkdir _) => apply adds_mkdir
  | |- Adds _ (deref _) => apply adds_deref
  | |- Adds _ (append _ _) => apply adds_append
  | |- Adds _ (print _) => apply adds_print
  | |- Adds _ (emit _) => apply adds_emit
  | |- Adds _ (path_exists _) => apply adds_path_exists
  | |- Adds _ (lift _) => apply adds_lift
  | |- Adds _ (gets _) => apply adds_gets
  | |- Adds _ (mret _) => apply adds_ret
  | |- Adds _ (raise _) => apply adds_raise
  | |- Adds _ (modify (set_config _)) => apply adds_set_config
  | |- Adds _ (modify (set_vm_name _)) => apply adds_set_vm_name
  | |- Adds _ (modify (set_work_dir _)) => apply adds_set_work_dir
  | |- Adds _ (for_each _ _ _) => apply adds_for_each; intros ? ?
  | |- Adds _ (try_finally _ _) => apply adds_try_finally
  | |- Adds _ (if _ then _ else _) => apply adds_if
  | |- Adds _ (match ?x with _ => _ end) => destruct x
  | |- Adds _ (_ ≫= _) => apply adds_bind; [|intros ?]
  end.

Ltac adds_steps := repeat adds_step.

(** The predicates hold of the events that the steps add. *)
Ltac adds_event :=
  first [ reflexivity
        | intros; reflexivity
        | let argv := fresh "argv" in
          let res := fresh "res" in
          let E := fresh "E" in
          intros argv res E; cbn [known_command];
          rewrite ?(argv_of_second _ _ _ _ E), (argv_of_head _ _ _ E); reflexivity ].

(** The steps that add nothing to the record. *)
Section AddNothing.
Context (H : host) (P : event -> bool).

Lemma adds_check_dependencies : Adds P (check_dependencies H).
Proof. unfold check_dependencies. adds_steps. Qed.

Lemma adds_generate_autounattend_xml : Adds P (generate_autounattend_xml H).
Proof. unfold generate_autounattend_xml. adds_steps. Qed.

Lemma adds_generate_setup_script : Adds P (generate_setup_script H).
Proof. unfold generate_setup_script. cbv zeta. adds_steps. Qed.

Lemma adds_network_clause (network_mode bridge_interface : yaml) :
  Adds P (network_clause H network_mode bridge_interface).
Proof. adds_steps. Qed.

End AddNothing.

(** The whole program, from the steps that touch the host. *)
Section WholeProgram.
Context (H : host) (P : event -> bool).
Context (Hdisk : Adds P (create_disk_image H)).
Context (Hmedia : Adds P (create_config_iso H)).
Context (Hstart : forall a b c, Adds P (start_vm H a b c)).
Context (Hmkdir : forall d, P (EvMkdir d) = true).

Lemma adds_deploy : Adds P (deploy H).
Proof.
  unfold deploy.
  apply adds_bind; [apply adds_print|intros _].
  apply adds_bind; [apply adds_check_dependencies|intros _].
  apply adds_bind; [exact Hdisk|intros disk].
  apply adds_bind; [exact Hmedia|intros media].
  apply adds_bind; [apply Hstart|intros _].
  apply adds_print.
Qed.

Lemma adds_main (read_config : string -> outcome yaml) (config_path : string) :
  Adds P (main H read_config config_path).
Proof.
  unfold main. apply adds_bind; [apply adds_path_exists|intros ex].
  apply adds_if; [|adds_steps].
  apply adds_bind; [apply adds_lift|intros doc].
  apply adds_bind; [|intros _; apply adds_deploy].
  unfold init. adds_steps. apply Hmkdir.
Qed.

End WholeProgram.

(** Steps that remove nothing. *)
Section NoRemoval.
Context (H : host).

Lemma quiet_create_disk_image : Adds no_removal (create_disk_image H).
Proof. unfold create_disk_image. cbv zeta. adds_steps; adds_event. Qed.

Lemma quiet_iso_stage (temp_dir : string) : Adds no_removal (iso_stage H temp_dir).
Proof.
  unfold iso_stage. cbv zeta.
  apply adds_bind; [adds_steps; adds_event|intros ?].
  apply adds_bind; [apply adds_generate_setup_script|intros ?].
  adds_steps; adds_event.
Qed.

Lemma quiet_start_vm (a b c : string) : Adds no_removal (start_vm H a b c).
Proof.
  unfold start_vm. cbv zeta.
  repeat first [apply adds_network_clause | adds_step]; adds_event.
Qed.

End NoRemoval.

(** *** Removals *)

Lemma well_removed_mono (made made' : list string) (evs : list event) :
  incl made made' -> well_removed made evs = true -> well_removed made' evs = true.
Proof.
  revert made made'. induction evs as [|e evs IH]; intros made made' Hi; [reflexivity|].
  destruct e; cbn [well_removed]; try (apply IH; exact Hi).
  - apply IH. intros x [->|Hx]; [now left|right; now apply Hi].
  - rewrite !andb_true_iff, !existsb_exists. intros [(x & Hx & Ex) Hr].
    split; [exists x; split; [now apply Hi|exact Ex]|]. exact (IH _ _ Hi Hr).
Qed.

Lemma well_removed_app (made : list string) (evs1 evs2 : list event) :
  well_removed made evs1 = true -> well_removed made evs2 = true ->
  well_removed made (evs1 ++ evs2) = true.
Proof.
  revert made. induction evs1 as [|e evs1 IH]; intros made H1 H2; [exact H2|].
  destruct e; cbn [well_removed app] in *; try (apply IH; assumption).
  - apply IH; [exact H1|]. apply (well_removed_mono made); [|exact H2].
    intros x Hx. now right.
  - apply andb_true_iff in H1 as [Hd H1]. rewrite Hd. cbn [andb]. now apply IH.
Qed.

Lemma well_removed_quiet (made : list string) (evs : list event) :
  forallb no_removal evs = true -> well_removed made evs = true.
Proof.
  revert made. induction evs as [|e evs IH]; intros made; [reflexivity|].
  cbn [forallb]. rewrite andb_true_iff. intros [He Hr].
  destruct e; cbn [well_removed]; try (apply IH; exact Hr). discriminate He.
Qed.

(** What [well_removed] says: a removed directory is one of [made], or
    was made by [mkdtemp] before. *)
Lemma well_removed_spec (made : list string) (evs before after : list event) (d : string) :
  well_removed made evs = true -> evs = before ++ EvRmtree d :: after ->
  In d made \/ In (EvMkdtemp d) before.
Proof.
  revert made before. induction evs as [|e evs IH]; intros made before Hw E.
  - now destruct before.
  - destruct before as [|b before]; cbn [app] in E; injection E as -> ->.
    + cbn [well_removed] in Hw. apply andb_true_iff in Hw as [Hd _].
      apply existsb_exists in Hd as (x & Hx & Ex). apply String.eqb_eq in Ex as ->.
      now left.
    + assert (Hcases : (exists t, b = EvMkdtemp t /\ well_removed (t :: made)
                                     (before ++ EvRmtree d :: after) = true)
                       \/ well_removed made (before ++ EvRmtree d :: after) = true).
      { destruct b; cbn [well_removed] in Hw; eauto.
        apply andb_true_iff in Hw as [_ Hw]. now right. }
      destruct Hcases as [(t & -> & Ht)|Hr].
      * destruct (IH _ _ Ht eq_refl) as [[->|Hin]|Hin]; [right; now left|now left|].
        right. now right.
      * destruct (IH _ _ Hr eq_refl) as [Hin|Hin]; [now left|right; now right].
Qed.

Section TidyRules.
Context (H : host).

Lemma tidy_quiet {A : Type} (made : list string) (m : M A) :
  Adds no_removal m -> Tidy made m.
Proof.
  intros Hm w. destruct (Hm w) as (evs & E & Hq). exists evs.
  split; [exact E|]. now apply well_removed_quiet.
Qed.

Lemma tidy_bind {A B : Type} (made : list string) (m : M A) (k : A -> M B) :
  Tidy made m -> (forall a, Tidy made (k a)) -> Tidy made (m ≫= k).
Proof.
  intros Hm Hk w. unfold mbind, M_bind. destruct (Hm w) as (evs1 & E1 & P1).
  destruct (m w) as [[a|e] w1]; cbn [snd] in *; [|now exists evs1].
  destruct (Hk a w1) as (evs2 & E2 & P2). exists (evs1 ++ evs2).
  rewrite E2, E1, app_assoc. split; [reflexivity|]. now apply well_removed_app.
Qed.

Lemma tidy_try_finally {A : Type} (made : list string) (body : M A) (cleanup : M unit) :
  Tidy made body -> Tidy made cleanup -> Tidy made (try_finally body cleanup).
Proof.
  intros Hb Hc w. unfold try_finally. destruct (Hb w) as (evs1 & E1 & P1).
  destruct (body w) as [r w1]. cbn [snd] in *.
  destruct (Hc w1) as (evs2 & E2 & P2).
  exists (evs1 ++ evs2).
  destruct (cleanup w1) as [[u|e] w2]; cbn [snd] in *;
    rewrite E2, E1, app_assoc; (split; [reflexivity|]); now apply well_removed_app.
Qed.

(** What follows [mkdtemp] may remove the directory that it has made. *)
Lemma tidy_mkdtemp {B : Type} (made : list string) (k : string -> M B) :
  (forall d, Tidy (d :: made) (k d)) -> Tidy made (mkdtemp H ≫= k).
Proof.
  intros Hk w. unfold mkdtemp. msimpl.
  destruct (Hk (mkdtemp_name H (temps w))
              (set_files ({[mkdtemp_name H (temps w)]} ∪ files w)
                 (add_event (EvMkdtemp (mkdtemp_name H (temps w))) (next_temp w))))
    as (evs & E & Hw).
  exists (EvMkdtemp (mkdtemp_name H (temps w)) :: evs).
  split; [|exact Hw].
  rewrite E. msimpl. now rewrite <- app_assoc.
Qed.

Lemma tidy_rmtree (made : list string) (d : string) :
  In d made -> Tidy made (rmtree H d).
Proof.
  intros Hin w. unfold rmtree. msimpl. unfold id. exists [EvRmtree d].
  split; [destruct (rmtree_fails H d w); reflexivity|].
  cbn [well_removed]. rewrite andb_true_r. apply existsb_exists.
  exists d. split; [exact Hin|apply String.eqb_refl].
Qed.

Lemma tidy_mount_and_copy (made : list string) (img src mp dir : string) :
  In mp made -> In dir made -> Tidy made (mount_and_copy H img src mp dir).
Proof.
  intros Hmp Hdir. unfold mount_and_copy. apply tidy_try_finally.
  - apply tidy_quiet. adds_steps; adds_event.
  - apply tidy_bind; [now apply tidy_rmtree|intros _; now apply tidy_rmtree].
Qed.

Lemma tidy_floppy_stage (made : list string) : Tidy made (floppy_stage H).
Proof.
  unfold floppy_stage. cbv zeta. apply tidy_mkdtemp. intros floppy_dir.
  apply tidy_bind; [apply tidy_quiet; adds_steps; adds_event|intros _].
  apply tidy_bind; [apply tidy_quiet, adds_generate_autounattend_xml|intros xml].
  do 5 (apply tidy_bind; [apply tidy_quiet; adds_steps; adds_event|intros ?]).
  apply tidy_mkdtemp. intros mount_point.
  apply tidy_bind; [apply tidy_mount_and_copy; cbn [In]; auto|intros _].
  apply tidy_quiet. adds_steps; adds_event.
Qed.

Lemma tidy_create_config_iso (made : list string) : Tidy made (create_config_iso H).
Proof.
  unfold create_config_iso.
  apply tidy_bind; [apply tidy_quiet, adds_print|intros _].
  apply tidy_mkdtemp. intros temp_dir. apply tidy_try_finally.
  - apply tidy_bind; [apply tidy_floppy_stage|intros floppy_img].
    apply tidy_bind; [apply tidy_quiet, quiet_iso_stage|intros iso_path].
    apply tidy_quiet, adds_ret.
  - apply tidy_rmtree. now left.
Qed.

Lemma tidy_deploy : Tidy [] (deploy H).
Proof.
  unfold deploy.
  apply tidy_bind; [apply tidy_quiet, adds_print|intros _].
  apply tidy_bind; [apply tidy_quiet, adds_check_dependencies|intros _].
  apply tidy_bind; [apply tidy_quiet, quiet_create_disk_image|intros disk].
  apply tidy_bind; [apply tidy_create_config_iso|intros media].
  apply tidy_bind; [apply tidy_quiet, quiet_start_vm|intros _].
  apply tidy_quiet, adds_print.
Qed.

Lemma tidy_main (read_config : string -> outcome yaml) (config_path : string) :
  Tidy [] (main H read_config config_path).
Proof.
  unfold main. apply tidy_bind; [apply tidy_quiet, adds_path_exists|intros ex].
  destruct ex; [|apply tidy_quiet; adds_steps].
  apply tidy_bind; [apply tidy_quiet, adds_lift|intros doc].
  apply tidy_bind; [|intros _; apply tidy_deploy].
  apply tidy_quiet. unfold init. adds_steps. reflexivity.
Qed.

End TidyRules.

(** X14. The program removes only what it has made: on every host, with
    every configuration, and whether it ends normally or with an error, each
    directory tree that [deploy] or [main] removes is a temporary directory
    that [mkdtemp] has made for it earlier in the same run. *)
Theorem only_temporary_directories_are_removed (H : host)
    (read_config : string -> outcome yaml) (config_path : string) (w : world) :
  (exists evs, events (snd (deploy H w)) = events w ++ evs
     /\ forall before d after, evs = before ++ EvRmtree d :: after ->
          In (EvMkdtemp d) before)
  /\ (exists evs, events (snd (main H read_config config_path w)) = events w ++ evs
        /\ forall before d after, evs = before ++ EvRmtree d :: after ->
             In (EvMkdtemp d) before).
Proof.
  split.
  - destruct (tidy_deploy H w) as (evs & E & Hw). exists evs. split; [exact E|].
    intros before d after Eevs.
    destruct (well_removed_spec [] evs before after d Hw Eevs) as [[]|Hin]. exact Hin.
  - destruct (tidy_main H read_config config_path w) as (evs & E & Hw).
    exists evs. split; [exact E|].
    intros before d after Eevs.
    destruct (well_removed_spec [] evs before after d Hw Eevs) as [[]|Hin]. exact Hin.
Qed.

(** *** Launching, and the commands that are run *)

(** The steps that add nothing are taken as a whole. *)
Ltac adds_call :=
  match goal with
  | |- Adds _ (generate_autounattend_xml _) => apply adds_generate_autounattend_xml
  | |- Adds _ (generate_setup_script _) => apply adds_generate_setup_script
  | |- Adds _ (network_clause _ _ _) => apply adds_network_clause
  end.

Section NoLaunch.
Context (H : host) (Hno : forall w : world, answer_is_yes H w = false).

Lemma calm_create_disk_image : Adds no_launch (create_disk_image H).
Proof. unfold create_disk_image. cbv zeta. adds_steps; adds_event. Qed.

Lemma calm_create_config_iso : Adds no_launch (create_config_iso H).
Proof.
  unfold create_config_iso, floppy_stage, mount_and_copy, iso_stage. cbv zeta.
  repeat first [adds_call | adds_step]; adds_event.
Qed.

Lemma calm_start_vm (a b c : string) : Adds no_launch (start_vm H a b c).
Proof.
  unfold start_vm. cbv zeta.
  repeat first [rewrite Hno | adds_call | adds_step]; adds_event.
Qed.

End NoLaunch.

Section KnownCommands.
Context (H : host).

Lemma known_create_disk_image : Adds known_command (create_disk_image H).
Proof. unfold create_disk_image. cbv zeta. adds_steps; adds_event. Qed.

Lemma known_create_config_iso : Adds known_command (create_config_iso H).
Proof.
  unfold create_config_iso, floppy_stage, mount_and_copy, iso_stage. cbv zeta.
  repeat first [adds_call | adds_step]; adds_event.
Qed.

Lemma known_start_vm (a b c : string) : Adds known_command (start_vm H a b c).
Proof.
  unfold start_vm. cbv zeta.
  repeat first [adds_call | adds_step]; adds_event.
Qed.

End KnownCommands.

(** X15. Nothing is launched without a yes. On a host where the answer
    to the question of [start_vm] is not [y], neither [deploy] nor [main]
    starts a background process, whatever the configuration and however the
    run ends. *)
Theorem nothing_is_launched_without_a_yes (H : host)
    (read_config : string -> outcome yaml) (config_path : string) (w : world) :
  (forall w' : world, answer_is_yes H w' = false) ->
  (exists evs, events (snd (deploy H w)) = events w ++ evs
     /\ forall argv log, ~ In (EvPopen argv log) evs)
  /\ (exists evs, events (snd (main H read_config config_path w)) = events w ++ evs
        /\ forall argv log, ~ In (EvPopen argv log) evs).
Proof.
  intros Hno.
  assert (Hd : Adds no_launch (deploy H))
    by (apply adds_deploy;
        [apply calm_create_disk_image|apply calm_create_config_iso
        |intros a b c; now apply calm_start_vm]).
  assert (Hm : Adds no_launch (main H read_config config_path))
    by (apply adds_main;
        [apply calm_create_disk_image|apply calm_create_config_iso
        |intros a b c; now apply calm_start_vm|reflexivity]).
  split.
  - destruct (Hd w) as (evs & E & Hq). exists evs. split; [exact E|].
    intros argv log Hin. rewrite forallb_forall in Hq. now apply Hq in Hin.
  - destruct (Hm w) as (evs & E & Hq). exists evs. split; [exact E|].
    intros argv log Hin. rewrite forallb_forall in Hq. now apply Hq in Hin.
Qed.

(** X16. The configuration never chooses a program. Every command that
    [main] runs and waits for is [qemu-img], [dd], [mkfs.vfat] or [mkisofs],
    or [sudo] in front of [mount], [cp] or [umount], on every host and with
    every configuration. *)
Theorem only_known_commands_are_run (H : host)
    (read_config : string -> outcome yaml) (config_path : string) (w : world) :
  exists evs, events (snd (main H read_config config_path w)) = events w ++ evs
    /\ forall argv res, In (EvRun argv res) evs ->
         In (nth 0 argv "") ["qemu-img"; "dd"; "mkfs.vfat"; "mkisofs"]
         \/ (nth 0 argv "" = "sudo" /\ In (nth 1 argv "") ["mount"; "cp"; "umount"]).
Proof.
  assert (Hm : Adds known_command (main H read_config config_path))
    by (apply adds_main;
        [apply known_create_disk_image|apply known_create_config_iso
        |apply known_start_vm|reflexivity]).
  destruct (Hm w) as (evs & E & Hq). exists evs. split; [exact E|].
  intros argv res Hin. rewrite forallb_forall in Hq. apply Hq in Hin.
  cbn [known_command] in Hin.
  destruct (String.eqb_spec (nth 0 argv "") "sudo") as [Es|_].
  - right. split; [exact Es|].
    apply existsb_exists in Hin as (x & Hx & Ex). apply String.eqb_eq in Ex as ->.
    exact Hx.
  - left. apply existsb_exists in Hin as (x & Hx & Ex). apply String.eqb_eq in Ex as ->.
    exact Hx.
Qed.

(** *** The media step on its paths *)

(** X17. The media step makes its staging directory first and removes it
    last, on every host and however the work in between ends: the record
    grows by the [mkdtemp] of that directory, what the floppy and the ISO
    stages do, and the removal of that directory. When the step returns a
    result the directory is gone. *)
Theorem staging_directory_is_removed_last (H : host) (w : world) :
  let temp_dir := mkdtemp_name H (temps w) in
  exists evs,
    events (snd (create_config_iso H w))
    = events w ++ EvMkdtemp temp_dir :: evs ++ [EvRmtree temp_dir]
    /\ (forall media, fst (create_config_iso H w) = Ret media ->
        temp_dir ∉ files (snd (create_config_iso H w))).
Proof.
  cbv zeta. set (temp_dir := mkdtemp_name H (temps w)).
  set (body := floppy_img ← floppy_stage H;
               iso_path ← iso_stage H temp_dir;
               mret (iso_path, floppy_img)).
  set (w1 := set_files ({[temp_dir]} ∪ files w)
               (add_event (EvMkdtemp temp_dir)
                  (next_temp (add_stdout "Vytvářím konfigurační ISO..." w)))).
  assert (E : create_config_iso H w = try_finally body (rmtree H temp_dir) w1)
    by reflexivity.
  rewrite E. clear E.
  assert (Hb : Tidy [temp_dir] body).
  { apply tidy_bind; [apply tidy_floppy_stage|intros floppy_img].
    apply tidy_bind; [apply tidy_quiet, quiet_iso_stage|intros iso_path].
    apply tidy_quiet, adds_ret. }
  destruct (Hb w1) as (evs & Eb & _). exists evs.
  unfold try_finally, rmtree. destruct (body w1) as [r wb]. cbn [snd] in Eb. msimpl.
  unfold id.
  destruct (rmtree_fails H temp_dir wb); msimpl; rewrite Eb.
  - split; [subst w1; msimpl; now rewrite <- !app_assoc|]. intros media Hr. discriminate Hr.
  - split; [subst w1; msimpl; now rewrite <- !app_assoc|]. intros _ _ Hin.
    apply elem_of_difference in Hin as [_ Hn]. apply Hn. now apply elem_of_singleton.
Qed.

(** X18. Without the installation medium [start_vm] stops at once: when
    [vm.iso_path] names a file that is not there, it prints the error and
    exits with status 1. Nothing has been written, made or run by then, and
    the keys that are read later ([memory], [cpus]) are not looked at. *)
Theorem start_vm_needs_the_installation_medium (H : host) (w : world)
    (vm : yaml) (iso disk_path config_iso_path floppy_path : string) :
  getitem (config w) "vm" = Ret vm ->
  getitem vm "iso_path" = Ret (YStr iso) ->
  path_expanduser H iso ∉ files w ->
  start_vm H disk_path config_iso_path floppy_path w
  = (Raise (SystemExit 1),
     add_stdout ("CHYBA: ISO soubor nenalezen: " +:+ path_expanduser H iso)
       (add_stdout "Spouštím virtuální stroj..." w)).
Proof.
  intros Hvm Hiso Hout. unfold start_vm.
  unfold mbind at 1, M_bind at 1. cbn [print modify].
  unfold mbind at 1, M_bind at 1. cbn [gets config add_stdout].
  unfold mbind at 1, M_bind at 1. unfold lift at 1. rewrite Hvm.
  unfold mbind at 1, M_bind at 1. unfold lift at 1. rewrite Hiso.
  unfold mbind at 1, M_bind at 1. unfold expand at 1.
  unfold mbind at 1, M_bind at 1. unfold lift at 1. cbn [as_str]. unfold mret at 1, M_ret at 1.
  unfold mbind at 1, M_bind at 1. unfold path_exists at 1. cbn [gets files].
  rewrite bool_decide_eq_false_2 by exact Hout.
  reflexivity.
Qed.

(** X19. When [dd] cannot make the floppy image the answer file is left
    behind. If [dd] ends with anything but status 0, the media step raises
    the error of that command (FileNotFoundError when [dd] is not installed:
    the dependency check does not look for it), and of the two temporary
    directories made so far it removes only the staging directory: the
    directory with the rendered answer file is never removed. *)
Theorem answer_file_is_left_behind_when_dd_fails (H : host) (w : world)
    (kvs : list (string * yaml)) (users : list yaml) (res : launch) :
  let temp_dir := mkdtemp_name H (temps w) in
  let floppy_dir := mkdtemp_name H (S (temps w)) in
  let answer_file := joinpath H floppy_dir "Autounattend.xml" in
  let dd := ["dd"; "if=/dev/zero";
             "of=" +:+ joinpath H (work_dir w) (str H (vm_name w) +:+ "_floppy.img");
             "bs=1024"; "count=1440"] in
  getitem (config w) "windows" = Ret (YMap kvs) ->
  scalar (field kvs "windows_edition" (YStr "standard")) ->
  assoc "users" kvs = Some (YList users) ->
  Forall has_account_keys users ->
  (forall w', fst (tool H dd w') = res) ->
  res <> Exited 0 ->
  (forall w', rmtree_fails H temp_dir w' = false) ->
  exists xml,
    fst (generate_autounattend_xml H w) = Ret xml
    /\ fst (create_config_iso H w)
       = Raise (match res with
                | Exited rc => CalledProcessError rc dd
                | NotStarted => FileNotFoundError "dd"
                end)
    /\ events (snd (create_config_iso H w))
       = events w ++ [EvMkdtemp temp_dir; EvMkdtemp floppy_dir; EvOpen answer_file;
                      EvWrite answer_file xml; EvRun dd res; EvRmtree temp_dir].
Proof.
  intros temp_dir floppy_dir answer_file dd Hw He Hu Hk Hdd Hres Hrm.
  eexists.
  split; [rewrite (generate_autounattend_xml_run H w kvs users Hw He Hu Hk); reflexivity|].
  unfold create_config_iso, try_finally, floppy_stage, mkdtemp, open_w, write.
  msimpl. fold temp_dir floppy_dir answer_file.
  match goal with
  | |- context [generate_autounattend_xml H ?w'] =>
      rewrite (generate_autounattend_xml_run H w' kvs users Hw He Hu Hk)
  end.
  msimpl.
  unfold subprocess_run. msimpl. cbn [argv_of as_str]. msimpl. fold dd. unfold id.
  match goal with
  | |- context [tool H dd ?w'] =>
      pose proof (Hdd w') as Hd; destruct (tool H dd w') as [res' fs]
  end.
  cbn [fst] in Hd. subst res'. msimpl.
  unfold rmtree.
  destruct res as [[|p|p]|]; [contradiction| | |]; msimpl; unfold id; rewrite Hrm; msimpl;
    (split; [reflexivity|]); rewrite <- ?app_assoc; reflexivity.
Qed.

(** *** The ISO stage *)

Lemma copy_loop (H : host) (web_source web_dest : string)
    (items : list (string * entry_kind)) (w : world) :
  for_each items tt (copy_item H web_source web_dest) w
  = (Ret tt,
     World (config w) (vm_name w) (work_dir w) (files w) (stdout w)
           (events w ++ concat (map (copied H web_source web_dest) items)) (temps w)).
Proof.
  revert w. induction items as [|item items IH]; intros w.
  - cbn [for_each map concat]. rewrite app_nil_r. now destruct w.
  - cbn [for_each map concat]. unfold mbind, M_bind, copy_item, copied.
    destruct item as [name [| |]]; cbn [fst snd]; msimpl;
      fold (copy_item H web_source web_dest); fold (copied H web_source web_dest);
      rewrite IH; msimpl; rewrite <- ?app_assoc; reflexivity.
Qed.

(** X20. The web project goes onto the ISO entry by entry. When the
    source folder exists, the ISO stage writes setup.ps1 into the staging
    directory, makes the directory web in it, copies each file of the source
    folder into web and each directory under its own name, in the order of
    the listing, skips what is neither, and then runs [mkisofs] once on the
    staging directory. If [mkisofs] succeeds the stage returns the path of
    the ISO in the work directory. *)
Theorem web_project_is_copied_entry_by_entry (H : host) (w : world) (temp_dir : string)
    (kvs_win kvs_vm rdp kvs_wp : list (string * yaml)) (users : list yaml)
    (src : string) (items : list (string * entry_kind)) :
  let setup_script_path := joinpath H temp_dir "setup.ps1" in
  let web_source := path_expanduser H src in
  let web_dest := joinpath H temp_dir "web" in
  let iso_path := joinpath H (work_dir w) (str H (vm_name w) +:+ "_config.iso") in
  let mkisofs := ["mkisofs"; "-o"; iso_path; "-J"; "-r"; "-V"; "CONFIG"; temp_dir] in
  getitem (config w) "windows" = Ret (YMap kvs_win) ->
  assoc "web_project" kvs_win = Some (YMap kvs_wp) ->
  assoc "source_folder" kvs_wp = Some (YStr src) ->
  getitem (config w) "vm" = Ret (YMap kvs_vm) ->
  field kvs_vm "rdp" (YMap []) = YMap rdp ->
  assoc "users" kvs_win = Some (YList users) ->
  Forall script_user_keys users ->
  web_source ∈ files w ->
  (forall w', iterdir H web_source w' = items) ->
  (forall w', fst (tool H mkisofs w') = Exited 0) ->
  exists script,
    fst (generate_setup_script H w) = Ret script
    /\ fst (iso_stage H temp_dir w) = Ret iso_path
    /\ events (snd (iso_stage H temp_dir w))
       = events w ++ [EvOpen setup_script_path; EvWrite setup_script_path script;
                      EvMkdir web_dest]
         ++ concat (map (copied H web_source web_dest) items)
         ++ [EvRun mkisofs (Exited 0)].
Proof.
  intros setup_script_path web_source web_dest iso_path mkisofs
    Hw Hwp Hs Hvm Hrdp Hu Hk Hin Hitems Htool.
  assert (Hs' : getitem (YMap kvs_wp) "source_folder" = Ret (YStr src))
    by (cbn [getitem]; now rewrite Hs).
  eexists.
  split; [rewrite (generate_setup_script_run H w kvs_win kvs_vm rdp users _ _
                     Hw Hwp Hs' Hvm Hrdp Hu Hk); reflexivity|].
  unfold iso_stage, open_w, write, mkdir, expand. msimpl.
  fold setup_script_path web_dest.
  match goal with
  | |- context [generate_setup_script H ?w'] =>
      rewrite (generate_setup_script_run H w' kvs_win kvs_vm rdp users _ _
                 Hw Hwp Hs' Hvm Hrdp Hu Hk)
  end.
  msimpl. rewrite Hw. msimpl. cbn [getitem]. rewrite Hwp. msimpl. cbn [getitem]. rewrite Hs. msimpl.
  cbn [as_str]. msimpl. fold web_source.
  rewrite bool_decide_eq_true_2 by set_solver. msimpl. unfold id. rewrite Hitems.
  rewrite copy_loop. msimpl. fold iso_path.
  unfold subprocess_run. msimpl. cbn [argv_of as_str]. msimpl. fold mkisofs. unfold id.
  match goal with
  | |- context [tool H mkisofs ?w'] =>
      pose proof (Htool w') as Ht; destruct (tool H mkisofs w') as [res fs]
  end.
  cbn [fst] in Ht. subst res. msimpl.
  split; [reflexivity|]. rewrite <- ?app_assoc. reflexivity.
Qed.

(** X21. The page that stands in for a missing web project needs keys
    that the rest of the ISO stage does not. When the source folder of the
    web project does not exist, the stage writes setup.ps1, makes the
    directory web, opens index.html in it and then looks up the name of the
    project and the computer name without a default: without
    [windows.computer_name] it raises KeyError for that key, without
    [web_project.name] for that one. index.html has been opened but nothing
    is written to it, and [mkisofs] is not run. *)
Theorem fallback_page_needs_name_and_computer_name (H : host) (w : world)
    (temp_dir : string) (kvs_win kvs_vm rdp kvs_wp : list (string * yaml))
    (users : list yaml) (src : string) :
  let setup_script_path := joinpath H temp_dir "setup.ps1" in
  let web_source := path_expanduser H src in
  let web_dest := joinpath H temp_dir "web" in
  let index_path := joinpath H web_dest "index.html" in
  getitem (config w) "windows" = Ret (YMap kvs_win) ->
  assoc "web_project" kvs_win = Some (YMap kvs_wp) ->
  assoc "source_folder" kvs_wp = Some (YStr src) ->
  getitem (config w) "vm" = Ret (YMap kvs_vm) ->
  field kvs_vm "rdp" (YMap []) = YMap rdp ->
  assoc "users" kvs_win = Some (YList users) ->
  Forall script_user_keys users ->
  web_source ∉ ({[ web_dest; setup_script_path ]} : gset string) ∪ files w ->
  assoc "name" kvs_wp = None \/ assoc "computer_name" kvs_win = None ->
  exists script,
    fst (generate_setup_script H w) = Ret script
    /\ fst (iso_stage H temp_dir w)
       = Raise (KeyError (match assoc "name" kvs_wp with
                        | Some _ => "computer_name"
                        | None => "name"
                        end))
    /\ events (snd (iso_stage H temp_dir w))
       = events w ++ [EvOpen setup_script_path; EvWrite setup_script_path script;
                      EvMkdir web_dest; EvOpen index_path].
Proof.
  intros setup_script_path web_source web_dest index_path
    Hw Hwp Hs Hvm Hrdp Hu Hk Hout Hmiss.
  assert (Hs' : getitem (YMap kvs_wp) "source_folder" = Ret (YStr src))
    by (cbn [getitem]; now rewrite Hs).
  eexists.
  split; [rewrite (generate_setup_script_run H w kvs_win kvs_vm rdp users _ _
                     Hw Hwp Hs' Hvm Hrdp Hu Hk); reflexivity|].
  unfold iso_stage, open_w, write, mkdir, expand. msimpl.
  fold setup_script_path web_dest.
  match goal with
  | |- context [generate_setup_script H ?w'] =>
      rewrite (generate_setup_script_run H w' kvs_win kvs_vm rdp users _ _
                 Hw Hwp Hs' Hvm Hrdp Hu Hk)
  end.
  msimpl. rewrite ?Hw. msimpl. cbn [getitem]. rewrite ?Hwp. msimpl. cbn [getitem].
  rewrite Hs. msimpl.
  cbn [as_str]. msimpl. fold web_source.
  rewrite bool_decide_eq_false_2
    by (intros Hin; apply Hout; revert Hin;
        rewrite !elem_of_union, !elem_of_singleton; tauto).
  msimpl. fold index_path.
  rewrite ?Hw. msimpl. cbn [getitem]. rewrite ?Hwp. msimpl. cbn [getitem].
  destruct (assoc "name" kvs_wp) as [name|] eqn:En; msimpl.
  - destruct Hmiss as [Hn|Hc]; [discriminate Hn|].
    rewrite ?Hw. msimpl. cbn [getitem]. rewrite Hc. msimpl.
    split; [reflexivity|]. rewrite <- ?app_assoc. reflexivity.
  - split; [reflexivity|]. rewrite <- ?app_assoc. reflexivity.
Qed.

(** *** What depends on the configuration alone *)

Lemma set_config_same (w w' : world) : config w = config w' -> w = set_config (config w') w.
Proof. intros <-. now destruct w. Qed.

Lemma config_only_pure {A : Type} (m : M A) : Pure m -> ConfigOnly m.
Proof.
  intros Hm w w' Hc. rewrite !(pure_run m). cbn [fst snd].
  split; [reflexivity|now apply set_config_same].
Qed.

Lemma config_only_ret {A : Type} (a : A) : ConfigOnly (mret a).
Proof. intros w w' Hc. split; [reflexivity|now apply set_config_same]. Qed.

Lemma config_only_lift {A : Type} (o : outcome A) : ConfigOnly (lift o).
Proof. intros w w' Hc. split; [reflexivity|now apply set_config_same]. Qed.

Lemma config_only_raise {A : Type} (e : exc) : ConfigOnly (raise (A:=A) e).
Proof. intros w w' Hc. split; [reflexivity|now apply set_config_same]. Qed.

Lemma config_only_gets_config : ConfigOnly (gets config).
Proof.
  intros w w' Hc. unfold gets. cbn [fst snd].
  split; [now rewrite Hc|now apply set_config_same].
Qed.

Lemma config_only_set_config (c : yaml) : ConfigOnly (modify (set_config c)).
Proof. intros w w' _. split; reflexivity. Qed.

Lemma config_only_bind {A B : Type} (m : M A) (k : A -> M B) :
  ConfigOnly m -> (forall a, ConfigOnly (k a)) -> ConfigOnly (m ≫= k).
Proof.
  intros Hm Hk w w' Hc. unfold mbind, M_bind.
  destruct (Hm w w' Hc) as (E1 & E2). destruct (Hm w' w' eq_refl) as (_ & E3).
  destruct (m w) as [o w1], (m w') as [o' w1']. cbn [fst snd] in *. subst o' w1.
  destruct o as [a|e]; cbn [fst snd]; [|split; reflexivity].
  destruct (Hk a (set_config (config w1') w) w1') as (E4 & E5); [reflexivity|].
  split; [exact E4|]. rewrite E5. reflexivity.
Qed.

Lemma config_only_if {A : Type} (b : bool) (m1 m2 : M A) :
  ConfigOnly m1 -> ConfigOnly m2 -> ConfigOnly (if b then m1 else m2).
Proof. now destruct b. Qed.

Lemma config_only_deref (r : ref) : ConfigOnly (deref r).
Proof.
  destruct r as [path|v]; [|apply config_only_ret]. unfold deref.
  apply config_only_bind; [apply config_only_gets_config|intros cfg].
  destruct (lookup_path path cfg); [apply config_only_ret|apply config_only_raise].
Qed.

Lemma config_only_append (r : ref) (x : yaml) : ConfigOnly (append r x).
Proof.
  unfold append. apply config_only_bind; [apply config_only_deref|intros v].
  destruct v; try apply config_only_raise.
  destruct r as [path|v]; [|apply config_only_ret].
  apply config_only_bind; [apply config_only_gets_config|intros cfg].
  apply config_only_bind; [apply config_only_set_config|intros _].
  apply config_only_ret.
Qed.

Ltac config_step :=
  match goal with
  | |- ConfigOnly (for_each _ _ _) => apply config_only_pure, pure_for_each; intros ? ?; apply _
  | |- ConfigOnly (deref _) => apply config_only_deref
  | |- ConfigOnly (append _ _) => apply config_only_append
  | |- ConfigOnly (lift _) => apply config_only_lift
  | |- ConfigOnly (gets config) => apply config_only_gets_config
  | |- ConfigOnly (mret _) => apply config_only_ret
  | |- ConfigOnly (raise _) => apply config_only_raise
  | |- ConfigOnly (if _ then _ else _) => apply config_only_if
  | |- ConfigOnly (_ ≫= _) => apply config_only_bind; [|intros ?]
  end.

Lemma config_only_network_clause (H : host) (network_mode bridge_interface : yaml) :
  ConfigOnly (network_clause H network_mode bridge_interface).
Proof. unfold network_clause. repeat config_step. Qed.

(** The network clause in a world with the configuration of [w]. *)
Lemma network_clause_frame (H : host) (network_mode bridge_interface : yaml)
    (w w1 : world) :
  config w1 = config w ->
  network_clause H network_mode bridge_interface w1
  = (fst (network_clause H network_mode bridge_interface w),
     set_config (config (snd (network_clause H network_mode bridge_interface w))) w1).
Proof.
  intros Hc.
  destruct (config_only_network_clause H network_mode bridge_interface w1 w Hc)
    as (E1 & E2).
  destruct (network_clause H network_mode bridge_interface w1).
  cbn [fst snd] in *. now subst.
Qed.

(** X22. When the three commands succeed the floppy image is unmounted
    before anything is removed. If the mount, the copy and the unmount exit
    with status 0 and the removals go through, the block returns after these
    five actions, in this order: mount, copy, unmount, removal of the mount
    point, removal of the directory of the answer file. Nothing is mounted at
    the end and nothing was removed while mounted. *)
Theorem floppy_is_unmounted_before_cleanup (H : host) (w : world)
    (img src mp dir : string) :
  let mount := ["sudo"; "mount"; "-o"; "loop"; img; mp] in
  let cp := ["sudo"; "cp"; src; mp] in
  let umount := ["sudo"; "umount"; mp] in
  let done := [EvRun mount (Exited 0); EvRun cp (Exited 0); EvRun umount (Exited 0);
               EvRmtree mp; EvRmtree dir] in
  (forall argv w', In argv [mount; cp; umount] -> fst (tool H argv w') = Exited 0) ->
  (forall d w', rmtree_fails H d w' = false) ->
  fst (mount_and_copy H img src mp dir w) = Ret tt
  /\ events (snd (mount_and_copy H img src mp dir w)) = events w ++ done
  /\ mounts done [] = []
  /\ removed_while_mounted done [] = [].
Proof.
  intros mount cp umount done Htool Hrm.
  unfold mount_and_copy, try_finally, subprocess_run, rmtree. msimpl.
  cbn [argv_of as_str id]. msimpl. fold mount cp umount. unfold id.
  repeat match goal with
         | |- context [tool H ?argv ?w'] =>
             let Ht := fresh "Ht" in
             assert (Ht : fst (tool H argv w') = Exited 0)
               by (apply Htool; cbn [In]; auto);
             destruct (tool H argv w') as [? ?]; cbn [fst] in Ht; subst; msimpl
         end.
  rewrite !Hrm. msimpl.
  split; [reflexivity|]. split; [now rewrite <- ?app_assoc|].
  subst done mount cp umount.
  cbn [mounts removed_while_mounted mounted_by unmounted_by nth String.eqb Ascii.eqb
       Bool.eqb andb app List.filter existsb negb orb].
  rewrite String.eqb_refl. cbn [negb andb List.filter existsb orb]. split; reflexivity.
Qed.

(** *** The scripts of [start_vm] *)

(** X23. With the installation medium in place [start_vm] writes the run
    script and the boot script into the work directory and makes both
    executable (mode 0o755), and it launches the run script, writing its log
    into the work directory, exactly when the answer to its question is [y];
    the launch comes after the run script is complete and before the boot
    script is written. Both scripts take the number of CPUs, the memory, the
    VNC display (0 when none is configured), the prefix and the network
    clause from the same lookups; the run script is its template filled with
    the disk, the floppy image, the driver ISO, the installation ISO and the
    configuration ISO, the boot script its template filled with the disk
    only. The file writes are taken to succeed. A missing driver ISO
    only adds two lines of warning to what is printed; the hint for VNC is
    the text 590 followed by the display. *)
Theorem start_vm_writes_both_scripts (H : host) (w : world)
    (kvs_vm : list (string * yaml)) (iso virtio : string) (memory cpus : yaml)
    (network_config info requires_sudo : string) (yes : bool)
    (disk_path config_iso_path floppy_path : string) :
  let vnc_port := str H (field kvs_vm "vnc_port" (YInt 0)) in
  let network_mode := field kvs_vm "network_mode" (YStr "nat") in
  let bridge_interface := field kvs_vm "bridge_interface" (YStr "br0") in
  let name := str H (vm_name w) in
  let run_script := joinpath H (work_dir w) ("run_" +:+ name +:+ ".sh") in
  let boot_script := joinpath H (work_dir w) ("boot_" +:+ name +:+ ".sh") in
  let log_file := joinpath H (work_dir w) (name +:+ "_qemu.log") in
  getitem (config w) "vm" = Ret (YMap kvs_vm) ->
  assoc "iso_path" kvs_vm = Some (YStr iso) ->
  path_expanduser H iso ∈ files w ->
  field kvs_vm "virtio_iso_path" (YStr "~/iso/virtio-win.iso") = YStr virtio ->
  assoc "memory" kvs_vm = Some memory ->
  assoc "cpus" kvs_vm = Some cpus ->
  fst (network_clause H network_mode bridge_interface w)
  = Ret (network_config, info, requires_sudo) ->
  (forall v n, exists s, format_left H v n = Ret s) ->
  (forall w', answer_is_yes H w' = yes) ->
  fst (start_vm H disk_path config_iso_path floppy_path w) = Ret tt
  /\ events (snd (start_vm H disk_path config_iso_path floppy_path w))
     = events w
       ++ [EvOpen run_script;
           EvWrite run_script
             (qemu_cmd (str H cpus) (str H memory) requires_sudo name disk_path floppy_path
                (path_expanduser H virtio) (path_expanduser H iso) config_iso_path
                vnc_port network_config);
           EvChmod run_script 493]
       ++ (if yes then [EvOpen log_file; EvPopen [run_script] log_file] else [])
       ++ [EvOpen boot_script;
           EvWrite boot_script
             (boot_cmd requires_sudo name (str H cpus) (str H memory) disk_path vnc_port
                network_config);
           EvChmod boot_script 493]
  /\ exists banner,
       stdout (snd (start_vm H disk_path config_iso_path floppy_path w))
       = stdout w
         ++ ["Spouštím virtuální stroj..."]
         ++ (if bool_decide (path_expanduser H virtio ∈ files w) then []
             else ["VAROVÁNÍ: virtio-win.iso nenalezen: " +:+ path_expanduser H virtio;
                   "Instalace může selhat bez virtio ovladačů"])
         ++ [banner; "
Chcete spustit VM nyní? [y/N]: "]
         ++ (if yes
             then ["
Spouštím VM v pozadí..."; "VM spuštěn, log: " +:+ log_file;
                   "Připojte se přes VNC na port 590" +:+ vnc_port]
             else ["
VM můžete spustit později pomocí: " +:+ run_script])
         ++ ["
Pro restart po instalaci použijte: " +:+ boot_script].
Proof.
  intros vnc_port network_mode bridge_interface name run_script boot_script log_file
    Hvm Hiso Hin Hvirtio Hmem Hcpus Hclause Hfmt Hyes.
  unfold start_vm, expand, open_w, write. msimpl.
  rewrite ?Hvm. msimpl. cbn [getitem]. rewrite ?Hiso. msimpl. cbn [as_str]. msimpl.
  rewrite bool_decide_eq_true_2 by exact Hin. msimpl.
  rewrite ?Hvm. msimpl. rewrite ?get_field, ?Hvirtio. msimpl. cbn [as_str]. msimpl.
  destruct (bool_decide (path_expanduser H virtio ∈ files w)); msimpl;
    rewrite ?Hvm; msimpl; cbn [getitem]; rewrite ?Hmem, ?Hcpus; msimpl;
    rewrite ?Hvm; msimpl; rewrite ?get_field; msimpl;
    fold network_mode bridge_interface;
    match goal with
    | |- context [network_clause H network_mode bridge_interface ?w1] =>
        rewrite (network_clause_frame H network_mode bridge_interface w w1 eq_refl)
    end;
    rewrite Hclause; msimpl; fold name run_script vnc_port;
    repeat match goal with
           | |- context [format_left H ?v ?n] =>
               let s := fresh "s" in
               let E := fresh "E" in
               destruct (Hfmt v n) as [s E]; rewrite E; clear E; msimpl
           end;
    unfold id; rewrite Hyes; destruct yes; msimpl;
    fold log_file boot_script;
    (split; [reflexivity|]);
    (split; [rewrite <- ?app_assoc; reflexivity|]);
    eexists; rewrite <- ?app_assoc; reflexivity.
Qed.

(** *** The theorems about more of the program, at the examples *)

Lemma start_vm_keeps_the_deployer_object_witness :
  let w := loaded example_host (example_doc []) in
  same_self (snd (start_vm example_host "/vms/Win1.qcow2" "/vms/Win1_config.iso"
                    "/vms/Win1_floppy.img" w)) w.
Proof.
  cbv zeta.
  apply (start_vm_keeps_the_deployer_object example_host
           (loaded example_host (example_doc []))).
  intros kvs_vm rdp Evm Erdp Et.
  injection Evm as <-. vm_compute in Erdp. injection Erdp as <-.
  discriminate Et.
Defined.

Lemma deploy_stops_at_missing_dependency_witness :
  fst (deploy host_without_qemu (loaded host_without_qemu (example_doc [])))
  = Raise (SystemExit 1)
  /\ events (snd (deploy host_without_qemu (loaded host_without_qemu (example_doc []))))
     = events (loaded host_without_qemu (example_doc [])).
Proof.
  pose proof (deploy_stops_at_missing_dependency host_without_qemu
                (loaded host_without_qemu (example_doc []))) as Hd.
  destruct Hd as (Hr & _ & He & _); [discriminate|].
  split; [exact Hr|exact He].
Defined.

Lemma main_creates_work_dir_before_dependency_check_witness :
  let w := set_files {[ "config.yaml" ]} blank_world in
  let run := main host_without_qemu (example_reader (example_doc [])) "config.yaml" in
  fst (run w) = Raise (SystemExit 1)
  /\ events (snd (run w)) = [EvMkdir "/vms"].
Proof.
  cbv zeta.
  pose proof (main_creates_work_dir_before_dependency_check host_without_qemu
                (example_reader (example_doc [])) "config.yaml"
                (set_files {[ "config.yaml" ]} blank_world)
                (example_doc []) (example_vm []) (YStr "Win1") "/vms") as Hm.
  destruct Hm as (Hr & He & _);
    [vm_compute; reflexivity|reflexivity|reflexivity|reflexivity|reflexivity
    |discriminate|].
  split; [exact Hr|exact He].
Defined.

Lemma create_disk_image_reports_tool_failure_witness :
  let w := loaded host_failing_tools (example_doc []) in
  let argv := ["qemu-img"; "create"; "-f"; "qcow2"; "/vms/Win1.qcow2"; "40G"] in
  fst (create_disk_image host_failing_tools w) = Raise (CalledProcessError 1 argv)
  /\ events (snd (create_disk_image host_failing_tools w))
     = events w ++ [EvRun argv (Exited 1)].
Proof.
  cbv zeta.
  pose proof (create_disk_image_reports_tool_failure host_failing_tools
                (loaded host_failing_tools (example_doc [])) (example_vm []) "40G" 1) as Hc.
  cbv zeta in Hc.
  destruct Hc as (Hr & _ & He);
    [reflexivity|reflexivity|intros Hin; vm_compute in Hin; discriminate Hin
    |reflexivity|discriminate|].
  split; [exact Hr|exact He].
Defined.

Lemma create_disk_image_size_lookup_witness :
  let vm := [("name", YStr "Win1"); ("work_dir", YStr "/vms"); ("disk_size", YInt 40)] in
  let w := loaded example_host (YMap [("vm", YMap vm)]) in
  fst (create_disk_image example_host w) = Raise TypeError
  /\ events (snd (create_disk_image example_host w)) = events w.
Proof.
  cbv zeta.
  apply (proj2 (create_disk_image_size_lookup example_host
                  (loaded example_host
                     (YMap [("vm", YMap [("name", YStr "Win1"); ("work_dir", YStr "/vms");
                                         ("disk_size", YInt 40)])]))
                  [("name", YStr "Win1"); ("work_dir", YStr "/vms");
                   ("disk_size", YInt 40)]
                  eq_refl) (YInt 40));
    [reflexivity|discriminate|intros Hin; vm_compute in Hin; discriminate Hin].
Defined.

Lemma answer_file_values_read_back_witness :
  exists text,
    fst (generate_autounattend_xml example_host (loaded example_host (example_doc [])))
      = Ret text
    /\ image_names text = ["Windows Server 2022 SERVERDATACENTER"]
    /\ computer_names text = ["WEB01"]
    /\ password_values text = ["Admin123!"; "Admin123!"; "Secret1!"; "Secret2!"].
Proof.
  destruct (answer_file_values_read_back example_host
              (loaded example_host (example_doc []))
              [("windows_edition", YStr "datacenter"); ("computer_name", YStr "WEB01");
               ("users", YList [alice; bob]);
               ("web_project", YMap [("source_folder", YStr "/srv/site");
                                     ("name", YStr "Site")])]
              [alice; bob])
    as (text & Ht & Hi & Hc & Hp & _);
    try reflexivity; try exact I; try apply (example_users_ok example_host).
  exists text. repeat split; assumption.
Defined.

Lemma users_given_by_name_are_rejected_witness :
  let w := loaded example_host doc_with_user_names in
  fst (generate_autounattend_xml example_host w) = Raise TypeError
  /\ fst (generate_setup_script example_host w) = Raise AttributeError.
Proof.
  cbv zeta.
  apply (users_given_by_name_are_rejected example_host
           (loaded example_host doc_with_user_names)
           [("users", YList [YStr "alice"; YStr "bob"]);
            ("web_project", YMap [("source_folder", YStr "/srv/site");
                                  ("name", YStr "Site")])]
           [("name", YStr "Win1"); ("work_dir", YStr "/vms"); ("disk_size", YStr "40G");
            ("memory", YStr "4G"); ("cpus", YInt 2); ("iso_path", YStr "/iso/win.iso");
            ("network_mode", YStr "nat")]
           []
           (YList [YStr "alice"; YStr "bob"])
           (YMap [("source_folder", YStr "/srv/site"); ("name", YStr "Site")])
           (YStr "/srv/site") "alice" [YStr "bob"]);
    try reflexivity; exact I.
Defined.

Lemma configured_port_forwards_render_in_order_witness :
  let table := ("port_forwards", YList [forward 8080 80; forward 8443 443]) in
  fst (network_clause example_host (YStr "nat") (YStr "br0")
         (loaded example_host (example_doc [table; rdp_on])))
  = Ret ("-net nic,model=virtio -net user,hostfwd=tcp::8080-:80,hostfwd=tcp::8443-:443,hostfwd=tcp::13389-:3389",
         "Port forwards:  localhost:8080 -> VM:80, localhost:8443 -> VM:443, localhost:13389 -> VM:3389",
         "").
Proof.
  cbv zeta.
  rewrite (proj1 (configured_port_forwards_render_in_order example_host
             (loaded example_host
                (example_doc [("port_forwards", YList [forward 8080 80; forward 8443 443]);
                              rdp_on]))
             [("vm", example_vm [("port_forwards",
                                  YList [forward 8080 80; forward 8443 443]); rdp_on]);
              ("windows", example_windows)]
             [("name", YStr "Win1"); ("work_dir", YStr "/vms"); ("disk_size", YStr "40G");
              ("memory", YStr "4G"); ("cpus", YInt 2); ("iso_path", YStr "/iso/win.iso");
              ("network_mode", YStr "nat");
              ("port_forwards", YList [forward 8080 80; forward 8443 443]); rdp_on]
             [("enabled", YBool true); ("host_port", YInt 13389)]
             [forward 8080 80; forward 8443 443]
             (YStr "nat") (YStr "br0") eq_refl eq_refl eq_refl eq_refl
             ltac:(repeat constructor; eexists; reflexivity) eq_refl)).
  reflexivity.
Defined.

Lemma nothing_is_launched_without_a_yes_witness :
  exists evs,
    events (snd (deploy example_host (loaded example_host (example_doc []))))
    = events (loaded example_host (example_doc [])) ++ evs
    /\ forall argv log, ~ In (EvPopen argv log) evs.
Proof.
  exact (proj1 (nothing_is_launched_without_a_yes example_host
                  (example_reader (example_doc [])) "config.yaml"
                  (loaded example_host (example_doc []))
                  (fun _ => eq_refl))).
Defined.

Lemma start_vm_needs_the_installation_medium_witness :
  let w := snd (init example_host (example_doc []) blank_world) in
  start_vm example_host "/vms/Win1.qcow2" "/vms/Win1_config.iso" "/vms/Win1_floppy.img" w
  = (Raise (SystemExit 1),
     add_stdout "CHYBA: ISO soubor nenalezen: /iso/win.iso"
       (add_stdout "Spouštím virtuální stroj..." w)).
Proof.
  cbv zeta.
  apply (start_vm_needs_the_installation_medium example_host
           (snd (init example_host (example_doc []) blank_world))
           (example_vm []) "/iso/win.iso");
    [reflexivity|reflexivity|intros Hin; vm_compute in Hin; discriminate Hin].
Defined.

Lemma answer_file_is_left_behind_when_dd_fails_witness :
  let w := loaded host_without_dd (example_doc []) in
  let dd := ["dd"; "if=/dev/zero"; "of=/vms/Win1_floppy.img"; "bs=1024"; "count=1440"] in
  exists xml,
    fst (generate_autounattend_xml host_without_dd w) = Ret xml
    /\ fst (create_config_iso host_without_dd w) = Raise (FileNotFoundError "dd")
    /\ events (snd (create_config_iso host_without_dd w))
       = events w ++ [EvMkdtemp "/tmp/tmp0"; EvMkdtemp "/tmp/tmp1";
                      EvOpen "/tmp/tmp1/Autounattend.xml";
                      EvWrite "/tmp/tmp1/Autounattend.xml" xml;
                      EvRun dd NotStarted; EvRmtree "/tmp/tmp0"].
Proof.
  cbv zeta.
  apply (answer_file_is_left_behind_when_dd_fails host_without_dd
           (loaded host_without_dd (example_doc []))
           [("windows_edition", YStr "datacenter"); ("computer_name", YStr "WEB01");
            ("users", YList [alice; bob]);
            ("web_project", YMap [("source_folder", YStr "/srv/site");
                                  ("name", YStr "Site")])]
           [alice; bob] NotStarted);
    try reflexivity; try exact I; try discriminate;
    apply (example_users_ok host_without_dd).
Defined.

Lemma web_project_is_copied_entry_by_entry_witness :
  let w0 := loaded host_with_site (example_doc []) in
  let w := set_files ({[ "/srv/site" ]} ∪ files w0) w0 in
  let mkisofs := ["mkisofs"; "-o"; "/vms/Win1_config.iso"; "-J"; "-r"; "-V"; "CONFIG";
                  "/tmp/tmp0"] in
  exists script,
    fst (generate_setup_script host_with_site w) = Ret script
    /\ fst (iso_stage host_with_site "/tmp/tmp0" w) = Ret "/vms/Win1_config.iso"
    /\ events (snd (iso_stage host_with_site "/tmp/tmp0" w))
       = events w ++ [EvOpen "/tmp/tmp0/setup.ps1"; EvWrite "/tmp/tmp0/setup.ps1" script;
                      EvMkdir "/tmp/tmp0/web"]
         ++ [EvCopy2 "/srv/site/index.html" "/tmp/tmp0/web";
             EvCopytree "/srv/site/css" "/tmp/tmp0/web/css"]
         ++ [EvRun mkisofs (Exited 0)].
Proof.
  cbv zeta.
  apply (web_project_is_copied_entry_by_entry host_with_site
           (set_files ({[ "/srv/site" ]} ∪ files (loaded host_with_site (example_doc [])))
              (loaded host_with_site (example_doc [])))
           "/tmp/tmp0"
           [("windows_edition", YStr "datacenter"); ("computer_name", YStr "WEB01");
            ("users", YList [alice; bob]);
            ("web_project", YMap [("source_folder", YStr "/srv/site");
                                  ("name", YStr "Site")])]
           [("name", YStr "Win1"); ("work_dir", YStr "/vms"); ("disk_size", YStr "40G");
            ("memory", YStr "4G"); ("cpus", YInt 2); ("iso_path", YStr "/iso/win.iso");
            ("network_mode", YStr "nat")]
           []
           [("source_folder", YStr "/srv/site"); ("name", YStr "Site")]
           [alice; bob] "/srv/site" site_entries);
    try reflexivity; try (intros; reflexivity); try (vm_compute; reflexivity).
  exact (Forall_impl _ _ _ (proj2 (proj2 (example_users_ok host_with_site)))
           (fun _ Hx => proj1 Hx)).
Defined.

Lemma fallback_page_needs_name_and_computer_name_witness :
  let w := loaded example_host doc_without_computer_name in
  exists script,
    fst (generate_setup_script example_host w) = Ret script
    /\ fst (iso_stage example_host "/tmp/tmp0" w) = Raise (KeyError "computer_name")
    /\ events (snd (iso_stage example_host "/tmp/tmp0" w))
       = events w ++ [EvOpen "/tmp/tmp0/setup.ps1"; EvWrite "/tmp/tmp0/setup.ps1" script;
                      EvMkdir "/tmp/tmp0/web"; EvOpen "/tmp/tmp0/web/index.html"].
Proof.
  cbv zeta.
  apply (fallback_page_needs_name_and_computer_name example_host
           (loaded example_host doc_without_computer_name)
           "/tmp/tmp0"
           [("users", YList [alice; bob]);
            ("web_project", YMap [("source_folder", YStr "/srv/site");
                                  ("name", YStr "Site")])]
           [("name", YStr "Win1"); ("work_dir", YStr "/vms"); ("disk_size", YStr "40G");
            ("memory", YStr "4G"); ("cpus", YInt 2); ("iso_path", YStr "/iso/win.iso");
            ("network_mode", YStr "nat")]
           []
           [("source_folder", YStr "/srv/site"); ("name", YStr "Site")]
           [alice; bob] "/srv/site");
    try reflexivity;
    try (intros Hin; vm_compute in Hin; discriminate Hin);
    try (right; reflexivity).
  exact (Forall_impl _ _ _ (proj2 (proj2 (example_users_ok example_host)))
           (fun _ Hx => proj1 Hx)).
Defined.

Lemma floppy_is_unmounted_before_cleanup_witness :
  let run := mount_and_copy example_host "/vms/Win1_floppy.img"
               "/tmp/tmp1/Autounattend.xml" "/tmp/tmp2" "/tmp/tmp1" in
  fst (run blank_world) = Ret tt
  /\ events (snd (run blank_world))
     = [EvRun ["sudo"; "mount"; "-o"; "loop"; "/vms/Win1_floppy.img"; "/tmp/tmp2"] (Exited 0);
        EvRun ["sudo"; "cp"; "/tmp/tmp1/Autounattend.xml"; "/tmp/tmp2"] (Exited 0);
        EvRun ["sudo"; "umount"; "/tmp/tmp2"] (Exited 0);
        EvRmtree "/tmp/tmp2"; EvRmtree "/tmp/tmp1"].
Proof.
  cbv zeta.
  destruct (floppy_is_unmounted_before_cleanup example_host blank_world
              "/vms/Win1_floppy.img" "/tmp/tmp1/Autounattend.xml" "/tmp/tmp2" "/tmp/tmp1")
    as (Hr & He & _); [reflexivity|reflexivity|].
  split; [exact Hr|exact He].
Defined.

Lemma start_vm_writes_both_scripts_witness :
  let w := loaded example_host (example_doc []) in
  let run := start_vm example_host "/vms/Win1.qcow2" "/vms/Win1_config.iso"
               "/vms/Win1_floppy.img" in
  fst (run w) = Ret tt
  /\ events (snd (run w))
     = events w
       ++ [EvOpen "/vms/run_Win1.sh";
           EvWrite "/vms/run_Win1.sh"
             (qemu_cmd "2" "4G" "" "Win1" "/vms/Win1.qcow2" "/vms/Win1_floppy.img"
                "~/iso/virtio-win.iso" "/iso/win.iso" "/vms/Win1_config.iso" "0"
                "-net nic,model=virtio -net user,hostfwd=tcp::8080-:80");
           EvChmod "/vms/run_Win1.sh" 493]
       ++ []
       ++ [EvOpen "/vms/boot_Win1.sh";
           EvWrite "/vms/boot_Win1.sh"
             (boot_cmd "" "Win1" "2" "4G" "/vms/Win1.qcow2" "0"
                "-net nic,model=virtio -net user,hostfwd=tcp::8080-:80");
           EvChmod "/vms/boot_Win1.sh" 493].
Proof.
  cbv zeta.
  destruct (start_vm_writes_both_scripts example_host
              (loaded example_host (example_doc []))
              [("name", YStr "Win1"); ("work_dir", YStr "/vms"); ("disk_size", YStr "40G");
               ("memory", YStr "4G"); ("cpus", YInt 2); ("iso_path", YStr "/iso/win.iso");
               ("network_mode", YStr "nat")]
              "/iso/win.iso" "~/iso/virtio-win.iso" (YStr "4G") (YInt 2)
              "-net nic,model=virtio -net user,hostfwd=tcp::8080-:80"
              "Port forwards:  localhost:8080 -> VM:80" "" false
              "/vms/Win1.qcow2" "/vms/Win1_config.iso" "/vms/Win1_floppy.img")
    as (Hr & He & _);
    try reflexivity; try (vm_compute; reflexivity);
    try (intros v n; eexists; reflexivity).
  split; [exact Hr|exact He].
Defined.

(** *** What the renderings depend on *)

(** X24. The answer file depends on the [windows] section alone. Two
    configurations with the same [windows] entry (or both without one) give
    the same outcome, the same text or the same exception, whatever their
    [vm] sections and whatever else differs between the two worlds. *)
Theorem answer_file_depends_on_windows_section_only (H : host) (w1 w2 : world) :
  getitem (config w1) "windows" = getitem (config w2) "windows" ->
  fst (generate_autounattend_xml H w1) = fst (generate_autounattend_xml H w2).
Proof.
  intros E. destruct (getitem (config w2) "windows") as [windows|e] eqn:E2;
    unfold generate_autounattend_xml; msimpl; rewrite ?E, ?E2; msimpl; [|reflexivity].
  destruct (get windows "windows_edition" (YStr "standard")) as [edition|e]; msimpl;
    [|reflexivity].
  destruct (mapping_get edition_mapping edition "Windows Server 2022 SERVERSTANDARD")
    as [image_name|e]; msimpl; [|reflexivity].
  rewrite ?E, ?E2. msimpl.
  destruct (getitem windows "users") as [users|e]; msimpl; [|reflexivity].
  destruct (iter users) as [items|e]; msimpl; [|reflexivity].
  rewrite !(pure_run (for_each items "" (account_step H))).
  destruct (pure_outcome (for_each items "" (account_step H))) as [users_xml|e]; msimpl;
    [|reflexivity].
  rewrite ?E, ?E2. msimpl.
  destruct (get windows "administrator_password" (YStr "Admin123!")) as [pw|e]; msimpl;
    [|reflexivity].
  rewrite ?E, ?E2. msimpl.
  destruct (get windows "computer_name" (YStr "WIN-SERVER")) as [cn|e]; msimpl;
    reflexivity.
Qed.

Lemma admins_text_names (H : host) (users : list yaml) :
  admins_text H users
  = fold_right (fun name text => script_admin name +:+ text) ""
      (map (user_name H) (List.filter is_admin users)).
Proof.
  induction users as [|user users IH]; [reflexivity|].
  cbn [admins_text List.filter]. destruct (is_admin user); cbn [map fold_right];
    now rewrite IH.
Qed.

(** X25. The setup script depends only on whether Remote Desktop is
    enabled and on the names of the members of Administrators. Two
    configurations that both have what [generate_setup_script] looks up give
    the same script when they agree on these two things: the passwords and
    descriptions of the users, the users outside Administrators, the source
    folder of the web project and the Remote Desktop host port do not reach
    the script. *)
Theorem setup_script_depends_on_rdp_and_administrators (H : host) (w1 w2 : world)
    (kvs_win1 kvs_win2 kvs_vm1 kvs_vm2 rdp1 rdp2 : list (string * yaml))
    (users1 users2 : list yaml) (web_project1 web_project2 source1 source2 : yaml) :
  getitem (config w1) "windows" = Ret (YMap kvs_win1) ->
  assoc "web_project" kvs_win1 = Some web_project1 ->
  getitem web_project1 "source_folder" = Ret source1 ->
  getitem (config w1) "vm" = Ret (YMap kvs_vm1) ->
  field kvs_vm1 "rdp" (YMap []) = YMap rdp1 ->
  assoc "users" kvs_win1 = Some (YList users1) ->
  Forall script_user_keys users1 ->
  getitem (config w2) "windows" = Ret (YMap kvs_win2) ->
  assoc "web_project" kvs_win2 = Some web_project2 ->
  getitem web_project2 "source_folder" = Ret source2 ->
  getitem (config w2) "vm" = Ret (YMap kvs_vm2) ->
  field kvs_vm2 "rdp" (YMap []) = YMap rdp2 ->
  assoc "users" kvs_win2 = Some (YList users2) ->
  Forall script_user_keys users2 ->
  truthy (field rdp1 "enabled" (YBool false)) = truthy (field rdp2 "enabled" (YBool false)) ->
  map (user_name H) (List.filter is_admin users1)
  = map (user_name H) (List.filter is_admin users2) ->
  exists script,
    fst (generate_setup_script H w1) = Ret script
    /\ fst (generate_setup_script H w2) = Ret script.
Proof.
  intros Hw1 Hwp1 Hs1 Hvm1 Hrdp1 Hu1 Hk1 Hw2 Hwp2 Hs2 Hvm2 Hrdp2 Hu2 Hk2 Hrdp Hadm.
  rewrite (generate_setup_script_run H w1 kvs_win1 kvs_vm1 rdp1 users1 _ _
             Hw1 Hwp1 Hs1 Hvm1 Hrdp1 Hu1 Hk1).
  rewrite (generate_setup_script_run H w2 kvs_win2 kvs_vm2 rdp2 users2 _ _
             Hw2 Hwp2 Hs2 Hvm2 Hrdp2 Hu2 Hk2).
  cbn [fst]. rewrite !admins_text_names, Hrdp, Hadm. eexists. split; reflexivity.
Qed.

Lemma setup_script_depends_on_rdp_and_administrators_witness :
  let carol := YMap [("username", YStr "carol"); ("password", YStr "Other3!")] in
  let windows := YMap [("users", YList [carol; alice]);
                       ("web_project", YMap [("source_folder", YStr "/elsewhere")])] in
  let vm := example_vm [("rdp", YMap [("host_port", YInt 13389)])] in
  exists script,
    fst (generate_setup_script example_host (loaded example_host (example_doc [])))
      = Ret script
    /\ fst (generate_setup_script example_host
              (loaded example_host (YMap [("vm", vm); ("windows", windows)])))
       = Ret script.
Proof.
  cbv zeta.
  apply (setup_script_depends_on_rdp_and_administrators example_host
           (loaded example_host (example_doc []))
           (loaded example_host
              (YMap [("vm", example_vm [("rdp", YMap [("host_port", YInt 13389)])]);
                     ("windows",
                      YMap [("users",
                             YList [YMap [("username", YStr "carol");
                                          ("password", YStr "Other3!")]; alice]);
                            ("web_project",
                             YMap [("source_folder", YStr "/elsewhere")])])]))
           [("windows_edition", YStr "datacenter"); ("computer_name", YStr "WEB01");
            ("users", YList [alice; bob]);
            ("web_project", YMap [("source_folder", YStr "/srv/site");
                                  ("name", YStr "Site")])]
           [("users", YList [YMap [("username", YStr "carol");
                                   ("password", YStr "Other3!")]; alice]);
            ("web_project", YMap [("source_folder", YStr "/elsewhere")])]
           [("name", YStr "Win1"); ("work_dir", YStr "/vms"); ("disk_size", YStr "40G");
            ("memory", YStr "4G"); ("cpus", YInt 2); ("iso_path", YStr "/iso/win.iso");
            ("network_mode", YStr "nat")]
           [("name", YStr "Win1"); ("work_dir", YStr "/vms"); ("disk_size", YStr "40G");
            ("memory", YStr "4G"); ("cpus", YInt 2); ("iso_path", YStr "/iso/win.iso");
            ("network_mode", YStr "nat"); ("rdp", YMap [("host_port", YInt 13389)])]
           [] [("host_port", YInt 13389)]
           [alice; bob]
           [YMap [("username", YStr "carol"); ("password", YStr "Other3!")]; alice]
           (YMap [("source_folder", YStr "/srv/site"); ("name", YStr "Site")])
           (YMap [("source_folder", YStr "/elsewhere")])
           (YStr "/srv/site") (YStr "/elsewhere"));
    try reflexivity;
    repeat constructor; try (eexists; reflexivity); try discriminate.
Defined.

Lemma answer_file_depends_on_windows_section_only_witness :
  fst (generate_autounattend_xml example_host (loaded example_host (example_doc [])))
  = fst (generate_autounattend_xml example_host
           (loaded example_host (example_doc [rdp_on]))).
Proof.
  apply (answer_file_depends_on_windows_section_only example_host
           (loaded example_host (example_doc []))
           (loaded example_host (example_doc [rdp_on]))).
  reflexivity.
Defined.

(** *** Reading the rendered texts element by element *)

Lemma occurrences_value (x : ascii) (p v s : string) :
  first_char p = Some x -> has_char x v = false ->
  occurrences p (v +:+ s) = occurrences p s.
Proof.
  destruct p as [|x' p]; [discriminate|]. intros [= ->].
  induction v as [|a v IH]; [reflexivity|].
  cbn [has_char]. intros Hv. apply orb_false_iff in Hv as [Ha Hv].
  change (String a v +:+ s) with (String a (v +:+ s)).
  cbn [occurrences starts_with]. rewrite Ha. cbn [andb Nat.add]. exact (IH Hv).
Qed.

Lemma elements_value_outside (x : ascii) (o c v s : string) :
  first_char o = Some x -> has_char x v = false ->
  elements_from o c 0 None (v +:+ s) = elements_from o c 0 None s.
Proof.
  destruct o as [|x' o]; [discriminate|]. intros [= ->].
  induction v as [|a v IH]; [reflexivity|].
  cbn [has_char]. intros Hv. apply orb_false_iff in Hv as [Ha Hv].
  change (String a v +:+ s) with (String a (v +:+ s)).
  cbn [elements_from starts_with]. rewrite Ha. cbn [andb]. exact (IH Hv).
Qed.

Lemma elements_value_inside (x : ascii) (o c v s piece : string) :
  first_char c = Some x -> has_char x v = false ->
  elements_from o c 0 (Some piece) (v +:+ s)
  = elements_from o c 0 (Some (piece +:+ v)) s.
Proof.
  destruct c as [|x' c]; [discriminate|]. intros [= ->].
  revert piece. induction v as [|a v IH]; intros piece.
  - intros _. now rewrite append_nil_r.
  - cbn [has_char]. intros Hv. apply orb_false_iff in Hv as [Ha Hv].
    change (String a v +:+ s) with (String a (v +:+ s)).
    cbn [elements_from starts_with]. rewrite Ha. cbn [andb]. rewrite (IH _ Hv).
    now rewrite append_assoc.
Qed.

(** Reads through the fixed pieces of a text and over the values between
    them. *)
Ltac read_pieces :=
  cbn [elements_from occurrences starts_with String.append Ascii.eqb Bool.eqb andb
       String.length Nat.sub Nat.add
       xml_content_1 xml_content_2 xml_content_3 xml_content_4 xml_content_5 xml_content_6
       local_account_1 local_account_2 local_account_3 local_account_4 local_account_5
       local_account_6 account_open_tag account_close_tag
       script_head script_head_1 script_rdp script_web script_admin_1 script_admin_2
       script_admin_3 script_tail member_open quote_mark dquote].

Ltac read_text :=
  rewrite ?append_assoc;
  repeat (read_pieces;
          first [ erewrite occurrences_value by first [reflexivity|assumption]
                | erewrite elements_value_outside by first [reflexivity|assumption]
                | erewrite elements_value_inside by first [reflexivity|assumption] ]);
  read_pieces.

Section AnswerFileElements.
Context (H : host).

Lemma head_has_no_accounts (img comp pw s : string) :
  markup_free img -> markup_free comp -> markup_free pw ->
  occurrences account_open_tag (xml_head img comp pw +:+ s) = occurrences account_open_tag s
  /\ occurrences account_close_tag (xml_head img comp pw +:+ s)
     = occurrences account_close_tag s
  /\ elements_from "<Name>" "</Name>" 0 None (xml_head img comp pw +:+ s)
     = elements_from "<Name>" "</Name>" 0 None s
  /\ elements_from "<Group>" "</Group>" 0 None (xml_head img comp pw +:+ s)
     = elements_from "<Group>" "</Group>" 0 None s
  /\ elements_from "<DisplayName>" "</DisplayName>" 0 None (xml_head img comp pw +:+ s)
     = elements_from "<DisplayName>" "</DisplayName>" 0 None s
  /\ elements_from "<Description>" "</Description>" 0 None (xml_head img comp pw +:+ s)
     = elements_from "<Description>" "</Description>" 0 None s.
Proof.
  unfold markup_free. intros Hi Hc Hp. unfold xml_head.
  repeat split; read_text; reflexivity.
Qed.

Lemma account_is_one_element (user : yaml) (s : string) :
  markup_free_user H user ->
  occurrences account_open_tag (account_text H user +:+ s)
  = S (occurrences account_open_tag s)
  /\ occurrences account_close_tag (account_text H user +:+ s)
     = S (occurrences account_close_tag s)
  /\ elements_from "<Name>" "</Name>" 0 None (account_text H user +:+ s)
     = user_name H user :: elements_from "<Name>" "</Name>" 0 None s
  /\ elements_from "<Group>" "</Group>" 0 None (account_text H user +:+ s)
     = user_group H user :: elements_from "<Group>" "</Group>" 0 None s
  /\ elements_from "<DisplayName>" "</DisplayName>" 0 None (account_text H user +:+ s)
     = user_name H user :: elements_from "<DisplayName>" "</DisplayName>" 0 None s
  /\ elements_from "<Description>" "</Description>" 0 None (account_text H user +:+ s)
     = user_description H user :: elements_from "<Description>" "</Description>" 0 None s.
Proof.
  unfold markup_free_user, markup_free. intros (Hp & Hd & Hn & Hg).
  unfold account_text, local_account.
  repeat split; read_text; reflexivity.
Qed.

Lemma tail_has_no_accounts :
  occurrences account_open_tag xml_content_6 = 0%nat
  /\ occurrences account_close_tag xml_content_6 = 0%nat
  /\ elements_from "<Name>" "</Name>" 0 None xml_content_6 = []
  /\ elements_from "<Group>" "</Group>" 0 None xml_content_6 = []
  /\ elements_from "<DisplayName>" "</DisplayName>" 0 None xml_content_6 = []
  /\ elements_from "<Description>" "</Description>" 0 None xml_content_6
     = ["Run setup script"].
Proof. repeat split; vm_compute; reflexivity. Qed.

Lemma accounts_counted (p : string) (users : list yaml) (s : string) :
  (forall user s', markup_free_user H user ->
     occurrences p (account_text H user +:+ s') = S (occurrences p s')) ->
  Forall (markup_free_user H) users ->
  occurrences p (accounts_text H users +:+ s) = (length users + occurrences p s)%nat.
Proof.
  intros Hone Hm. induction Hm as [|user users Hu _ IH]; [reflexivity|].
  cbn [accounts_text length]. rewrite append_assoc, (Hone _ _ Hu), IH. reflexivity.
Qed.

Lemma accounts_read (o c : string) (f : yaml -> string) (users : list yaml) (s : string) :
  (forall user s', markup_free_user H user ->
     elements_from o c 0 None (account_text H user +:+ s')
     = f user :: elements_from o c 0 None s') ->
  Forall (markup_free_user H) users ->
  elements_from o c 0 None (accounts_text H users +:+ s)
  = map f users ++ elements_from o c 0 None s.
Proof.
  intros Hone Hm. induction Hm as [|user users Hu _ IH]; [reflexivity|].
  cbn [accounts_text map app]. rewrite append_assoc, (Hone _ _ Hu), IH. reflexivity.
Qed.

Lemma image_markup_free (kvs : list (string * yaml)) : markup_free (image_name_of kvs).
Proof.
  unfold image_name_of.
  destruct (field kvs "windows_edition" (YStr "standard")) as [| | |s| |];
    cbn [mapping_get]; try reflexivity.
  unfold edition_mapping. cbn [assoc_str].
  repeat match goal with
         | |- context [if ?b then _ else _] => destruct b
         end; reflexivity.
Qed.

(** The answer file of markup-free values, read element by element. *)
Lemma answer_file_elements (img comp pw : string) (users : list yaml) :
  markup_free img -> markup_free comp -> markup_free pw ->
  Forall (markup_free_user H) users ->
  let text := xml_content img comp pw (accounts_text H users) in
  account_elements text = (length users, length users)
  /\ element_names text = map (user_name H) users
  /\ element_groups text = map (user_group H) users
  /\ element_display_names text = map (user_name H) users
  /\ element_descriptions text = map (user_description H) users ++ ["Run setup script"].
Proof.
  intros Hi Hc Hp Hm. cbv zeta. rewrite xml_content_split.
  destruct tail_has_no_accounts as (T1 & T2 & T3 & T4 & T5 & T6).
  unfold account_elements, element_names, element_groups, element_display_names,
    element_descriptions, elements.
  rewrite (proj1 (head_has_no_accounts _ _ _ _ Hi Hc Hp)).
  rewrite (proj1 (proj2 (head_has_no_accounts _ _ _ _ Hi Hc Hp))).
  rewrite (proj1 (proj2 (proj2 (head_has_no_accounts _ _ _ _ Hi Hc Hp)))).
  rewrite (proj1 (proj2 (proj2 (proj2 (head_has_no_accounts _ _ _ _ Hi Hc Hp))))).
  rewrite (proj1 (proj2 (proj2 (proj2 (proj2 (head_has_no_accounts _ _ _ _ Hi Hc Hp)))))).
  rewrite (proj2 (proj2 (proj2 (proj2 (proj2 (head_has_no_accounts _ _ _ _ Hi Hc Hp)))))).
  rewrite (accounts_counted account_open_tag users _
             (fun user s' Hu => proj1 (account_is_one_element user s' Hu)) Hm).
  rewrite (accounts_counted account_close_tag users _
             (fun user s' Hu => proj1 (proj2 (account_is_one_element user s' Hu))) Hm).
  rewrite (accounts_read _ _ (user_name H) users _
             (fun user s' Hu => proj1 (proj2 (proj2 (account_is_one_element user s' Hu))))
             Hm).
  rewrite (accounts_read _ _ (user_group H) users _
             (fun user s' Hu =>
                proj1 (proj2 (proj2 (proj2 (account_is_one_element user s' Hu))))) Hm).
  rewrite (accounts_read "<DisplayName>" _ (user_name H) users _
             (fun user s' Hu =>
                proj1 (proj2 (proj2 (proj2 (proj2 (account_is_one_element user s' Hu))))))
             Hm).
  rewrite (accounts_read _ _ (user_description H) users _
             (fun user s' Hu =>
                proj2 (proj2 (proj2 (proj2 (proj2 (account_is_one_element user s' Hu))))))
             Hm).
  rewrite T1, T2, T3, T4, T5, T6, !app_nil_r, !Nat.add_0_r. repeat split.
Qed.

End AnswerFileElements.

Section SetupScriptMembers.
Context (H : host).

Lemma plain_has_no_quote (v : string) : plain v = true -> has_char dquote v = false.
Proof.
  induction v as [|a v IH]; [reflexivity|].
  cbn [plain has_char]. intros Hp. apply andb_true_iff in Hp as [Ha Hv].
  rewrite (IH Hv), orb_false_r.
  destruct (Ascii.eqb_spec dquote a) as [<-|_]; [discriminate Ha|reflexivity].
Qed.

Lemma fixed_chunks_name_nobody (s : string) :
  elements_from member_open quote_mark 0 None (script_head +:+ s)
  = elements_from member_open quote_mark 0 None s
  /\ elements_from member_open quote_mark 0 None (script_rdp +:+ s)
     = elements_from member_open quote_mark 0 None s
  /\ elements_from member_open quote_mark 0 None (script_web +:+ s)
     = elements_from member_open quote_mark 0 None s
  /\ elements_from member_open quote_mark 0 None script_tail = [].
Proof.
  repeat split; read_text; reflexivity.
Qed.

Lemma admin_block_names_member (u s : string) :
  has_char dquote u = false ->
  elements_from member_open quote_mark 0 None (script_admin u +:+ s)
  = u :: elements_from member_open quote_mark 0 None s.
Proof. intros Hu. unfold script_admin. read_text. reflexivity. Qed.

Lemma admins_named (users : list yaml) (s : string) :
  Forall (script_user_plain H) users ->
  elements_from member_open quote_mark 0 None (admins_text H users +:+ s)
  = map (user_name H) (List.filter is_admin users)
    ++ elements_from member_open quote_mark 0 None s.
Proof.
  intros Hp. induction Hp as [|user users [_ Hu] _ IH]; [reflexivity|].
  cbn [admins_text List.filter]. destruct (is_admin user); [|exact IH].
  cbn [map app]. rewrite append_assoc.
  rewrite (admin_block_names_member _ _ (plain_has_no_quote _ (Hu eq_refl))).
  now rewrite IH.
Qed.

End SetupScriptMembers.

(** C9 (amended). One LocalAccount element per user, in order, for values
    without markup. Take a [windows] section with a scalar edition key (or
    none) and a list of users that each have a password and a username, and
    let no interpolated value (the password, description, username and group
    of a user, the computer name, the administrator password) contain the
    character [<]. Then the answer file is rendered, it has as many
    LocalAccount opening tags and as many closing tags as there are users,
    and its Name elements are the usernames in the order of the
    configuration. The text is read character by character, so line breaks
    in the values do not matter. *)
Theorem local_accounts_match_users (H : host) (w : world)
    (kvs : list (string * yaml)) (users : list yaml) :
  getitem (config w) "windows" = Ret (YMap kvs) ->
  scalar (field kvs "windows_edition" (YStr "standard")) ->
  assoc "users" kvs = Some (YList users) ->
  Forall has_account_keys users ->
  Forall (markup_free_user H) users ->
  markup_free (str H (field kvs "computer_name" (YStr "WIN-SERVER"))) ->
  markup_free (str H (field kvs "administrator_password" (YStr "Admin123!"))) ->
  exists text,
    fst (generate_autounattend_xml H w) = Ret text
    /\ account_elements text = (length users, length users)
    /\ element_names text = map (user_name H) users.
Proof.
  intros Hw He Hu Hk Hm Hc Hp.
  rewrite (generate_autounattend_xml_run H w kvs users Hw He Hu Hk).
  eexists. split; [reflexivity|].
  destruct (answer_file_elements H _ _ _ users (image_markup_free kvs) Hc Hp Hm)
    as (Ha & Hn & _).
  split; assumption.
Qed.

(** C9 as stated fails: one configured user whose description holds
    markup gives an answer file with two LocalAccount elements, the first of
    them for an account named ghost in the group Administrators. *)
Lemma markup_in_a_description_adds_an_account :
  let w := loaded example_host doc_with_mallory in
  match getitem (config w) "windows" with
  | Ret windows => getitem windows "users"
  | Raise e => Raise e
  end = Ret (YList [mallory])
  /\ exists text,
       fst (generate_autounattend_xml example_host w) = Ret text
       /\ account_elements text = (2, 2)%nat
       /\ account_elements text <> (length [mallory], length [mallory])
       /\ element_names text = ["ghost"; "mallory"]
       /\ element_groups text = ["Administrators"; "Users"].
Proof.
  cbv zeta. split; [reflexivity|].
  eexists. split; [vm_compute; reflexivity|].
  split; [vm_compute; reflexivity|].
  split; [vm_compute; discriminate|].
  split; vm_compute; reflexivity.
Qed.

Lemma local_accounts_match_users_witness :
  exists text,
    fst (generate_autounattend_xml example_host (loaded example_host (example_doc [])))
      = Ret text
    /\ account_elements text = (2, 2)%nat
    /\ element_names text = ["alice"; "bob"].
Proof.
  apply (local_accounts_match_users example_host (loaded example_host (example_doc []))
           [("windows_edition", YStr "datacenter"); ("computer_name", YStr "WEB01");
            ("users", YList [alice; bob]);
            ("web_project", YMap [("source_folder", YStr "/srv/site");
                                  ("name", YStr "Site")])]
           [alice; bob]);
    try reflexivity; try exact I; try apply (example_users_ok example_host).
  repeat constructor; reflexivity.
Defined.

(** X9. The setup script names for Administrators exactly the users
    whose group is Administrators, in the order of the configuration; a user
    without a group counts as a member of Users and is not named. This holds
    when the keys that [generate_setup_script] needs are there, the [rdp]
    entry is absent or a mapping, and the usernames of the members of
    Administrators are plain (ASCII letters, digits, space, hyphen, dot,
    underscore), so that a username cannot end the text it stands in. The
    members are read character by character, between the opening of a
    -Member argument for Administrators and the double quote that closes
    it. *)
Theorem setup_script_adds_the_administrators (H : host) (w : world)
    (kvs_win kvs_vm rdp : list (string * yaml)) (users : list yaml)
    (web_project source : yaml) :
  getitem (config w) "windows" = Ret (YMap kvs_win) ->
  assoc "web_project" kvs_win = Some web_project ->
  getitem web_project "source_folder" = Ret source ->
  getitem (config w) "vm" = Ret (YMap kvs_vm) ->
  field kvs_vm "rdp" (YMap []) = YMap rdp ->
  assoc "users" kvs_win = Some (YList users) ->
  Forall (script_user_plain H) users ->
  exists text,
    fst (generate_setup_script H w) = Ret text
    /\ named_members text = map (user_name H) (List.filter is_admin users).
Proof.
  intros Hw Hwp Hs Hvm Hrdp Hu Hk.
  rewrite (generate_setup_script_run H w kvs_win kvs_vm rdp users web_project source
             Hw Hwp Hs Hvm Hrdp Hu (Forall_impl _ _ _ Hk (fun _ Hx => proj1 Hx))).
  eexists. split; [reflexivity|].
  unfold named_members, elements.
  rewrite (proj1 (fixed_chunks_name_nobody _)).
  assert (Er : forall s,
             elements_from member_open quote_mark 0 None
               ((if truthy (field rdp "enabled" (YBool false)) then script_rdp else "") +:+ s)
             = elements_from member_open quote_mark 0 None s).
  { intros s. destruct (truthy _); [|reflexivity].
    exact (proj1 (proj2 (fixed_chunks_name_nobody s))). }
  rewrite Er, (proj1 (proj2 (proj2 (fixed_chunks_name_nobody _)))).
  rewrite (admins_named H users _ Hk).
  rewrite (proj2 (proj2 (proj2 (fixed_chunks_name_nobody "")))).
  apply app_nil_r.
Qed.

Lemma setup_script_adds_the_administrators_witness :
  exists text,
    fst (generate_setup_script example_host (loaded example_host (example_doc [])))
      = Ret text
    /\ named_members text = ["alice"].
Proof.
  apply (setup_script_adds_the_administrators example_host
           (loaded example_host (example_doc []))
           [("windows_edition", YStr "datacenter"); ("computer_name", YStr "WEB01");
            ("users", YList [alice; bob]);
            ("web_project", YMap [("source_folder", YStr "/srv/site");
                                  ("name", YStr "Site")])]
           [("name", YStr "Win1"); ("work_dir", YStr "/vms"); ("disk_size", YStr "40G");
            ("memory", YStr "4G"); ("cpus", YInt 2); ("iso_path", YStr "/iso/win.iso");
            ("network_mode", YStr "nat")]
           []
           [alice; bob]
           (YMap [("source_folder", YStr "/srv/site"); ("name", YStr "Site")])
           (YStr "/srv/site"));
    try reflexivity.
  repeat constructor; try (eexists; reflexivity); try reflexivity;
    intros; try discriminate; try (eexists; reflexivity); reflexivity.
Defined.

(** X11. Each LocalAccount element carries the fields of its user, for
    values without markup. For a [windows] section with a scalar edition key
    (or none) and a list of users that each have a password and a username,
    where no interpolated value contains the character [<], the answer file
    has one LocalAccount element per user, and its Group elements give, user
    by user, the configured group, or Users for a user without one; its
    DisplayName elements give the usernames; its Description elements give
    the descriptions, empty for a user without one, followed by the
    description of the first-logon command. The text is read character by
    character. *)
Theorem account_fields_read_back (H : host) (w : world)
    (kvs : list (string * yaml)) (users : list yaml) :
  getitem (config w) "windows" = Ret (YMap kvs) ->
  scalar (field kvs "windows_edition" (YStr "standard")) ->
  assoc "users" kvs = Some (YList users) ->
  Forall has_account_keys users ->
  Forall (markup_free_user H) users ->
  markup_free (str H (field kvs "computer_name" (YStr "WIN-SERVER"))) ->
  markup_free (str H (field kvs "administrator_password" (YStr "Admin123!"))) ->
  exists text,
    fst (generate_autounattend_xml H w) = Ret text
    /\ account_elements text = (length users, length users)
    /\ element_groups text = map (user_group H) users
    /\ element_display_names text = map (user_name H) users
    /\ element_descriptions text = map (user_description H) users ++ ["Run setup script"]
    /\ (forall kvs_user, In (YMap kvs_user) users ->
        (assoc "group" kvs_user = None -> user_group H (YMap kvs_user) = "Users")
        /\ (assoc "description" kvs_user = None ->
            user_description H (YMap kvs_user) = "")).
Proof.
  intros Hw He Hu Hk Hm Hc Hp.
  rewrite (generate_autounattend_xml_run H w kvs users Hw He Hu Hk).
  eexists. split; [reflexivity|].
  destruct (answer_file_elements H _ _ _ users (image_markup_free kvs) Hc Hp Hm)
    as (Ha & _ & Hg & Hn & Hd).
  repeat (split; [assumption|]).
  intros kvs_user _. unfold user_group, user_description. cbn [get].
  split; intros ->; reflexivity.
Qed.

Lemma account_fields_read_back_witness :
  exists text,
    fst (generate_autounattend_xml example_host (loaded example_host (example_doc [])))
      = Ret text
    /\ account_elements text = (2, 2)%nat
    /\ element_groups text = ["Administrators"; "Users"]
    /\ element_display_names text = ["alice"; "bob"]
    /\ element_descriptions text = [""; "Web editor"; "Run setup script"].
Proof.
  destruct (account_fields_read_back example_host
              (loaded example_host (example_doc []))
              [("windows_edition", YStr "datacenter"); ("computer_name", YStr "WEB01");
               ("users", YList [alice; bob]);
               ("web_project", YMap [("source_folder", YStr "/srv/site");
                                     ("name", YStr "Site")])]
              [alice; bob])
    as (text & Ht & Ha & Hg & Hn & Hd & _);
    try reflexivity; try exact I; try apply (example_users_ok example_host);
    try (repeat constructor; reflexivity).
  exists text. repeat split; assumption.
Defined.

End Deployer.
